(** * Gym occupancy around a match: [prep_data] and [prep_data_stats]

    A shallow embedding of the two data functions of [utils.py].  A pandas
    DataFrame is the list of its rows, in row order.  What the code asks of
    the Python [datetime] module, of pandas and of [scipy.integrate.simps]
    is modelled in the modules [Calendar], [Number], [Series], [Pandas] and
    [Scipy]; [prep_data] and [prep_data_stats] follow the source line by
    line.  A call either returns or raises, and what it prints is kept.
    Of [plot_match], which draws, the lookup of the name of the match day
    is modelled.

    The match date is taken once parsed, timestamps are never missing, and
    an occupancy of the raw table is a number. *)

From Stdlib Require Import ZArith QArith Qreduction List String Bool Lia Lqa Sorted Permutation.
Import ListNotations.
Open Scope Z_scope.

(* ------------------------------------------------------------------ *)
(** ** The calendar: [datetime.date] and pandas timestamps *)

Module Calendar.

(** [datetime.date]: what [datetime.strptime(match_date, "%Y-%m-%d")]
    yields once the string is parsed. *)
Record date := mkDate { year : Z; month : Z; day : Z }.

Definition is_leap (y : Z) : bool :=
  (y mod 4 =? 0) && (negb (y mod 100 =? 0) || (y mod 400 =? 0)).

Definition days_before_year (y : Z) : Z :=
  let p := y - 1 in p * 365 + p / 4 - p / 100 + p / 400.

Definition DAYS_BEFORE_MONTH : list Z :=
  [-1; 0; 31; 59; 90; 120; 151; 181; 212; 243; 273; 304; 334].

Definition days_before_month (y m : Z) : Z :=
  nth (Z.to_nat m) DAYS_BEFORE_MONTH 0
  + (if (2 <? m) && is_leap y then 1 else 0).

(** [date.toordinal()]: day 1 is 0001-01-01. *)
Definition ymd2ord (y m d : Z) : Z :=
  days_before_year y + days_before_month y m + d.

Definition toordinal (d : date) : Z := ymd2ord (year d) (month d) (day d).

(** The year of an ordinal, as [_ord2ymd] computes it. *)
Definition ord2year (ord : Z) : Z :=
  let n := ord - 1 in
  let n400 := n / 146097 in
  let n := n mod 146097 in
  let n100 := n / 36524 in
  let n := n mod 36524 in
  let n4 := n / 1461 in
  let n := n mod 1461 in
  let n1 := n / 365 in
  let y := n400 * 400 + 1 + n100 * 100 + n4 * 4 + n1 in
  if (n1 =? 4) || (n100 =? 4) then y - 1 else y.

(** [date.weekday()]: Monday is 0. *)
Definition weekday_of_ord (ord : Z) : Z := (ord + 6) mod 7.

Definition weekday (d : date) : Z := weekday_of_ord (toordinal d).

Definition isoweek1monday (y : Z) : Z :=
  let firstday := ymd2ord y 1 1 in
  let firstweekday := (firstday + 6) mod 7 in
  let week1monday := firstday - firstweekday in
  if 3 <? firstweekday then week1monday + 7 else week1monday.

(** The week of [date.isocalendar()], from the ordinal of the day. *)
Definition isoweek_of_ord (today : Z) : Z :=
  let y := ord2year today in
  let week := (today - isoweek1monday y) / 7 in
  if week <? 0 then (today - isoweek1monday (y - 1)) / 7 + 1
  else if (52 <=? week) && (isoweek1monday (y + 1) <=? today) then 1
  else week + 1.

(** A pandas timestamp ([datetime64[ns]]): nanoseconds since
    1970-01-01T00:00:00, whose ordinal is 719163. *)
Definition Timestamp := Z.

Definition ns_per_second : Z := 1000000000.
Definition ns_per_day : Z := 86400 * ns_per_second.
Definition epoch_ordinal : Z := 719163.

Definition ordinal_of (t : Timestamp) : Z := t / ns_per_day + epoch_ordinal.

(** [pd.Timestamp(match_date)]: midnight of that day. *)
Definition Timestamp_of_date (d : date) : Timestamp :=
  (toordinal d - epoch_ordinal) * ns_per_day.

(** [pd.to_timedelta(n, unit="d")] *)
Definition to_timedelta_days (n : Z) : Z := n * ns_per_day.

(** [.dt.dayofweek] and [.dt.isocalendar().week] *)
Definition dayofweek (t : Timestamp) : Z := weekday_of_ord (ordinal_of t).
Definition isocalendar_week (t : Timestamp) : Z := isoweek_of_ord (ordinal_of t).

(** [datetime.time]: the time of day, to the microsecond. *)
Record time := mkTime { hour : Z; minute : Z; second : Z; microsecond : Z }.

(** [.dt.time] *)
Definition time_of (t : Timestamp) : time :=
  let ns := t mod ns_per_day in
  let s := ns / ns_per_second in
  mkTime (s / 3600) (s mod 3600 / 60) (s mod 60) (ns mod ns_per_second / 1000).

Definition time_eqb (a b : time) : bool :=
  (hour a =? hour b) && (minute a =? minute b)
  && (second a =? second b) && (microsecond a =? microsecond b).

(** A timestamp from its civil fields, for writing inputs down. *)
Definition at_time (d : date) (h m : Z) : Timestamp :=
  Timestamp_of_date d + (h * 3600 + m * 60) * ns_per_second.

End Calendar.
Import Calendar.

(* ------------------------------------------------------------------ *)
(** ** Exceptions *)

Inductive exn : Type :=
| NAAmbiguous       (* TypeError: boolean value of NA is ambiguous *)
| HourOutOfRange    (* ValueError: hour must be in 0..23 *)
| DuplicateEntries  (* ValueError: Index contains duplicate entries, cannot reshape *)
| LengthMismatch    (* ValueError: Length mismatch on assigning [columns] *)
| IndexError.       (* IndexError: index out of bounds *)

Inductive outcome (A : Type) : Type :=
| Return (a : A)
| Raise (e : exn).
Arguments Return {A} a.
Arguments Raise {A} e.

Definition bind {A B} (m : outcome A) (f : A -> outcome B) : outcome B :=
  match m with
  | Return a => f a
  | Raise e => Raise e
  end.

Notation "x <- m ;; k" := (bind m (fun x => k))
  (at level 61, m at next level, right associativity).

(* ------------------------------------------------------------------ *)
(** ** Column values

    A float64 cell is modelled by an exact rational, the two infinities or
    NaN (the missing value of pandas); rounding and the sign of zero are
    not modelled.  Every operation returns its rational in lowest terms. *)

Module Number.

Inductive number : Type :=
| Fin (q : Q)
| Inf (negative : bool)
| NaN.

Definition Qneg (q : Q) : bool := (Qnum q <? 0)%Z.
Definition Qzero (q : Q) : bool := (Qnum q =? 0)%Z.

Definition isnan (x : number) : bool :=
  match x with NaN => true | _ => false end.

Definition add (x y : number) : number :=
  match x, y with
  | NaN, _ | _, NaN => NaN
  | Fin a, Fin b => Fin (Qred (a + b))
  | Inf s, Inf t => if Bool.eqb s t then Inf s else NaN
  | Inf s, Fin _ | Fin _, Inf s => Inf s
  end.

Definition opp (x : number) : number :=
  match x with
  | Fin a => Fin (Qred (- a))
  | Inf s => Inf (negb s)
  | NaN => NaN
  end.

Definition sub (x y : number) : number := add x (opp y).

Definition mul (x y : number) : number :=
  match x, y with
  | NaN, _ | _, NaN => NaN
  | Fin a, Fin b => Fin (Qred (a * b))
  | Inf s, Inf t => Inf (xorb s t)
  | Inf s, Fin a | Fin a, Inf s =>
      if Qzero a then NaN else Inf (xorb s (Qneg a))
  end.

Definition div (x y : number) : number :=
  match x, y with
  | NaN, _ | _, NaN => NaN
  | Fin a, Fin b =>
      if Qzero b then (if Qzero a then NaN else Inf (Qneg a))
      else Fin (Qred (a / b))
  | Fin _, Inf _ => Fin 0
  | Inf s, Fin b => Inf (xorb s (Qneg b))
  | Inf _, Inf _ => NaN
  end.

Definition of_Z (z : Z) : number := Fin (inject_Z z).

Definition sum (l : list number) : number := fold_left add l (Fin 0).

(** [Series.mean()] and [DataFrame.mean(axis=1)]: missing values are
    skipped, and the mean of no value is missing. *)
Definition mean (l : list number) : number :=
  let xs := filter (fun x => negb (isnan x)) l in
  match xs with
  | [] => NaN
  | _ => div (sum xs) (of_Z (Z.of_nat (List.length xs)))
  end.

(** Equality of values up to the representation of a rational. *)
Definition eqv (x y : number) : Prop :=
  match x, y with
  | Fin a, Fin b => a == b
  | Inf s, Inf t => s = t
  | NaN, NaN => True
  | _, _ => False
  end.

End Number.
Import Number.

(* ------------------------------------------------------------------ *)
(** ** The data *)

(** A row of the raw table. *)
Record Occupancy := mkOccupancy {
  datetime : Timestamp;
  country : string;
  gym : string;
  occupancy : Q
}.

(** A row of the table [prep_data] returns: the raw row and its week. *)
Record Windowed := mkWindowed {
  row :> Occupancy;
  week : Z
}.

(* ------------------------------------------------------------------ *)
(** ** [prep_data] *)

Module Series.

Fixpoint min (l : list Z) : option Z :=
  match l with
  | [] => None
  | x :: t => match min t with
              | None => Some x
              | Some m => Some (Z.min x m)
              end
  end.

Fixpoint max (l : list Z) : option Z :=
  match l with
  | [] => None
  | x :: t => match max t with
              | None => Some x
              | Some m => Some (Z.max x m)
              end
  end.

End Series.

Definition set_week (f : Z -> Z) (r : Windowed) : Windowed :=
  mkWindowed (row r) (f (week r)).

(** Line 30: [df_raw[df_raw["datetime"] - pd.to_timedelta(1, unit="d") <= match_date]] *)
Definition until_match_day (df_raw : list Occupancy) (match_date : date)
  : list Occupancy :=
  filter (fun r => datetime r - to_timedelta_days 1 <=? Timestamp_of_date match_date)
         df_raw.

(** Lines 33-34: [df[df["datetime"].dt.dayofweek == dow]] *)
Definition same_weekday (df : list Occupancy) (match_date : date)
  : list Occupancy :=
  let dow := weekday match_date in
  filter (fun r => dayofweek (datetime r) =? dow) df.

(** Lines 37-41.  The week column is a nullable unsigned integer column:
    on an empty table its [min()] and [max()] are [pd.NA], and the test
    [if df["week"].max() == 8] raises. *)
Definition number_weeks (df : list Occupancy) : outcome (list Windowed) :=
  let df := map (fun r => mkWindowed r (isocalendar_week (datetime r))) df in
  match Series.min (map week df) with
  | None => Raise NAAmbiguous
  | Some lo =>
      let df := map (set_week (fun w => w - lo + 1)) df in
      match Series.max (map week df) with
      | None => Raise NAAmbiguous
      | Some hi =>
          if hi =? 8 then
            let df := map (set_week (fun w => w - 1)) df in
            Return (filter (fun r => 0 <? week r) df)
          else Return df
      end
  end.

Definition prep_data (df_raw : list Occupancy) (match_date : date)
  : outcome (list Windowed) :=
  let df := until_match_day df_raw match_date in
  let df := same_weekday df match_date in
  number_weeks df.

(* ------------------------------------------------------------------ *)
(** ** The pandas operations of [prep_data_stats] *)

Module Pandas.

(** Lexicographic combination of two comparisons. *)
Definition lex (c d : comparison) : comparison :=
  match c with
  | Eq => d
  | _ => c
  end.

Section Sorting.
Context {K : Type} (cmp : K -> K -> comparison).

Definition eqk (a b : K) : bool :=
  match cmp a b with Eq => true | _ => false end.

Fixpoint insert_unique (k : K) (l : list K) : list K :=
  match l with
  | [] => [k]
  | h :: t =>
      match cmp k h with
      | Lt => k :: l
      | Eq => l
      | Gt => h :: insert_unique k t
      end
  end.

(** The sorted distinct values of a column: the labels of an unstacked
    axis, and the group keys of [groupby]. *)
Definition unique_sorted (l : list K) : list K :=
  fold_right insert_unique [] l.

Fixpoint insert_stable {A : Type} (key : A -> K) (a : A) (l : list A) : list A :=
  match l with
  | [] => [a]
  | h :: t =>
      match cmp (key a) (key h) with
      | Gt => h :: insert_stable key a t
      | _ => a :: l
      end
  end.

(** [sort_values(by)]: the rows in ascending order of their key, rows of
    equal keys in their former order. *)
Definition sort_values {A : Type} (key : A -> K) (l : list A) : list A :=
  fold_right (insert_stable key) [] l.

(** [groupby(by)]: the groups in ascending order of their key, each with
    its rows in their former order. *)
Definition groupby {A : Type} (key : A -> K) (l : list A) : list (K * list A) :=
  map (fun k => (k, filter (fun a => eqk k (key a)) l))
      (unique_sorted (map key l)).
End Sorting.

Section Pivot.
Context {K : Type} (cmp : K -> K -> comparison).

(** [pivot(index, columns="week", values="occupancy")] on rows given as
    (index key, week, occupancy): the week labels in ascending order and
    one row per index key, in ascending order, a missing cell being NaN.
    Two rows with the same index key and week make it raise. *)
Fixpoint duplicated (l : list (K * Z)) : bool :=
  match l with
  | [] => false
  | e :: t =>
      existsb (fun e' => eqk cmp (fst e) (fst e') && (snd e =? snd e')) t
      || duplicated t
  end.

Definition cell (rows : list (K * Z * Q)) (k : K) (w : Z) : number :=
  match find (fun e => eqk cmp k (fst (fst e)) && (w =? snd (fst e))) rows with
  | Some e => Fin (snd e)
  | None => NaN
  end.

Definition pivot (rows : list (K * Z * Q))
  : outcome (list Z * list (K * list number)) :=
  if duplicated (map fst rows) then Raise DuplicateEntries
  else
    let columns := unique_sorted Z.compare (map (fun e => snd (fst e)) rows) in
    let index := unique_sorted cmp (map (fun e => fst (fst e)) rows) in
    Return (columns,
            map (fun k => (k, map (fun w => cell rows k w) columns)) index).
End Pivot.

(** [Series.map(dict)]: a key the dict lacks maps to NaN. *)
Definition map_dict (d : list (string * number)) (k : string) : number :=
  match find (fun kv => String.eqb (fst kv) k) d with
  | Some kv => snd kv
  | None => NaN
  end.

End Pandas.
Import Pandas.

(* ------------------------------------------------------------------ *)
(** ** [scipy.integrate.simps(y, x)] on one-dimensional samples *)

Module Scipy.

(** One parabolic segment of [_basic_simpson] with unequal spacings, on
    three consecutive samples (x, y). *)
Definition segment (p0 p1 p2 : number * number) : number :=
  let h0 := sub (fst p1) (fst p0) in
  let h1 := sub (fst p2) (fst p1) in
  let hsum := add h0 h1 in
  let hprod := mul h0 h1 in
  let h0divh1 := div h0 h1 in
  mul (div hsum (of_Z 6))
      (add (add (mul (snd p0) (sub (of_Z 2) (div (of_Z 1) h0divh1)))
                (mul (snd p1) (div (mul hsum hsum) hprod)))
           (mul (snd p2) (sub (of_Z 2) h0divh1))).

(** The segments on samples (i, i+1, i+2) for i = 0, 2, 4, ...; with fewer
    than three samples the slices are empty. *)
Fixpoint segments (pts : list (number * number)) : list number :=
  match pts with
  | p0 :: p1 :: ((p2 :: _) as rest) => segment p0 p1 p2 :: segments rest
  | _ => []
  end.

(** [_basic_simpson(y, start, stop, x, dx, axis)]: [np.sum] of the
    segments. The callers below pass the samples the slices cover. *)
Definition basic_simpson (pts : list (number * number)) : number :=
  sum (segments pts).

Definition trapezoid (p q : number * number) : number :=
  mul (mul (Fin (1 # 2)) (sub (fst q) (fst p))) (add (snd q) (snd p)).

(** [simps(y, x)] with the default [even='avg'], on the samples
    [pts = zip x y].  An odd number of samples is integrated by Simpson's
    rule; for an even number N the rule on the first N-1 samples plus a
    trapezoid on the last interval, and the rule on the last N-1 samples
    plus a trapezoid on the first interval, are averaged.  Indexing the
    last sample of an empty array raises. *)
Definition simps (pts : list (number * number)) : outcome number :=
  let N := List.length pts in
  if Nat.even N then
    match pts, rev pts with
    | p0 :: p1 :: _, q1 :: q2 :: _ =>
        let val := add (Fin 0) (trapezoid q2 q1) in
        let result := basic_simpson (removelast pts) in
        let val := add val (trapezoid p0 p1) in
        let result := add result (basic_simpson (tl pts)) in
        let val := div val (of_Z 2) in
        let result := div result (of_Z 2) in
        Return (add result val)
    | _, _ => Raise IndexError
    end
  else Return (basic_simpson pts).

End Scipy.
Import Scipy.

(* ------------------------------------------------------------------ *)
(** ** [prep_data_stats] *)

(** A row of the pivoted table once its columns are named: the index
    columns, [w1] .. [w7] and the derived [w1-6]. *)
Record Wide (K : Type) := mkWide {
  index : K;
  w1 : number; w2 : number; w3 : number; w4 : number;
  w5 : number; w6 : number; w7 : number;
  w1_6 : number
}.
Arguments mkWide {K}.
Arguments index {K}.
Arguments w1 {K}.
Arguments w2 {K}.
Arguments w3 {K}.
Arguments w4 {K}.
Arguments w5 {K}.
Arguments w6 {K}.
Arguments w7 {K}.
Arguments w1_6 {K}.

(** A row of the long table that is returned; the value column is named
    [occupancy] by the kick-off branch and [auc] by the AUC branch. *)
Record Long := mkLong {
  l_country : string;
  l_gym : string;
  l_week : string;
  l_value : number
}.

(** A row of the melted table: the index columns, [variable] (renamed
    [week]) and [value] (renamed [occupancy]). *)
Record Melted (K : Type) := mkMelted {
  m_index : K;
  m_week : string;
  m_occupancy : number
}.
Arguments mkMelted {K}.
Arguments m_index {K}.
Arguments m_week {K}.
Arguments m_occupancy {K}.

Section Wide.
Context {K : Type} (country_of : K -> string).

(** [dfw.columns = names] after [reset_index()]: the table has its index
    columns and one column per week label. *)
Definition set_columns (names : list string) (n_index : nat)
           (t : list Z * list (K * list number))
  : outcome (list (K * list number)) :=
  if Nat.eqb (n_index + List.length (fst t)) (List.length names)
  then Return (snd t)
  else Raise LengthMismatch.

(** [dfw["w1-6"] = dfw.iloc[:, n_index:-1].mean(axis=1)] *)
Definition with_w1_6 (r : K * list number) : Wide K :=
  let c := snd r in
  mkWide (fst r) (nth 0 c NaN) (nth 1 c NaN) (nth 2 c NaN) (nth 3 c NaN)
         (nth 4 c NaN) (nth 5 c NaN) (nth 6 c NaN)
         (mean (removelast c)).

Definition baseline (dfw : list (Wide K)) (c : string) : number :=
  mean (map w1_6 (filter (fun r => String.eqb (country_of (index r)) c) dfw)).

Definition set_w1_6 (f : Wide K -> number) (r : Wide K) : Wide K :=
  mkWide (index r) (w1 r) (w2 r) (w3 r) (w4 r) (w5 r) (w6 r) (w7 r) (f r).

Definition set_w7 (f : Wide K -> number) (r : Wide K) : Wide K :=
  mkWide (index r) (w1 r) (w2 r) (w3 r) (w4 r) (w5 r) (w6 r) (f r) (w1_6 r).

(** The [if norm:] block, the same in both branches. *)
Definition normalise (dfw : list (Wide K)) : list (Wide K) :=
  let eng_baseline := baseline dfw "England" in
  let sct_baseline := baseline dfw "Scotland" in
  let baseline_map := [("England"%string, eng_baseline);
                       ("Scotland"%string, sct_baseline)] in
  let dfw := map (set_w1_6 (fun r =>
               div (w1_6 r) (map_dict baseline_map (country_of (index r))))) dfw in
  map (set_w7 (fun r =>
         div (w7 r) (map_dict baseline_map (country_of (index r))))) dfw.

(** [melt(id_vars=index, value_vars=["w1-6", "w7"])]: the [w1-6] rows,
    then the [w7] rows. *)
Definition melt (dfw : list (Wide K)) : list (Melted K) :=
  map (fun r => mkMelted (index r) "w1-6" (w1_6 r)) dfw
  ++ map (fun r => mkMelted (index r) "w7" (w7 r)) dfw.
End Wide.

Definition cmp2 (a b : string * string) : comparison :=
  lex (String.compare (fst a) (fst b)) (String.compare (snd a) (snd b)).

Definition cmp_time (a b : time) : comparison :=
  lex (hour a ?= hour b)
      (lex (minute a ?= minute b)
           (lex (second a ?= second b) (microsecond a ?= microsecond b))).

Definition cmp_index3 (a b : string * string * time) : comparison :=
  lex (cmp2 (fst a) (fst b)) (cmp_time (snd a) (snd b)).

Definition cmp3 (a b : string * string * string) : comparison :=
  lex (cmp2 (fst a) (fst b)) (String.compare (snd a) (snd b)).

Definition kickoff_columns : list string :=
  ["country"; "gym"; "w1"; "w2"; "w3"; "w4"; "w5"; "w6"; "w7"]%string.

Definition auc_columns : list string :=
  ["country"; "gym"; "time"; "w1"; "w2"; "w3"; "w4"; "w5"; "w6"; "w7"]%string.

(** [time(int(kickoff), 0, 0)] *)
Definition time_of_hour (kickoff : Z) : outcome time :=
  if (0 <=? kickoff) && (kickoff <=? 23) then Return (mkTime kickoff 0 0 0)
  else Raise HourOutOfRange.

(** Lines 81-96: the kick-off table before normalisation. *)
Definition kickoff_wide (df : list Windowed) (kickoff : Z)
  : outcome (list (Wide (string * string))) :=
  t <- time_of_hour kickoff ;;
  let dfw := filter (fun r : Windowed => time_eqb (time_of (datetime r)) t) df in
  p <- pivot cmp2
         (map (fun r : Windowed => ((country r, gym r), week r, occupancy r)) dfw) ;;
  dfw <- set_columns kickoff_columns 2 p ;;
  Return (map with_w1_6 dfw).

(** Lines 109-124: the AUC table before normalisation. *)
Definition auc_wide (df : list Windowed)
  : outcome (list (Wide (string * string * time))) :=
  p <- pivot cmp_index3
         (map (fun r : Windowed => ((country r, gym r, time_of (datetime r)),
                                    week r, occupancy r)) df) ;;
  dfw <- set_columns auc_columns 3 p ;;
  Return (map with_w1_6 dfw).

(** [lambda x: x.hour + x.minute / 60] *)
Definition hours (t : time) : number :=
  add (of_Z (hour t)) (div (of_Z (minute t)) (of_Z 60)).

(** A row of the melted AUC table once [time] is a number of hours. *)
Record Curve := mkCurve {
  c_country : string;
  c_gym : string;
  c_time : number;
  c_week : string;
  c_occupancy : number
}.

(** The nested [auc(group)]: [simps(y, x)] with [x] the time column and [y]
    the occupancy column of the group. *)
Definition auc (group : list Curve) : outcome number :=
  simps (map (fun r => (c_time r, c_occupancy r)) group).

(** [GroupBy.apply(f)] for an [f] that returns a scalar: one row per
    group, in the order of the groups. *)
Fixpoint apply {K A B : Type} (f : A -> outcome B) (groups : list (K * A))
  : outcome (list (K * B)) :=
  match groups with
  | [] => Return []
  | g :: t =>
      v <- f (snd g) ;;
      rest <- apply f t ;;
      Return ((fst g, v) :: rest)
  end.

Definition invalid_metric_message : string :=
  "`metric` must be 'kick-off' or 'auc'.".

(** The country of an index key of the kick-off table, and of the AUC
    table. *)
Definition country_of_gym (k : string * string) : string := fst k.

Definition country_of_gym_time (k : string * string * time) : string := fst (fst k).

(** Lines 103-107 *)
Definition kickoff_long (dfw : list (Wide (string * string))) : list Long :=
  map (fun r => mkLong (fst (m_index r)) (snd (m_index r)) (m_week r) (m_occupancy r))
      (melt dfw).

(** Lines 131-142 *)
Definition auc_long (dfw : list (Wide (string * string * time)))
  : outcome (list Long) :=
  let dfw := map (fun r => let k := m_index r in
                           mkCurve (fst (fst k)) (snd (fst k)) (hours (snd k))
                                   (m_week r) (m_occupancy r))
                 (melt dfw) in
  let groups :=
    groupby cmp3 (fun r => (c_country r, c_gym r, c_week r)) dfw in
  res <- apply auc groups ;;
  let dfw := map (fun g => let k := fst g in
                           mkLong (fst (fst k)) (snd (fst k)) (snd k) (snd g))
                 res in
  Return (sort_values cmp2 (fun r => (l_week r, l_gym r)) dfw).

(** What a call leaves behind: the lines printed, and either the value
    returned ([None] for the bare [return]) or the exception raised. *)
Definition prep_data_stats (df : list Windowed) (kickoff : Z) (norm : bool)
           (metric : string)
  : list string * outcome (option (list Long)) :=
  if String.eqb metric "kick-off" then
    ([],
     dfw <- kickoff_wide df kickoff ;;
     let dfw := if norm then normalise country_of_gym dfw else dfw in
     Return (Some (kickoff_long dfw)))
  else if String.eqb metric "auc" then
    ([],
     dfw <- auc_wide df ;;
     let dfw := if norm then normalise country_of_gym_time dfw else dfw in
     dfw <- auc_long dfw ;;
     Return (Some dfw))
  else ([invalid_metric_message], Return None).

(* ------------------------------------------------------------------ *)
(** ** [plot_match]: the name of the match day

    Of [plot_match] only the name of the day of the week, which goes into
    the legend, is modelled. *)

Definition dow_map : list (Z * string) :=
  [(0, "Monday"); (1, "Tuesday"); (2, "Wednesday"); (3, "Thursday");
   (4, "Friday"); (5, "Saturday"); (6, "Sunday")]%string.

(** [d[key]] on a dict; [None] stands for the KeyError of a key that the
    dict lacks. *)
Definition getitem (d : list (Z * string)) (key : Z) : option string :=
  option_map snd (find (fun kv => fst kv =? key) d).

(** Line 202: [dow_map[datetime.strptime(match_date, "%Y-%m-%d").weekday()]] *)
Definition dow (match_date : date) : option string :=
  getitem dow_map (weekday match_date).

(* ------------------------------------------------------------------ *)
(** ** Sample tables *)

Module Samples.

Definition match_day : date := mkDate 2021 6 18.

(** The seven Fridays up to the match of 18 June 2021. *)
Definition fridays : list date :=
  [mkDate 2021 5 7; mkDate 2021 5 14; mkDate 2021 5 21; mkDate 2021 5 28;
   mkDate 2021 6 4; mkDate 2021 6 11; mkDate 2021 6 18].

(** Seven Fridays up to 2 July 2021, two of them skipped. *)
Definition fridays_with_gap : list date :=
  [mkDate 2021 5 7; mkDate 2021 5 14; mkDate 2021 5 21; mkDate 2021 5 28;
   mkDate 2021 6 4; mkDate 2021 6 11; mkDate 2021 7 2].

(** The seven Fridays up to 15 January 2021. *)
Definition new_year_fridays : list date :=
  [mkDate 2020 12 4; mkDate 2020 12 11; mkDate 2020 12 18; mkDate 2020 12 25;
   mkDate 2021 1 1; mkDate 2021 1 8; mkDate 2021 1 15].

Definition day_hours : list Z :=
  [0; 1; 2; 3; 4; 5; 6; 7; 8; 9; 10; 11; 12; 13; 14; 15; 16; 17; 18; 19; 20;
   21; 22; 23].

(** One sample of a gym on each of the days, at [h]:[m]. *)
Definition daily (c g : string) (h m : Z) (occ : Q) (days : list date)
  : list Occupancy :=
  map (fun d => mkOccupancy (at_time d h m) c g occ) days.

(** Hourly samples of a gym on each of the days. *)
Definition hourly (c g : string) (occ : Z -> Q) (days : list date)
  : list Occupancy :=
  flat_map (fun d => map (fun h => mkOccupancy (at_time d h 0) c g (occ h))
                         day_hours) days.

(** A windowed table with one sample of a gym at [h]:[m] on the Friday of
    each of the weeks, week 1 being that of 7 May 2021. *)
Definition weekly (c g : string) (h m : Z) (occ : Q) (weeks : list Z)
  : list Windowed :=
  map (fun w => mkWindowed
                  (mkOccupancy (at_time (mkDate 2021 5 7) h m
                                + to_timedelta_days (7 * (w - 1)))
                               c g occ) w)
      weeks.

Definition seven_weeks : list Z := [1; 2; 3; 4; 5; 6; 7].

(** Hourly samples of a gym over the seven weeks, windowed. *)
Definition hourly_windowed (c g : string) (occ : Z -> Q) : list Windowed :=
  flat_map (fun w => flat_map (fun h => weekly c g h 0 (occ h) [w]) day_hours)
           seven_weeks.

(** Two gyms of England sampled at 20:00 in every week. *)
Definition two_gyms : list Windowed :=
  weekly "England" "gymB" 20 0 60 seven_weeks
  ++ weekly "England" "gymA" 20 0 40 seven_weeks.

(** Two gyms, the second sampled at 20:30 instead of 20:00 in week 7. *)
Definition missing_last : list Windowed :=
  weekly "England" "gymA" 20 0 50 seven_weeks
  ++ weekly "England" "gymB" 20 0 40 [1; 2; 3; 4; 5; 6]
  ++ weekly "England" "gymB" 20 30 40 [7].

(** The eight Fridays up to the match of 18 June 2021. *)
Definition eight_fridays : list date := mkDate 2021 4 30 :: fridays.

(** Two gyms, the second sampled at 20:00 in the weeks 1 and 2 only. *)
Definition two_baseline_weeks : list Windowed :=
  weekly "England" "gymA" 20 0 50 seven_weeks
  ++ weekly "England" "gymB" 20 0 30 [1]
  ++ weekly "England" "gymB" 20 0 60 [2].

(** One gym sampled at 18:00, 19:00 and 20:00 in every week. *)
Definition three_hours : list Windowed :=
  weekly "England" "gymA" 20 0 60 seven_weeks
  ++ weekly "England" "gymA" 18 0 40 seven_weeks
  ++ weekly "England" "gymA" 19 0 50 seven_weeks.

End Samples.

(* ------------------------------------------------------------------ *)
(** ** The vocabulary of the statements *)

Class Order {K : Type} (cmp : K -> K -> comparison) : Prop := {
  cmp_eq : forall a b, cmp a b = Eq -> a = b;
  cmp_refl : forall a, cmp a a = Eq;
  cmp_antisym : forall a b, cmp a b = CompOpp (cmp b a);
  cmp_trans : forall a b c, cmp a b = Lt -> cmp b c = Lt -> cmp a c = Lt
}.

(** The lexicographic order of pairs. *)
Definition lex_pair {A B : Type} (ca : A -> A -> comparison)
           (cb : B -> B -> comparison) (x y : A * B) : comparison :=
  lex (ca (fst x) (fst y)) (cb (snd x) (snd y)).

(** The strict order and the order of a comparison, and the order it
    gives to rows through their key. *)
Definition strictly_below {K : Type} (cmp : K -> K -> comparison) (a b : K)
  : Prop :=
  cmp a b = Lt.

Definition not_above {K : Type} (cmp : K -> K -> comparison) (a b : K)
  : Prop :=
  cmp a b <> Gt.

Definition le_on {K A : Type} (cmp : K -> K -> comparison) (key : A -> K)
           (a b : A) : Prop :=
  not_above cmp (key a) (key b).

(** The order on (week label, gym) of the rows. *)
Definition week_gym_le (a b : Long) : Prop :=
  String.ltb (l_week a) (l_week b) = true \/
  (l_week a = l_week b /\ String.leb (l_gym a) (l_gym b) = true).

(** The rows the kick-off branch keeps: those stamped [kickoff]:00:00. *)
Definition at_kickoff (kickoff : Z) (df : list Windowed) : list Windowed :=
  filter (fun r : Windowed => time_eqb (time_of (datetime r)) (mkTime kickoff 0 0 0)) df.

(** The rows a branch pivots. *)
Definition pivoted_rows (df : list Windowed) (kickoff : Z) (metric : string)
  : list Windowed :=
  if String.eqb metric "kick-off" then at_kickoff kickoff df else df.

(** The number of distinct week values of a table. *)
Definition n_weeks (df : list Windowed) : nat :=
  List.length (nodup Z.eq_dec (map week df)).

(** The rows as the two branches hand them to [pivot]. *)
Definition kickoff_entries (df : list Windowed) : list (string * string * Z * Q) :=
  map (fun r : Windowed => ((country r, gym r), week r, occupancy r)) df.

Definition auc_entries (df : list Windowed)
  : list (string * string * time * Z * Q) :=
  map (fun r : Windowed => ((country r, gym r, time_of (datetime r)),
                            week r, occupancy r)) df.

(** The table [pivot] builds when it does not raise, with its [w1-6]. *)
Definition wide_table {K : Type} (cmp : K -> K -> comparison)
           (rows : list (K * Z * Q)) : list (Wide K) :=
  let columns := unique_sorted Z.compare (map (fun e => snd (fst e)) rows) in
  map (fun k => with_w1_6 (k, map (fun w => cell cmp rows k w) columns))
      (unique_sorted cmp (map (fun e => fst (fst e)) rows)).

(** The sum of rationals. *)
Definition Qsum (qs : list Q) : Q := fold_right Qplus 0%Q qs.

(** The value [dfw["country"].map(baseline_map)] has on the rows of a
    country. *)
Definition mapped_baseline {K : Type} (country_of : K -> string)
           (dfw : list (Wide K)) (c : string) : number :=
  map_dict [("England"%string, baseline country_of dfw "England");
            ("Scotland"%string, baseline country_of dfw "Scotland")] c.

(** A row after the [if norm:] block. *)
Definition normalise_row {K : Type} (country_of : K -> string)
           (dfw : list (Wide K)) (r : Wide K) : Wide K :=
  let b := mapped_baseline country_of dfw (country_of (index r)) in
  mkWide (index r) (w1 r) (w2 r) (w3 r) (w4 r) (w5 r) (w6 r)
         (div (w7 r) b) (div (w1_6 r) b).

(** The mean of [w1-6] over the rows of a country in the pivoted table of
    a branch ("kick-off", otherwise "auc"), normalised or not. *)
Definition country_mean (df : list Windowed) (kickoff : Z) (norm : bool)
           (metric c : string) : outcome number :=
  if String.eqb metric "kick-off" then
    dfw <- kickoff_wide df kickoff ;;
    Return (baseline country_of_gym
                     (if norm then normalise country_of_gym dfw else dfw) c)
  else
    dfw <- auc_wide df ;;
    Return (baseline country_of_gym_time
                     (if norm then normalise country_of_gym_time dfw else dfw) c).

(** The gym [g] of country [c] has all its rows at one time of day. *)
Definition single_time (df : list Windowed) (c g : string) : Prop :=
  forall r r' : Windowed,
    In r df -> In r' df ->
    country r = c -> gym r = g -> country r' = c -> gym r' = g ->
    time_of (datetime r) = time_of (datetime r').

(** The gym [g] of country [c] has a row stamped at the kick-off hour in
    week [w]. *)
Definition sampled_at (df : list Windowed) (kickoff : Z) (c g : string) (w : Z)
  : Prop :=
  exists r : Windowed,
    In r (at_kickoff kickoff df) /\ country r = c /\ gym r = g /\ week r = w.

(** [w] is the greatest week of the rows stamped at the kick-off hour,
    the one named [w7]. *)
Definition latest_week (df : list Windowed) (kickoff : Z) (w : Z) : Prop :=
  (exists r : Windowed, In r (at_kickoff kickoff df) /\ week r = w) /\
  forall r : Windowed, In r (at_kickoff kickoff df) -> week r <= w.

(** One gym with occupancy 50 in every row, sampled once at the kick-off
    hour in each of the weeks 1 to 7. *)
Definition constant_gym (df : list Windowed) (kickoff : Z) (c g : string)
  : Prop :=
  (forall r : Windowed, In r df -> country r = c /\ gym r = g /\ occupancy r = 50%Q) /\
  NoDup (map week (at_kickoff kickoff df)) /\
  (forall w, In w (map week (at_kickoff kickoff df)) <-> 1 <= w <= 7).

(** The ISO week of a raw row, and the rows that pass the two filters of
    [prep_data]. *)
Definition iso_week (r : Occupancy) : Z := isocalendar_week (datetime r).

Definition kept_rows (df_raw : list Occupancy) (match_date : date)
  : list Occupancy :=
  same_weekday (until_match_day df_raw match_date) match_date.

(** The key columns of a row of the result. *)
Definition long_key (x : Long) : string * string * string :=
  (l_country x, l_gym x, l_week x).

(** The gym [g] of country [c] has a row in the table. *)
Definition gym_in (df : list Windowed) (c g : string) : Prop :=
  exists r : Windowed, In r df /\ country r = c /\ gym r = g.

(** The key columns of the melted table, from the index keys of the pivoted
    one. *)
Definition melted_keys {K : Type} (gym_of : K -> string * string) (idx : list K)
  : list (string * string * string) :=
  map (fun k => (fst (gym_of k), snd (gym_of k), "w1-6"%string)) idx
  ++ map (fun k => (fst (gym_of k), snd (gym_of k), "w7"%string)) idx.

(** Samples of constant occupancy [c] at the times [xs], as [auc] hands them
    to [simps]. *)
Definition constant_samples (c : Q) (xs : list Q) : list (number * number) :=
  map (fun x => (Fin x, Fin c)) xs.

(** The rows of the gym [g] of country [c] stamped at the kick-off hour in
    the weeks other than [wlast]. *)
Definition baseline_samples (df : list Windowed) (kickoff : Z) (c g : string)
           (wlast : Z) : list Windowed :=
  filter (fun r : Windowed =>
            String.eqb (country r) c && String.eqb (gym r) g
            && negb (week r =? wlast))
         (at_kickoff kickoff df).

(** [w] is the greatest week of the table, the one the AUC branch names
    [w7]. *)
Definition greatest_week (df : list Windowed) (w : Z) : Prop :=
  (exists r : Windowed, In r df /\ week r = w) /\
  forall r : Windowed, In r df -> week r <= w.

(** The times of day at which the gym [g] of country [c] has a row, in
    ascending order, and its rows at a time of day. *)
Definition gym_times (df : list Windowed) (c g : string) : list time :=
  unique_sorted cmp_time
    (map (fun r : Windowed => time_of (datetime r))
         (filter (fun r : Windowed =>
                    String.eqb (country r) c && String.eqb (gym r) g) df)).

Definition samples_at (df : list Windowed) (c g : string) (t : time)
  : list Windowed :=
  filter (fun r : Windowed =>
            String.eqb (country r) c && String.eqb (gym r) g
            && time_eqb (time_of (datetime r)) t) df.

(** The occupancy of the gym at the time of day [t] in week [w], missing
    when it has no row there; and the mean of its occupancies at [t] in the
    other weeks. *)
Definition latest_value (df : list Windowed) (c g : string) (w : Z) (t : time)
  : number :=
  match find (fun r : Windowed => week r =? w) (samples_at df c g t) with
  | Some r => Fin (occupancy r)
  | None => NaN
  end.

Definition baseline_value (df : list Windowed) (c g : string) (w : Z) (t : time)
  : number :=
  mean (map (fun r : Windowed => Fin (occupancy r))
            (filter (fun r : Windowed => negb (week r =? w))
                    (samples_at df c g t))).

(** A curve of the gym over its times of day. *)
Definition day_curve (df : list Windowed) (c g label : string)
           (value : time -> number) : list Curve :=
  map (fun t => mkCurve c g (hours t) label (value t)) (gym_times df c g).

(** The mean of the "w1-6" values of a country in a result, and what the
    values of a country are divided by when [norm] is set. *)
Definition result_baseline (rows : list Long) (c : string) : number :=
  mean (map l_value
            (filter (fun x => String.eqb (l_country x) c
                              && String.eqb (l_week x) "w1-6") rows)).

Definition result_divisor (rows : list Long) (c : string) : number :=
  map_dict [("England"%string, result_baseline rows "England");
            ("Scotland"%string, result_baseline rows "Scotland")] c.

(* ------------------------------------------------------------------ *)
(** ** [prep_data]: the rows kept *)

(** Known days: 18 June 2021 is a Friday of ISO week 24; 1 January 2021
    is in week 53 and 4 January 2021 in week 1. *)
Lemma calendar_known_days :
  weekday (mkDate 2021 6 18) = 4 /\
  dayofweek (at_time (mkDate 2021 6 18) 20 0) = 4 /\
  time_of (at_time (mkDate 2021 6 18) 20 30) = mkTime 20 30 0 0 /\
  map (fun d => isocalendar_week (at_time d 20 0))
      [mkDate 2021 6 18; mkDate 2020 12 25; mkDate 2021 1 1; mkDate 2021 1 4;
       mkDate 2018 12 31; mkDate 2016 1 1]
  = [24; 52; 53; 1; 1; 53].
Proof. vm_compute. repeat split. Qed.

(** Every row that [number_weeks] returns is a row of its argument. *)
Lemma number_weeks_rows (df : list Occupancy) (out : list Windowed) :
  number_weeks df = Return out ->
  forall r, In r out -> In (row r) df.
Proof.
  unfold number_weeks.
  destruct (Series.min _) as [lo|]; [|discriminate].
  destruct (Series.max _) as [hi|]; [|discriminate].
  destruct (hi =? 8); intros [= <-] r Hr.
  - apply filter_In in Hr as [Hr _].
    apply in_map_iff in Hr as (r1 & <- & Hr).
    apply in_map_iff in Hr as (r2 & <- & Hr).
    apply in_map_iff in Hr as (r3 & <- & Hr).
    exact Hr.
  - apply in_map_iff in Hr as (r2 & <- & Hr).
    apply in_map_iff in Hr as (r3 & <- & Hr).
    exact Hr.
Qed.

(** [number_weeks] raises on the empty table only. *)
Lemma number_weeks_returns (df : list Occupancy) :
  df <> [] -> exists out, number_weeks df = Return out.
Proof.
  intros Hne. unfold number_weeks.
  destruct df as [|r t]; [contradiction|]. cbn [map Series.min].
  destruct (Series.min _); cbn [Series.max];
    destruct (Series.max _); destruct (_ =? 8); eauto.
Qed.

(** [prep_data] returns as soon as one row passes its two filters. *)
Lemma prep_data_returns (df_raw : list Occupancy) (match_date : date)
      (r : Occupancy) :
  In r df_raw ->
  datetime r <= Timestamp_of_date match_date + to_timedelta_days 1 ->
  dayofweek (datetime r) = weekday match_date ->
  exists out, prep_data df_raw match_date = Return out.
Proof.
  intros Hin Hle Hdow. apply number_weeks_returns.
  assert (In r (same_weekday (until_match_day df_raw match_date) match_date)) as H.
  { apply filter_In. split; [|now apply Z.eqb_eq].
    apply filter_In. split; [exact Hin|]. apply Z.leb_le. lia. }
  intros E. rewrite E in H. destruct H.
Qed.

(** C3, as the code has it: the first filter of [prep_data] keeps exactly
    the rows whose timestamp is at most the match date plus one day, the
    bound included. *)
Theorem until_match_day_keeps (df_raw : list Occupancy) (match_date : date)
        (r : Occupancy) :
  In r (until_match_day df_raw match_date) <->
  In r df_raw /\
  datetime r <= Timestamp_of_date match_date + to_timedelta_days 1.
Proof.
  unfold until_match_day. rewrite filter_In, Z.leb_le. intuition lia.
Qed.

(** C3 fails as stated: a row stamped at midnight after the match day,
    which is not strictly before the match date plus one day, is kept by
    the first filter. *)
Lemma until_match_day_keeps_next_midnight :
  let r := mkOccupancy (at_time (mkDate 2021 6 19) 0 0) "England" "gymA" 50 in
  ~ (datetime r < Timestamp_of_date Samples.match_day + to_timedelta_days 1) /\
  In r (until_match_day [r] Samples.match_day).
Proof.
  split.
  - vm_compute. discriminate.
  - vm_compute. left. reflexivity.
Qed.

(** C4: every row of the table [prep_data] returns falls on the day of
    the week of the match date. *)
Theorem prep_data_same_weekday (df_raw : list Occupancy) (match_date : date)
        (out : list Windowed) (r : Windowed) :
  prep_data df_raw match_date = Return out ->
  In r out ->
  dayofweek (datetime r) = weekday match_date.
Proof.
  unfold prep_data. intros Hout Hr.
  apply (number_weeks_rows _ _ Hout) in Hr.
  unfold same_weekday in Hr. apply filter_In in Hr as [_ Hr].
  now apply Z.eqb_eq in Hr.
Qed.

Lemma prep_data_same_weekday_witness :
  let r := mkOccupancy (at_time Samples.match_day 20 0) "England" "gymA" 50 in
  dayofweek (datetime (mkWindowed r 1)) = weekday Samples.match_day.
Proof.
  intro r.
  apply (prep_data_same_weekday [r] Samples.match_day [mkWindowed r 1]).
  - vm_compute. reflexivity.
  - simpl. left. reflexivity.
Defined.

(** C2, on the code: seven weekly samples of one gym, on the Fridays from
    4 December 2020 to the match date 15 January 2021, come back numbered
    49 to 53, 1 and 2. *)
Theorem prep_data_new_year_weeks :
  match prep_data (Samples.daily "England" "gymA" 20 0 50 Samples.new_year_fridays)
                  (mkDate 2021 1 15) with
  | Return out => map week out = [49; 50; 51; 52; 53; 1; 2]
  | Raise _ => False
  end.
Proof. vm_compute. reflexivity. Qed.

(** C1, as the code has it: for a metric other than "kick-off" and "auc"
    the call prints the message and returns [None]; nothing is raised. *)
Theorem prep_data_stats_other_metric (df : list Windowed) (kickoff : Z)
        (norm : bool) (metric : string) :
  metric <> "kick-off"%string ->
  metric <> "auc"%string ->
  prep_data_stats df kickoff norm metric
  = ([invalid_metric_message], Return None).
Proof.
  intros Hk Ha. unfold prep_data_stats.
  apply String.eqb_neq in Hk, Ha. now rewrite Hk, Ha.
Qed.

Lemma prep_data_stats_other_metric_witness :
  prep_data_stats (Samples.weekly "England" "gymA" 20 0 50 Samples.seven_weeks)
                  20 true "median"
  = ([invalid_metric_message], Return None).
Proof.
  apply prep_data_stats_other_metric; discriminate.
Defined.

(** C1 fails as stated: with the metric "median" the call returns [None]
    and raises nothing. *)
Lemma prep_data_stats_median_returns_None :
  "median"%string <> "kick-off"%string /\
  "median"%string <> "auc"%string /\
  snd (prep_data_stats (Samples.weekly "England" "gymA" 20 0 50 Samples.seven_weeks)
                       20 true "median")
  = Return None.
Proof. repeat split; discriminate || reflexivity. Qed.

(* ------------------------------------------------------------------ *)
(** ** Comparisons that are total orders *)

#[export] Instance Order_Z : Order Z.compare.
Proof.
  split.
  - apply Z.compare_eq.
  - apply Z.compare_refl.
  - intros a b. apply Z.compare_antisym.
  - intros a b c. rewrite !Z.compare_lt_iff. lia.
Qed.

Lemma ascii_compare_refl (a : Ascii.ascii) : Ascii.compare a a = Eq.
Proof. apply N.compare_refl. Qed.

Lemma ascii_compare_trans (a b c : Ascii.ascii) :
  Ascii.compare a b = Lt -> Ascii.compare b c = Lt -> Ascii.compare a c = Lt.
Proof. unfold Ascii.compare. rewrite !N.compare_lt_iff. lia. Qed.

Lemma string_compare_refl (s : string) : String.compare s s = Eq.
Proof. induction s; simpl; [|rewrite ascii_compare_refl]; auto. Qed.

Lemma string_compare_trans (s1 s2 s3 : string) :
  String.compare s1 s2 = Lt -> String.compare s2 s3 = Lt ->
  String.compare s1 s3 = Lt.
Proof.
  revert s2 s3. induction s1 as [|a s1 IH]; intros [|b s2] [|c s3]; simpl;
    try discriminate; auto.
  destruct (Ascii.compare a b) eqn:Hab; try discriminate;
    destruct (Ascii.compare b c) eqn:Hbc; try discriminate; intros H1 H2.
  - apply Ascii.compare_eq_iff in Hab, Hbc. subst.
    rewrite ascii_compare_refl. eauto.
  - apply Ascii.compare_eq_iff in Hab. subst. now rewrite Hbc.
  - apply Ascii.compare_eq_iff in Hbc. subst. now rewrite Hab.
  - now rewrite (ascii_compare_trans _ _ _ Hab Hbc).
Qed.

#[export] Instance Order_string : Order String.compare.
Proof.
  split.
  - apply String.compare_eq_iff.
  - apply string_compare_refl.
  - apply String.compare_antisym.
  - apply string_compare_trans.
Qed.

Lemma Order_lex {A B : Type} (ca : A -> A -> comparison)
  (cb : B -> B -> comparison) :
  Order ca -> Order cb -> Order (lex_pair ca cb).
Proof.
  intros Oa Ob. unfold lex_pair. split.
  - intros [a b] [a' b']; simpl. destruct (ca a a') eqn:Ha; try discriminate.
    simpl. intros Hb. apply cmp_eq in Ha, Hb. now subst.
  - intros [a b]; simpl. now rewrite !cmp_refl.
  - intros [a b] [a' b']; simpl.
    rewrite (cmp_antisym (cmp:=ca) a a'), (cmp_antisym (cmp:=cb) b b').
    destruct (ca a' a), (cb b' b); reflexivity.
  - intros [a1 b1] [a2 b2] [a3 b3]; simpl.
    destruct (ca a1 a2) eqn:H12; try discriminate;
      destruct (ca a2 a3) eqn:H23; try discriminate; simpl; intros H1 H2.
    + apply cmp_eq in H12, H23. subst. rewrite cmp_refl. simpl.
      eapply cmp_trans; eauto.
    + apply cmp_eq in H12. subst. now rewrite H23.
    + apply cmp_eq in H23. subst. now rewrite H12.
    + now rewrite (cmp_trans (cmp:=ca) _ _ _ H12 H23).
Qed.

(** An order carried along an injection. *)
Lemma Order_inj {A B : Type} (f : A -> B) (cb : B -> B -> comparison)
  `{!Order cb} :
  (forall a a', f a = f a' -> a = a') ->
  Order (fun x y => cb (f x) (f y)).
Proof.
  intros Hinj. split.
  - intros a b H. apply Hinj. now apply cmp_eq.
  - intros a. apply cmp_refl.
  - intros a b. apply cmp_antisym.
  - intros a b c. apply cmp_trans.
Qed.

#[export] Instance Order_cmp2 : Order cmp2.
Proof. exact (Order_lex _ _ Order_string Order_string). Qed.

#[export] Instance Order_cmp3 : Order cmp3.
Proof. exact (Order_lex _ _ Order_cmp2 Order_string). Qed.

#[export] Instance Order_cmp_time : Order cmp_time.
Proof.
  pose proof (Order_lex _ _ Order_Z (Order_lex _ _ Order_Z
                (Order_lex _ _ Order_Z Order_Z))) as O.
  refine (Order_inj
            (fun t => (hour t, (minute t, (second t, microsecond t)))) _ _).
  intros [h m s u] [h' m' s' u']; simpl. now intros [= -> -> -> ->].
Qed.

#[export] Instance Order_cmp_index3 : Order cmp_index3.
Proof. exact (Order_lex _ _ Order_cmp2 Order_cmp_time). Qed.

Section OrderFacts.
Context {K : Type} (cmp : K -> K -> comparison) `{!Order cmp}.

Lemma cmp_gt_lt (a b : K) : cmp a b = Gt -> cmp b a = Lt.
Proof. rewrite (cmp_antisym (cmp:=cmp) a b). now destruct (cmp b a). Qed.

Lemma cmp_lt_gt (a b : K) : cmp a b = Lt -> cmp b a = Gt.
Proof. rewrite (cmp_antisym (cmp:=cmp) a b). now destruct (cmp b a). Qed.

Lemma cmp_lt_irrefl (a : K) : cmp a a <> Lt.
Proof. now rewrite cmp_refl. Qed.

Lemma cmp_le_trans (a b c : K) :
  cmp a b <> Gt -> cmp b c <> Gt -> cmp a c <> Gt.
Proof.
  intros Hab Hbc Hac.
  destruct (cmp a b) eqn:H1; try congruence;
    destruct (cmp b c) eqn:H2; try congruence.
  - apply cmp_eq in H1, H2. subst. rewrite cmp_refl in Hac. discriminate.
  - apply cmp_eq in H1. subst. congruence.
  - apply cmp_eq in H2. subst. congruence.
  - rewrite (cmp_trans (cmp:=cmp) _ _ _ H1 H2) in Hac. discriminate.
Qed.

Lemma eqk_true (a b : K) : eqk cmp a b = true <-> a = b.
Proof.
  unfold eqk. split.
  - destruct (cmp a b) eqn:H; try discriminate. intros _. now apply cmp_eq.
  - intros ->. now rewrite cmp_refl.
Qed.
End OrderFacts.

(* ------------------------------------------------------------------ *)
(** ** Facts on [unique_sorted], [sort_values] and [groupby] *)

Section SortingFacts.
Context {K : Type} (cmp : K -> K -> comparison) `{!Order cmp}.

Lemma insert_unique_In (k x : K) (l : list K) :
  In x (insert_unique cmp k l) <-> x = k \/ In x l.
Proof.
  induction l as [|h t IH]; simpl.
  - intuition.
  - destruct (cmp k h) eqn:Hc; simpl.
    + apply cmp_eq in Hc. subst. intuition.
    + intuition.
    + rewrite IH. intuition.
Qed.

Lemma unique_sorted_In (x : K) (l : list K) :
  In x (unique_sorted cmp l) <-> In x l.
Proof.
  induction l as [|h t IH]; simpl.
  - reflexivity.
  - rewrite insert_unique_In, IH. intuition.
Qed.

Lemma insert_unique_sorted (k : K) (l : list K) :
  StronglySorted (strictly_below cmp) l -> StronglySorted (strictly_below cmp) (insert_unique cmp k l).
Proof.
  induction 1 as [|h t Hs IH Hh]; simpl.
  - repeat constructor.
  - destruct (cmp k h) eqn:Hc.
    + now constructor.
    + constructor; [now constructor|].
      constructor; [exact Hc|].
      eapply Forall_impl; [|exact Hh].
      intros a Ha. exact (cmp_trans _ _ _ Hc Ha).
    + constructor; [exact IH|].
      apply Forall_forall. intros x Hx.
      apply insert_unique_In in Hx as [->|Hx].
      * now apply cmp_gt_lt.
      * rewrite Forall_forall in Hh. now apply Hh.
Qed.

Lemma unique_sorted_sorted (l : list K) :
  StronglySorted (strictly_below cmp) (unique_sorted cmp l).
Proof.
  induction l; simpl; [constructor|now apply insert_unique_sorted].
Qed.

Lemma sorted_NoDup (l : list K) : StronglySorted (strictly_below cmp) l -> NoDup l.
Proof.
  induction 1 as [|h t Hs IH Hh]; constructor; auto.
  intros Hin. rewrite Forall_forall in Hh.
  exact (cmp_lt_irrefl cmp h (Hh _ Hin)).
Qed.

Lemma unique_sorted_NoDup (l : list K) : NoDup (unique_sorted cmp l).
Proof. apply sorted_NoDup, unique_sorted_sorted. Qed.

(** Two strictly sorted lists with the same elements are the same. *)
Lemma sorted_unique (l1 l2 : list K) :
  StronglySorted (strictly_below cmp) l1 -> StronglySorted (strictly_below cmp) l2 ->
  (forall x, In x l1 <-> In x l2) -> l1 = l2.
Proof.
  intros H1. revert l2.
  induction H1 as [|h1 t1 Hs1 IH Hh1]; intros l2 H2 Heq.
  - destruct l2 as [|h2 t2]; [reflexivity|].
    destruct (proj2 (Heq h2) (or_introl eq_refl)).
  - destruct H2 as [|h2 t2 Hs2 Hh2].
    + destruct (proj1 (Heq h1) (or_introl eq_refl)).
    + rewrite Forall_forall in Hh1, Hh2.
      assert (h1 = h2) as <-.
      { destruct (proj1 (Heq h1) (or_introl eq_refl)) as [E|Hin1]; [auto|].
        destruct (proj2 (Heq h2) (or_introl eq_refl)) as [E|Hin2]; [auto|].
        pose proof (Hh2 _ Hin1) as A. pose proof (Hh1 _ Hin2) as B.
        unfold strictly_below in A, B. apply (cmp_lt_gt cmp) in A. congruence. }
      f_equal. apply IH; [exact Hs2|].
      intros x. split; intros Hx.
      * destruct (proj1 (Heq x) (or_intror Hx)) as [E|Hin]; [|exact Hin].
        subst. destruct (cmp_lt_irrefl cmp x (Hh1 _ Hx)).
      * destruct (proj2 (Heq x) (or_intror Hx)) as [E|Hin]; [|exact Hin].
        subst. destruct (cmp_lt_irrefl cmp x (Hh2 _ Hx)).
Qed.

(** The number of distinct values of a column. *)
Lemma unique_sorted_length (l l' : list K) :
  NoDup l' -> (forall x, In x l' <-> In x l) ->
  List.length (unique_sorted cmp l) = List.length l'.
Proof.
  intros Hnd Heq. apply Permutation_length, NoDup_Permutation.
  - apply unique_sorted_NoDup.
  - exact Hnd.
  - intros x. now rewrite unique_sorted_In, Heq.
Qed.

Section Rows.
Context {A : Type} (key : A -> K).

Lemma insert_stable_In (a x : A) (l : list A) :
  In x (insert_stable cmp key a l) <-> x = a \/ In x l.
Proof.
  induction l as [|h t IH]; simpl.
  - intuition.
  - destruct (cmp (key a) (key h)); simpl; rewrite ?IH; intuition.
Qed.

Lemma sort_values_In (x : A) (l : list A) :
  In x (sort_values cmp key l) <-> In x l.
Proof.
  induction l as [|h t IH]; simpl.
  - reflexivity.
  - rewrite insert_stable_In, IH. intuition.
Qed.

Lemma insert_stable_sorted (a : A) (l : list A) :
  StronglySorted (le_on cmp key) l -> StronglySorted (le_on cmp key) (insert_stable cmp key a l).
Proof.
  induction 1 as [|h t Hs IH Hh]; simpl.
  - repeat constructor.
  - destruct (cmp (key a) (key h)) eqn:Hc.
    + constructor; [now constructor|].
      constructor; [unfold le_on, not_above; congruence|].
      eapply Forall_impl; [|exact Hh].
      intros b Hb. apply (cmp_le_trans cmp _ (key h)); [congruence|exact Hb].
    + constructor; [now constructor|].
      constructor; [unfold le_on, not_above; congruence|].
      eapply Forall_impl; [|exact Hh].
      intros b Hb. apply (cmp_le_trans cmp _ (key h)); [congruence|exact Hb].
    + constructor; [exact IH|].
      apply Forall_forall. intros x Hx.
      apply insert_stable_In in Hx as [->|Hx].
      * unfold le_on, not_above. rewrite (cmp_gt_lt cmp _ _ Hc). discriminate.
      * rewrite Forall_forall in Hh. now apply Hh.
Qed.

Lemma sort_values_sorted (l : list A) :
  StronglySorted (le_on cmp key) (sort_values cmp key l).
Proof.
  induction l; simpl; [constructor|now apply insert_stable_sorted].
Qed.

(** A group of [groupby] holds the rows of its key, and is not empty. *)
Lemma groupby_In (k : K) (g : list A) (l : list A) :
  In (k, g) (groupby cmp key l) ->
  g = filter (fun a => eqk cmp k (key a)) l /\ exists a, In a l /\ key a = k.
Proof.
  unfold groupby. intros H. apply in_map_iff in H as (k' & [= -> <-] & Hk).
  split; [reflexivity|].
  apply (proj1 (unique_sorted_In _ _)) in Hk.
  apply in_map_iff in Hk as (a & <- & Ha).
  eauto.
Qed.

Lemma groupby_nonempty (k : K) (g : list A) (l : list A) :
  In (k, g) (groupby cmp key l) -> g <> [].
Proof.
  intros H. apply groupby_In in H as (-> & a & Ha & <-).
  intros E. assert (In a []) as [].
  rewrite <- E. apply filter_In. split; [exact Ha|].
  now apply eqk_true.
Qed.

(** Every row is in the group of its key. *)
Lemma groupby_present (a : A) (l : list A) :
  In a l -> exists g, In (key a, g) (groupby cmp key l).
Proof.
  intros Ha. unfold groupby. eexists. apply in_map_iff.
  exists (key a). split; [reflexivity|].
  apply unique_sorted_In. now apply in_map.
Qed.
End Rows.
End SortingFacts.

(* ------------------------------------------------------------------ *)
(** ** Integration never fails in [prep_data_stats] *)

Lemma simps_returns (pts : list (number * number)) :
  pts <> [] -> exists v, simps pts = Return v.
Proof.
  intros Hne. unfold simps.
  destruct (Nat.even (List.length pts)) eqn:Hev; [|eauto].
  destruct pts as [|p0 [|p1 rest]]; [contradiction|discriminate|].
  destruct (rev (p0 :: p1 :: rest)) as [|q1 [|q2 qs]] eqn:Hrev; [| |eauto];
    apply (f_equal (@List.length _)) in Hrev;
    rewrite length_rev in Hrev; discriminate.
Qed.

(** A single sample integrates to zero. *)
Lemma simps_single (p : number * number) : simps [p] = Return (Fin 0).
Proof. reflexivity. Qed.

Section Apply.
Context {K A B : Type} (f : A -> outcome B).

Lemma apply_In (groups : list (K * A)) (res : list (K * B)) :
  apply f groups = Return res ->
  forall k v, In (k, v) res -> exists g, In (k, g) groups /\ f g = Return v.
Proof.
  revert res. induction groups as [|[k0 g0] t IH]; simpl; intros res.
  - intros [= <-] k v [].
  - destruct (f g0) as [v0|] eqn:Hf; [|discriminate]. simpl.
    destruct (apply f t) as [rest|]; [|discriminate]. simpl.
    intros [= <-] k v [[= <- <-]|Hin].
    + eauto.
    + destruct (IH _ eq_refl _ _ Hin) as (g & Hg & Hv). eauto.
Qed.

Lemma apply_returns (groups : list (K * A)) :
  (forall k g, In (k, g) groups -> exists v, f g = Return v) ->
  exists res, apply f groups = Return res.
Proof.
  induction groups as [|[k0 g0] t IH]; simpl; intros H; [eauto|].
  destruct (H k0 g0 (or_introl eq_refl)) as (v & ->). simpl.
  destruct IH as (rest & ->); [intros; eapply H; eauto|]. simpl. eauto.
Qed.

Lemma apply_present (groups : list (K * A)) (res : list (K * B)) :
  apply f groups = Return res ->
  forall k g, In (k, g) groups -> exists v, In (k, v) res.
Proof.
  revert res. induction groups as [|[k0 g0] t IH]; simpl; intros res.
  - intros _ k g [].
  - destruct (f g0) as [v0|]; [|discriminate]. simpl.
    destruct (apply f t) as [rest|]; [|discriminate]. simpl.
    intros [= <-] k g [[= <- <-]|Hin].
    + exists v0. now left.
    + destruct (IH _ eq_refl _ _ Hin) as (v & Hv). exists v. now right.
Qed.
End Apply.

Lemma auc_group_returns (k : string * string * string) (g : list Curve)
      (l : list Curve) :
  In (k, g) (groupby cmp3 (fun r => (c_country r, c_gym r, c_week r)) l) ->
  exists v, auc g = Return v.
Proof.
  intros H. apply groupby_nonempty in H; [|typeclasses eauto].
  apply simps_returns. destruct g; [contradiction|discriminate].
Qed.

(** Lines 131-142 always produce their table. *)
Lemma auc_long_returns (dfw : list (Wide (string * string * time))) :
  exists rows, auc_long dfw = Return rows.
Proof.
  unfold auc_long.
  edestruct (apply_returns (K:=string * string * string) auc) as (res & ->).
  - intros k g. apply auc_group_returns.
  - simpl. eauto.
Qed.

(* ------------------------------------------------------------------ *)
(** ** The order of the AUC rows *)

Lemma cmp2_le (a b : string * string) :
  cmp2 a b <> Gt ->
  String.ltb (fst a) (fst b) = true \/
  (fst a = fst b /\ String.leb (snd a) (snd b) = true).
Proof.
  unfold cmp2, lex, String.ltb, String.leb.
  destruct (String.compare (fst a) (fst b)) eqn:H1.
  - apply String.compare_eq_iff in H1. right. split; [exact H1|].
    now destruct (String.compare (snd a) (snd b)).
  - now left.
  - congruence.
Qed.

Lemma StronglySorted_impl {A : Type} (R R' : A -> A -> Prop) (l : list A) :
  (forall a b, R a b -> R' a b) -> StronglySorted R l -> StronglySorted R' l.
Proof.
  intros HR. induction 1; constructor; auto.
  eapply Forall_impl; [|eassumption]. auto.
Qed.

(** C9: the rows the AUC branch returns are in ascending order of their
    week label, and of their gym within a week label. *)
Theorem auc_rows_sorted (df : list Windowed) (kickoff : Z) (norm : bool)
        (rows : list Long) :
  snd (prep_data_stats df kickoff norm "auc") = Return (Some rows) ->
  StronglySorted week_gym_le rows.
Proof.
  unfold prep_data_stats. simpl.
  destruct (auc_wide df) as [dfw|]; [simpl|discriminate].
  unfold auc_long. destruct (apply auc _) as [res|]; [simpl|discriminate].
  intros [= <-].
  eapply StronglySorted_impl; [|apply (sort_values_sorted cmp2)].
  intros a b. apply cmp2_le.
Qed.

(* ------------------------------------------------------------------ *)
(** ** The pivoted tables *)

Lemma week_labels_length (df : list Windowed) :
  List.length (unique_sorted Z.compare (map week df)) = n_weeks df.
Proof.
  apply unique_sorted_length.
  - typeclasses eauto.
  - apply NoDup_nodup.
  - intros x. apply nodup_In.
Qed.

Section PivotFacts.
Context {K : Type} (cmp : K -> K -> comparison).

(** [pivot] followed by the naming of the columns returns exactly when
    no (index, week) pair is repeated and the number of week labels and
    of index columns is the number of names. *)
Lemma pivot_set_columns (rows : list (K * Z * Q)) (names : list string)
      (n_index : nat) :
  (p <- pivot cmp rows ;; t <- set_columns names n_index p ;;
   Return (map with_w1_6 t))
  = if duplicated cmp (map fst rows) then Raise DuplicateEntries
    else if Nat.eqb (n_index + List.length
                       (unique_sorted Z.compare (map (fun e => snd (fst e)) rows)))
                    (List.length names)
         then Return (wide_table cmp rows)
         else Raise LengthMismatch.
Proof.
  unfold pivot, set_columns, wide_table.
  destruct (duplicated cmp (map fst rows)); [reflexivity|]. simpl.
  destruct (Nat.eqb _ _); [|reflexivity]. simpl.
  now rewrite map_map.
Qed.
End PivotFacts.

Lemma kickoff_entries_weeks (df : list Windowed) :
  map (fun e => snd (fst e)) (kickoff_entries df) = map week df.
Proof. unfold kickoff_entries. rewrite map_map. reflexivity. Qed.

Lemma auc_entries_weeks (df : list Windowed) :
  map (fun e => snd (fst e)) (auc_entries df) = map week df.
Proof. unfold auc_entries. rewrite map_map. reflexivity. Qed.

(** [kickoff_wide], case by case. *)
Lemma kickoff_wide_cases (df : list Windowed) (kickoff : Z) :
  kickoff_wide df kickoff =
  if (0 <=? kickoff) && (kickoff <=? 23) then
    if duplicated cmp2 (map fst (kickoff_entries (at_kickoff kickoff df)))
    then Raise DuplicateEntries
    else if Nat.eqb (n_weeks (at_kickoff kickoff df)) 7
         then Return (wide_table cmp2 (kickoff_entries (at_kickoff kickoff df)))
         else Raise LengthMismatch
  else Raise HourOutOfRange.
Proof.
  unfold kickoff_wide, time_of_hour.
  destruct ((0 <=? kickoff) && (kickoff <=? 23)); [|reflexivity].
  cbn [bind].
  change (map _ (filter _ df)) with (kickoff_entries (at_kickoff kickoff df)).
  rewrite pivot_set_columns, kickoff_entries_weeks, week_labels_length.
  reflexivity.
Qed.

(** [auc_wide], case by case. *)
Lemma auc_wide_cases (df : list Windowed) :
  auc_wide df =
  if duplicated cmp_index3 (map fst (auc_entries df))
  then Raise DuplicateEntries
  else if Nat.eqb (n_weeks df) 7
       then Return (wide_table cmp_index3 (auc_entries df))
       else Raise LengthMismatch.
Proof.
  unfold auc_wide.
  change (map _ df) with (auc_entries df).
  rewrite pivot_set_columns, auc_entries_weeks, week_labels_length.
  reflexivity.
Qed.

(** C10, as the code has it: a branch returns a table only when the rows
    it pivots (all rows for "auc", the rows stamped at the kick-off hour
    for "kick-off") carry exactly seven distinct week values, whatever
    those values are; with any other number the call raises, on the naming
    of the columns unless the hour or the pivot failed before. *)
Theorem prep_data_stats_seven_week_values (df : list Windowed) (kickoff : Z)
        (norm : bool) (metric : string) :
  metric = "kick-off"%string \/ metric = "auc"%string ->
  (forall rows, snd (prep_data_stats df kickoff norm metric) = Return (Some rows) ->
                n_weeks (pivoted_rows df kickoff metric) = 7%nat) /\
  (n_weeks (pivoted_rows df kickoff metric) <> 7%nat ->
   snd (prep_data_stats df kickoff norm metric) = Raise LengthMismatch \/
   snd (prep_data_stats df kickoff norm metric) = Raise DuplicateEntries \/
   snd (prep_data_stats df kickoff norm metric) = Raise HourOutOfRange).
Proof.
  intros [-> | ->]; unfold prep_data_stats, pivoted_rows; simpl.
  - rewrite kickoff_wide_cases.
    destruct ((0 <=? kickoff) && (kickoff <=? 23)); [|split; [discriminate|auto]].
    destruct (duplicated cmp2 _); [split; [discriminate|auto]|].
    destruct (Nat.eqb _ 7) eqn:E; [|split; [discriminate|auto]].
    apply Nat.eqb_eq in E. split; [auto|contradiction].
  - rewrite auc_wide_cases.
    destruct (duplicated cmp_index3 _); [split; [discriminate|auto]|].
    destruct (Nat.eqb _ 7) eqn:E; [|split; [discriminate|auto]].
    apply Nat.eqb_eq in E. split; [auto|contradiction].
Qed.

(* ------------------------------------------------------------------ *)
(** ** Sums and means of finite values *)

Section Means.

Lemma Fin_inj (a b : Q) : Fin a = Fin b -> a = b.
Proof. now intros [= ->]. Qed.

Lemma Qzero_iff (q : Q) : Qzero q = true <-> q == 0.
Proof.
  unfold Qzero, Qeq. simpl. rewrite Z.eqb_eq. lia.
Qed.

Lemma Qzero_false (q : Q) : ~ q == 0 -> Qzero q = false.
Proof.
  intros H. destruct (Qzero q) eqn:E; [|reflexivity].
  apply Qzero_iff in E. contradiction.
Qed.

Lemma fold_add_Fin (qs : list Q) (a : Q) :
  exists s, fold_left add (map Fin qs) (Fin a) = Fin s /\ s == a + Qsum qs.
Proof.
  revert a. induction qs as [|q qs IH]; intros a; simpl.
  - exists a. split; [reflexivity|ring].
  - destruct (IH (Qred (a + q))) as (s & Hf & Hs).
    exists s. split; [exact Hf|]. rewrite Hs, Qred_correct. ring.
Qed.

Lemma fold_add_not_Fin (l : list number) (x : number) :
  (forall q, x <> Fin q) -> forall s, fold_left add l x <> Fin s.
Proof.
  revert x. induction l as [|y l IH]; intros x Hx s; simpl; [apply Hx|].
  apply IH. intros q. destruct x as [a|b|]; [destruct (Hx a eq_refl)| |].
  - destruct y as [c|b'|]; simpl; try discriminate.
    destruct (Bool.eqb b b'); discriminate.
  - destruct y; discriminate.
Qed.

(** A sum that is a number is a sum of numbers. *)
Lemma fold_add_Fin_inv (l : list number) (x : number) (s : Q) :
  fold_left add l x = Fin s -> exists qs, l = map Fin qs.
Proof.
  revert x. induction l as [|y l IH]; intros x H; simpl in H.
  - now exists [].
  - destruct y as [q|b|].
    + destruct (IH _ H) as (qs & ->). now exists (q :: qs).
    + exfalso. revert H. apply fold_add_not_Fin.
      intros q. destruct x as [a|b'|]; simpl; try discriminate.
      destruct (Bool.eqb b' b); discriminate.
    + exfalso. revert H. apply fold_add_not_Fin.
      intros q. destruct x; discriminate.
Qed.

Lemma filter_notnan_Fin (qs : list Q) :
  filter (fun x => negb (isnan x)) (map Fin qs) = map Fin qs.
Proof. induction qs; simpl; congruence. Qed.

(** A mean that is a number is the mean of the numbers among the values,
    the others being missing. *)
Lemma mean_Fin_inv (l : list number) (m : Q) :
  mean l = Fin m ->
  exists qs, filter (fun x => negb (isnan x)) l = map Fin qs /\ qs <> [] /\
             m == Qsum qs / inject_Z (Z.of_nat (List.length qs)).
Proof.
  unfold mean.
  destruct (filter _ l) as [|y ys] eqn:Hf; [discriminate|].
  intros H.
  destruct (sum (y :: ys)) as [s| |] eqn:Hs; try discriminate.
  destruct (fold_add_Fin_inv _ _ _ Hs) as (qs & Hqs).
  exists qs. split; [exact Hqs|].
  split; [destruct qs; discriminate|].
  rewrite Hqs in Hs, H. unfold sum in Hs.
  destruct (fold_add_Fin qs 0) as (s' & Hs' & Es). rewrite Hs in Hs'.
  injection Hs' as <-. rewrite length_map in H.
  unfold of_Z, div in H. destruct (Qzero (inject_Z _)).
  - destruct (Qzero s); discriminate.
  - apply Fin_inj in H. rewrite <- H, Qred_correct, Es. now rewrite Qplus_0_l.
Qed.

Lemma mean_Fin (qs : list Q) :
  qs <> [] ->
  exists m, mean (map Fin qs) = Fin m /\
            m == Qsum qs / inject_Z (Z.of_nat (List.length qs)).
Proof.
  intros Hne. unfold mean. rewrite filter_notnan_Fin.
  destruct (map Fin qs) as [|x xs] eqn:E;
    [destruct qs; [contradiction|discriminate]|].
  rewrite <- E. unfold sum.
  destruct (fold_add_Fin qs 0) as (s & Hs & Es).
  rewrite Hs, length_map. unfold of_Z, div.
  rewrite (Qzero_false (inject_Z _)).
  - eexists. split; [reflexivity|]. rewrite Qred_correct, Es.
    now rewrite Qplus_0_l.
  - destruct qs; [contradiction|]. unfold Qeq. simpl. lia.
Qed.

Lemma Qsum_div (qs : list Q) (m : Q) :
  ~ m == 0 -> Qsum (map (fun q => Qred (q / m)) qs) == Qsum qs / m.
Proof.
  intros Hm. induction qs as [|q qs IH].
  - unfold Qsum. simpl. field. exact Hm.
  - change (Qsum (map (fun q => Qred (q / m)) (q :: qs)))
      with (Qred (q / m) + Qsum (map (fun q => Qred (q / m)) qs))%Q.
    change (Qsum (q :: qs)) with (q + Qsum qs)%Q.
    rewrite IH, Qred_correct. field. exact Hm.
Qed.

End Means.

Lemma filter_map_comm {A B : Type} (f : A -> B) (p : B -> bool) (l : list A) :
  filter p (map f l) = map f (filter (fun a => p (f a)) l).
Proof.
  induction l as [|a l IH]; simpl; [reflexivity|].
  destruct (p (f a)); simpl; congruence.
Qed.

Lemma filter_idem {A : Type} (p : A -> bool) (l : list A) :
  filter p (filter p l) = filter p l.
Proof.
  induction l as [|x l IH]; simpl; [reflexivity|].
  destruct (p x) eqn:E; simpl; [rewrite E|]; congruence.
Qed.

Lemma mean_filter (l : list number) :
  mean (filter (fun x => negb (isnan x)) l) = mean l.
Proof. unfold mean. now rewrite filter_idem. Qed.

(** Dividing values by their mean, when that is a number other than
    zero, brings their mean to one. *)
Lemma mean_div_by_mean (l : list number) (m : Q) :
  mean l = Fin m -> ~ m == 0 ->
  eqv (mean (map (fun x => div x (Fin m)) l)) (Fin 1).
Proof.
  intros Hmean Hm.
  destruct (mean_Fin_inv _ _ Hmean) as (qs & Hqs & Hne & Em).
  rewrite <- mean_filter, filter_map_comm.
  rewrite (filter_ext _ (fun x => negb (isnan x))).
  2:{ intros [q| |]; simpl; try reflexivity. now rewrite (Qzero_false m). }
  rewrite Hqs, map_map.
  rewrite (map_ext _ (fun q => Fin (Qred (q / m)))).
  2:{ intros q. simpl. now rewrite (Qzero_false m). }
  rewrite <- (map_map (fun q => Qred (q / m)) Fin).
  destruct (mean_Fin (map (fun q => Qred (q / m)) qs)) as (m' & -> & Em').
  { destruct qs; [contradiction|discriminate]. }
  simpl. rewrite Em', Qsum_div, length_map by exact Hm.
  assert (Hn : ~ inject_Z (Z.of_nat (List.length qs)) == 0).
  { destruct qs; [contradiction|]. unfold Qeq. simpl. lia. }
  assert (Hs : ~ Qsum qs == 0).
  { intros E. apply Hm. rewrite Em, E. field. exact Hn. }
  rewrite Em. field. auto.
Qed.

(* ------------------------------------------------------------------ *)
(** ** Normalisation *)

Section NormaliseFacts.
Context {K : Type} (country_of : K -> string).

Lemma normalise_rows (dfw : list (Wide K)) :
  normalise country_of dfw = map (normalise_row country_of dfw) dfw.
Proof. unfold normalise. rewrite map_map. reflexivity. Qed.

Lemma mapped_baseline_known (dfw : list (Wide K)) (c : string) :
  c = "England"%string \/ c = "Scotland"%string ->
  mapped_baseline country_of dfw c = baseline country_of dfw c.
Proof. intros [-> | ->]; reflexivity. Qed.

Lemma mapped_baseline_unknown (dfw : list (Wide K)) (c : string) :
  c <> "England"%string -> c <> "Scotland"%string ->
  mapped_baseline country_of dfw c = NaN.
Proof.
  intros HE HS. unfold mapped_baseline, map_dict. cbn [find fst snd].
  assert (String.eqb "England" c = false) as -> by (apply String.eqb_neq; congruence).
  assert (String.eqb "Scotland" c = false) as -> by (apply String.eqb_neq; congruence).
  reflexivity.
Qed.

Lemma div_NaN (x : number) : div x NaN = NaN.
Proof. now destruct x. Qed.

(** The rows of a country outside the dict get missing values. *)
Lemma normalise_unknown (dfw : list (Wide K)) (r : Wide K) :
  In r (normalise country_of dfw) ->
  country_of (index r) <> "England"%string ->
  country_of (index r) <> "Scotland"%string ->
  w1_6 r = NaN /\ w7 r = NaN.
Proof.
  rewrite normalise_rows. intros Hr HE HS.
  apply in_map_iff in Hr as (r0 & <- & _). simpl in *.
  rewrite mapped_baseline_unknown by assumption. now rewrite !div_NaN.
Qed.

(** The mean of [w1-6] over the rows of England, or of Scotland, is one
    after normalisation when it was a number other than zero before. *)
Lemma normalise_baseline (dfw : list (Wide K)) (c : string) (m : Q) :
  c = "England"%string \/ c = "Scotland"%string ->
  baseline country_of dfw c = Fin m -> ~ m == 0 ->
  eqv (baseline country_of (normalise country_of dfw) c) (Fin 1).
Proof.
  intros Hc Hb Hm. unfold baseline at 1.
  rewrite normalise_rows, filter_map_comm, map_map. simpl.
  rewrite (map_ext_in _ (fun r => div (w1_6 r) (Fin m))).
  2:{ intros r Hr. apply filter_In in Hr as [_ Hr].
      apply String.eqb_eq in Hr. rewrite Hr.
      now rewrite mapped_baseline_known, Hb. }
  rewrite <- (map_map w1_6 (fun x => div x (Fin m))).
  now apply mean_div_by_mean.
Qed.

End NormaliseFacts.

(** C5, as the code has it: with [norm] set, in both branches, the mean of
    the normalised [w1-6] over the rows of England, and over those of
    Scotland, is one whenever that mean was a number other than zero
    before the division (values being exact rationals). *)
Theorem normalised_baseline_is_one (df : list Windowed) (kickoff : Z)
        (metric c : string) (m : Q) :
  c = "England"%string \/ c = "Scotland"%string ->
  country_mean df kickoff false metric c = Return (Fin m) ->
  ~ m == 0 ->
  exists v, country_mean df kickoff true metric c = Return v /\ eqv v (Fin 1).
Proof.
  intros Hc Hb Hm. unfold country_mean in *.
  destruct (String.eqb metric "kick-off").
  - destruct (kickoff_wide df kickoff) as [dfw|]; [|discriminate].
    simpl in *. injection Hb as Hb. eexists. split; [reflexivity|].
    now apply (normalise_baseline _ _ _ m).
  - destruct (auc_wide df) as [dfw|]; [|discriminate].
    simpl in *. injection Hb as Hb. eexists. split; [reflexivity|].
    now apply (normalise_baseline _ _ _ m).
Qed.

(* ------------------------------------------------------------------ *)
(** ** What [prep_data_stats] raises *)

(** The exceptions of a call are those of the pivot and of the naming of
    the columns: integration and normalisation raise nothing. *)
Lemma prep_data_stats_raises (df : list Windowed) (kickoff : Z) (norm : bool)
      (metric : string) (e : exn) :
  snd (prep_data_stats df kickoff norm metric) = Raise e <->
  (metric = "kick-off"%string /\ kickoff_wide df kickoff = Raise e) \/
  (metric = "auc"%string /\ auc_wide df = Raise e).
Proof.
  unfold prep_data_stats.
  destruct (String.eqb metric "kick-off") eqn:Ek.
  - apply String.eqb_eq in Ek. subst. simpl.
    destruct (kickoff_wide df kickoff); simpl.
    + split; [discriminate|]. intros [[_ H]|[H _]]; discriminate.
    + split; [intros [= ->]; left; now split|].
      intros [[_ [= ->]]|[H _]]; [reflexivity|discriminate].
  - apply String.eqb_neq in Ek.
    destruct (String.eqb metric "auc") eqn:Ea.
    + apply String.eqb_eq in Ea. subst. simpl.
      destruct (auc_wide df) as [dfw|]; simpl.
      * destruct (auc_long_returns
                    (if norm then normalise country_of_gym_time dfw else dfw))
          as (rows & ->). simpl.
        split; [discriminate|]. intros [[H _]|[_ H]]; discriminate.
      * split; [intros [= ->]; right; now split|].
        intros [[H _]|[_ [= ->]]]; [discriminate|reflexivity].
    + apply String.eqb_neq in Ea. simpl.
      split; [discriminate|]. intros [[H _]|[H _]]; contradiction.
Qed.

Lemma kickoff_long_In (dfw : list (Wide (string * string))) (x : Long) :
  In x (kickoff_long dfw) <->
  exists r, In r dfw /\
            (x = mkLong (fst (index r)) (snd (index r)) "w1-6" (w1_6 r) \/
             x = mkLong (fst (index r)) (snd (index r)) "w7" (w7 r)).
Proof.
  unfold kickoff_long, melt. rewrite map_app, !map_map, in_app_iff, !in_map_iff.
  simpl. split.
  - intros [(r & <- & Hr)|(r & <- & Hr)]; eauto.
  - intros (r & Hr & [->| ->]); eauto.
Qed.

(** C8, as the code has it: with [norm] set, a country outside England and
    Scotland is not rejected: the call raises exactly what it raises with
    [norm] unset, and the [w1-6] and [w7] values of the rows of that
    country become missing, in the rows the kick-off branch returns and in
    the table the AUC branch integrates. *)
Theorem unknown_country_is_missing (df : list Windowed) (kickoff : Z)
        (metric c : string) :
  c <> "England"%string ->
  c <> "Scotland"%string ->
  (forall e, snd (prep_data_stats df kickoff true metric) = Raise e <->
             snd (prep_data_stats df kickoff false metric) = Raise e) /\
  (forall rows r, snd (prep_data_stats df kickoff true "kick-off")
                  = Return (Some rows) ->
                  In r rows -> l_country r = c -> l_value r = NaN) /\
  (forall dfw r, auc_wide df = Return dfw ->
                 In r (normalise country_of_gym_time dfw) ->
                 country_of_gym_time (index r) = c ->
                 w1_6 r = NaN /\ w7 r = NaN).
Proof.
  intros HE HS. split; [|split].
  - intros e. rewrite !prep_data_stats_raises. reflexivity.
  - unfold prep_data_stats. simpl.
    destruct (kickoff_wide df kickoff) as [dfw|]; [simpl|discriminate].
    intros rows r [= <-] Hr Hc. apply kickoff_long_In in Hr as (w & Hw & Hx).
    destruct (normalise_unknown country_of_gym dfw w Hw) as [H16 H7].
    + unfold country_of_gym. destruct Hx as [-> | ->]; simpl in Hc; congruence.
    + unfold country_of_gym. destruct Hx as [-> | ->]; simpl in Hc; congruence.
    + destruct Hx as [-> | ->]; simpl; assumption.
  - intros dfw r _ Hr Hc.
    apply (normalise_unknown country_of_gym_time dfw r Hr); congruence.
Qed.

(* ------------------------------------------------------------------ *)
(** ** The rows of the pivoted tables *)

Lemma filter_at_most_one {A B : Type} (f : A -> B) (p : A -> bool) (l : list A) :
  NoDup (map f l) ->
  (forall a b, In a l -> In b l -> p a = true -> p b = true -> f a = f b) ->
  (List.length (filter p l) <= 1)%nat.
Proof.
  induction l as [|a l IH]; simpl; intros Hnd Hp; [lia|].
  inversion Hnd as [|? ? Hnotin Hnd']; subst.
  destruct (p a) eqn:Ea.
  - assert (filter p l = []) as ->; [|simpl; lia].
    destruct (filter p l) as [|b t] eqn:Ef; [reflexivity|].
    assert (In b (filter p l)) as Hb by (rewrite Ef; now left).
    apply filter_In in Hb as [Hb Eb].
    destruct Hnotin. rewrite (Hp a b); auto. now apply in_map.
  - apply IH; [exact Hnd'|]. intros; apply Hp; auto.
Qed.

Lemma filter_none {A : Type} (p : A -> bool) (l : list A) :
  (forall a, In a l -> p a = false) -> filter p l = [].
Proof.
  induction l as [|a l IH]; simpl; intros H; [reflexivity|].
  rewrite (H a (or_introl eq_refl)). apply IH. auto.
Qed.

Section WideFacts.
Context {K : Type} (cmp : K -> K -> comparison) `{!Order cmp}.
Context (country_of : K -> string).

Lemma wide_table_index (rows : list (K * Z * Q)) :
  map index (wide_table cmp rows)
  = unique_sorted cmp (map (fun e => fst (fst e)) rows).
Proof.
  unfold wide_table. rewrite map_map. simpl. apply map_id.
Qed.

Lemma normalise_index (norm : bool) (dfw : list (Wide K)) :
  map index (if norm then normalise country_of dfw else dfw) = map index dfw.
Proof.
  destruct norm; [|reflexivity].
  rewrite normalise_rows, map_map. reflexivity.
Qed.

(** The index keys of the table are those of the rows pivoted, once each. *)
Lemma wide_index_NoDup (norm : bool) (rows : list (K * Z * Q)) :
  NoDup (map index (if norm then normalise country_of (wide_table cmp rows)
                    else wide_table cmp rows)).
Proof.
  rewrite normalise_index, wide_table_index.
  now apply unique_sorted_NoDup.
Qed.

Lemma wide_index_In (norm : bool) (rows : list (K * Z * Q)) (r : Wide K) :
  In r (if norm then normalise country_of (wide_table cmp rows)
        else wide_table cmp rows) ->
  exists e, In e rows /\ fst (fst e) = index r.
Proof.
  intros Hr. apply (in_map index) in Hr.
  rewrite normalise_index, wide_table_index in Hr.
  apply (proj1 (unique_sorted_In cmp _ _)) in Hr.
  apply in_map_iff in Hr as (e & He & Hin). eauto.
Qed.

Lemma wide_index_present (norm : bool) (rows : list (K * Z * Q)) (e : K * Z * Q) :
  In e rows ->
  exists r, In r (if norm then normalise country_of (wide_table cmp rows)
                  else wide_table cmp rows) /\ index r = fst (fst e).
Proof.
  intros He.
  assert (In (fst (fst e))
             (map index (if norm then normalise country_of (wide_table cmp rows)
                         else wide_table cmp rows))) as H.
  { rewrite normalise_index, wide_table_index.
    apply unique_sorted_In; [assumption|].
    apply in_map_iff. eauto. }
  apply in_map_iff in H as (r & Hr & Hin). eauto.
Qed.

End WideFacts.

Lemma auc_wide_table (df : list Windowed) (dfw : list (Wide (string * string * time))) :
  auc_wide df = Return dfw -> dfw = wide_table cmp_index3 (auc_entries df).
Proof.
  rewrite auc_wide_cases.
  destruct (duplicated _ _); [discriminate|].
  destruct (Nat.eqb _ _); [|discriminate]. now intros [= <-].
Qed.

Lemma kickoff_wide_table (df : list Windowed) (kickoff : Z)
      (dfw : list (Wide (string * string))) :
  kickoff_wide df kickoff = Return dfw ->
  dfw = wide_table cmp2 (kickoff_entries (at_kickoff kickoff df)).
Proof.
  rewrite kickoff_wide_cases.
  destruct (_ && _); [|discriminate].
  destruct (duplicated _ _); [discriminate|].
  destruct (Nat.eqb _ _); [|discriminate]. now intros [= <-].
Qed.

(* ------------------------------------------------------------------ *)
(** ** A gym sampled at a single time of day *)

Lemma single_time_group (df : list Windowed) (norm : bool) (c g label : string)
      (f : Wide (string * string * time) -> string * number) :
  single_time df c g ->
  let dfw := wide_table cmp_index3 (auc_entries df) in
  let dfw' := if norm then normalise country_of_gym_time dfw else dfw in
  (List.length
     (filter (fun r => eqk cmp3 (c, g, label)
                           (fst (fst (index r)), snd (fst (index r)), fst (f r)))
             dfw') <= 1)%nat.
Proof.
  intros Hs dfw dfw'.
  apply (filter_at_most_one index).
  - apply wide_index_NoDup. exact Order_cmp_index3.
  - intros a b Ha Hb Ea Eb.
    apply (eqk_true cmp3) in Ea, Eb.
    apply (wide_index_In cmp_index3) in Ha as (ea & Hea & Ia).
    apply (wide_index_In cmp_index3) in Hb as (eb & Heb & Ib).
    unfold auc_entries in Hea, Heb.
    apply in_map_iff in Hea as (ra & <- & Hra).
    apply in_map_iff in Heb as (rb & <- & Hrb).
    simpl in Ia, Ib. rewrite <- Ia, <- Ib in *. simpl in Ea, Eb.
    injection Ea as Ec Eg _. injection Eb as Ec' Eg' _.
    rewrite (Hs ra rb); auto. congruence.
Qed.

Lemma auc_single_group (df : list Windowed) (norm : bool) (c g label : string)
      (grp : list Curve) :
  single_time df c g ->
  let dfw := wide_table cmp_index3 (auc_entries df) in
  let dfw' := if norm then normalise country_of_gym_time dfw else dfw in
  In (c, g, label, grp)
     (groupby cmp3 (fun r => (c_country r, c_gym r, c_week r))
        (map (fun r => let k := m_index r in
                       mkCurve (fst (fst k)) (snd (fst k)) (hours (snd k))
                               (m_week r) (m_occupancy r))
             (melt dfw'))) ->
  auc grp = Return (Fin 0).
Proof.
  intros Hs dfw dfw' Hin.
  pose proof (groupby_nonempty cmp3 _ _ _ _ Hin) as Hne.
  apply (groupby_In cmp3) in Hin as (Hg & _).
  assert (List.length grp <= 1)%nat as Hlen.
  { rewrite Hg. unfold melt.
    rewrite map_app, filter_app, length_app, !map_map, !filter_map_comm,
      !length_map. simpl.
    match goal with
    | |- (List.length (filter ?p ?l) + List.length (filter ?q ?l) <= 1)%nat =>
        set (in_w1_6 := p); set (in_w7 := q)
    end.
    destruct (String.eqb label "w1-6") eqn:El.
    - assert (filter in_w7 dfw' = []) as ->.
      { apply filter_none. intros a _. apply String.eqb_eq in El. subst.
        subst in_w7. simpl.
        destruct (eqk cmp3 _ _) eqn:E; [|reflexivity].
        apply (eqk_true cmp3) in E. discriminate. }
      pose proof (single_time_group df norm c g label
                    (fun r => ("w1-6"%string, w1_6 r)) Hs) as H.
      simpl in H. fold dfw dfw' in H. simpl. subst in_w1_6. lia.
    - assert (filter in_w1_6 dfw' = []) as ->.
      { apply filter_none. intros a _. apply String.eqb_neq in El.
        subst in_w1_6. simpl.
        destruct (eqk cmp3 _ _) eqn:E; [|reflexivity].
        apply (eqk_true cmp3) in E. congruence. }
      pose proof (single_time_group df norm c g label
                    (fun r => ("w7"%string, w7 r)) Hs) as H.
      simpl in H. fold dfw dfw' in H. simpl. subst in_w7. lia. }
  destruct grp as [|x [|y t]]; [contradiction|reflexivity|simpl in Hlen; lia].
Qed.

Section Duplicated.
Context {K : Type} (cmp : K -> K -> comparison) `{!Order cmp}.

(** [pivot] raises on a repeated (index, week) pair, and only then. *)
Lemma duplicated_false (l : list (K * Z)) :
  duplicated cmp l = false <-> NoDup l.
Proof.
  induction l as [|e t IH]; simpl.
  - split; [constructor|reflexivity].
  - rewrite orb_false_iff, IH. split.
    + intros [He Ht]. constructor; [|exact Ht].
      intros Hin.
      assert (existsb (fun e' => eqk cmp (fst e) (fst e')
                                 && (snd e =? snd e')) t = true) as E.
      { apply existsb_exists. exists e. split; [exact Hin|].
        rewrite Z.eqb_refl, andb_true_r. now apply eqk_true. }
      congruence.
    + intros Hnd. inversion Hnd as [|? ? Hnotin Hnd']; subst.
      split; [|exact Hnd'].
      destruct (existsb _ t) eqn:E; [|reflexivity].
      apply existsb_exists in E as (e' & Hin & He).
      apply andb_true_iff in He as [Hk Hw].
      apply (eqk_true cmp) in Hk. apply Z.eqb_eq in Hw.
      destruct Hnotin. destruct e, e'. simpl in *. now subst.
Qed.
End Duplicated.

(** C6, as the code has it: a gym whose rows are all at one time of day
    does not make the AUC branch fail. When no gym has two rows for one
    time of day and week and the table has seven distinct weeks, the call
    returns; that gym has its two rows in the result, and the value zero
    in each of its rows. *)
Theorem auc_single_sample_is_zero (df : list Windowed) (kickoff : Z)
        (norm : bool) (c g : string) :
  single_time df c g ->
  (exists r : Windowed, In r df /\ country r = c /\ gym r = g) ->
  NoDup (map (fun r : Windowed =>
                (country r, gym r, time_of (datetime r), week r)) df) ->
  n_weeks df = 7%nat ->
  exists rows,
    snd (prep_data_stats df kickoff norm "auc") = Return (Some rows) /\
    In (mkLong c g "w1-6" (Fin 0)) rows /\
    In (mkLong c g "w7" (Fin 0)) rows /\
    forall x, In x rows -> l_country x = c -> l_gym x = g -> l_value x = Fin 0.
Proof.
  intros Hs (r0 & Hr0 & Hc0 & Hg0) Hnd Hn. unfold prep_data_stats. simpl.
  rewrite auc_wide_cases, Hn.
  assert (duplicated cmp_index3 (map fst (auc_entries df)) = false) as ->.
  { apply duplicated_false; [typeclasses eauto|].
    unfold auc_entries. now rewrite map_map. }
  simpl.
  set (dfw := if norm
              then normalise country_of_gym_time
                     (wide_table cmp_index3 (auc_entries df))
              else wide_table cmp_index3 (auc_entries df)).
  destruct (auc_long_returns dfw) as (rows & Hrows).
  rewrite Hrows. simpl. exists rows.
  unfold auc_long in Hrows.
  destruct (apply auc _) as [res|] eqn:Hres; [simpl in Hrows|discriminate].
  injection Hrows as <-.
  assert (Hzero : forall x,
             In x (sort_values cmp2 (fun r => (l_week r, l_gym r))
                     (map (fun g0 => let k := fst g0 in
                                     mkLong (fst (fst k)) (snd (fst k)) (snd k)
                                            (snd g0)) res)) ->
             l_country x = c -> l_gym x = g -> l_value x = Fin 0).
  { intros x Hx Hc Hg.
    apply (proj1 (sort_values_In cmp2 _ _ _)) in Hx.
    apply in_map_iff in Hx as ([[[c' g'] label] v] & <- & Hin).
    simpl in *. subst c' g'.
    destruct (apply_In _ _ _ Hres _ _ Hin) as (grp & Hgrp & Hv).
    rewrite (auc_single_group df norm c g label grp Hs Hgrp) in Hv.
    now injection Hv. }
  destruct (wide_index_present cmp_index3 country_of_gym_time norm
              (auc_entries df)
              ((country r0, gym r0, time_of (datetime r0)), week r0, occupancy r0))
    as (r & Hr & Hi).
  { unfold auc_entries. apply in_map_iff. eauto. }
  fold dfw in Hr. simpl in Hi. rewrite Hc0, Hg0 in Hi.
  assert (Hrow : forall label v,
             In (mkMelted (index r) label v) (melt dfw) ->
             exists v', In (mkLong c g label v')
                          (sort_values cmp2 (fun r => (l_week r, l_gym r))
                             (map (fun g0 => let k := fst g0 in
                                             mkLong (fst (fst k)) (snd (fst k))
                                                    (snd k) (snd g0)) res))).
  { intros label v Hm.
    match type of Hres with
    | apply auc (groupby cmp3 ?key ?l) = _ =>
        destruct (groupby_present cmp3 key
                    (mkCurve c g (hours (time_of (datetime r0))) label v) l)
          as (grp & Hgrp)
    end.
    { apply in_map_iff. exists (mkMelted (index r) label v).
      split; [|exact Hm]. now rewrite Hi. }
    destruct (apply_present _ _ _ Hres _ _ Hgrp) as (v' & Hv').
    exists v'. apply sort_values_In. apply in_map_iff.
    exists ((c, g, label), v'). split; [reflexivity|exact Hv']. }
  split; [reflexivity|]. split; [|split; [|exact Hzero]].
  - destruct (Hrow "w1-6"%string (w1_6 r)) as (v' & Hv').
    { unfold melt. apply in_or_app. left. apply in_map_iff. eauto. }
    now rewrite <- (Hzero _ Hv' eq_refl eq_refl).
  - destruct (Hrow "w7"%string (w7 r)) as (v' & Hv').
    { unfold melt. apply in_or_app. right. apply in_map_iff. eauto. }
    now rewrite <- (Hzero _ Hv' eq_refl eq_refl).
Qed.

(* ------------------------------------------------------------------ *)
(** ** The cells of the pivoted table *)

Section CellFacts.
Context {K : Type} (cmp : K -> K -> comparison) `{!Order cmp}.

(** A gym with no row for a week has a missing cell for that week. *)
Lemma cell_missing (rows : list (K * Z * Q)) (k : K) (w : Z) :
  (forall e, In e rows -> fst (fst e) = k -> snd (fst e) <> w) ->
  cell cmp rows k w = NaN.
Proof.
  intros H. unfold cell.
  destruct (find _ rows) as [e|] eqn:E; [|reflexivity].
  apply find_some in E as [Hin He].
  apply andb_true_iff in He as [Hk Hw].
  apply (eqk_true cmp) in Hk. apply Z.eqb_eq in Hw.
  destruct (H e Hin); congruence.
Qed.

(** A gym with a row for a week has the occupancy of such a row. *)
Lemma cell_found (rows : list (K * Z * Q)) (k : K) (w : Z) (v : Q) :
  (exists e, In e rows /\ fst (fst e) = k /\ snd (fst e) = w) ->
  (forall e, In e rows -> snd e = v) ->
  cell cmp rows k w = Fin v.
Proof.
  intros (e & Hin & Hk & Hw) Hv. unfold cell.
  destruct (find _ rows) as [e'|] eqn:E.
  - apply find_some in E as [Hin' _]. now rewrite (Hv e' Hin').
  - apply (find_none _ _ E) in Hin. subst.
    rewrite Z.eqb_refl, andb_true_r in Hin.
    assert (eqk cmp (fst (fst e)) (fst (fst e)) = true) by now apply eqk_true.
    congruence.
Qed.

End CellFacts.

(** The last of a strictly ascending list is its greatest element. *)
Lemma sorted_last (l : list Z) (x d : Z) :
  StronglySorted (strictly_below Z.compare) l -> In x l ->
  (forall y, In y l -> y <= x) -> last l d = x.
Proof.
  induction 1 as [|h t Hs IH Hh]; intros Hin Hmax; [destruct Hin|].
  destruct t as [|h' t'].
  - destruct Hin as [->|[]]. reflexivity.
  - change (last (h :: h' :: t') d) with (last (h' :: t') d).
    apply IH.
    + destruct Hin as [<-|Hin]; [|exact Hin].
      rewrite Forall_forall in Hh.
      pose proof (Hh h' (or_introl eq_refl)) as Hlt. unfold strictly_below in Hlt.
      apply -> Z.compare_lt_iff in Hlt.
      pose proof (Hmax h' (or_intror (or_introl eq_refl))). lia.
    + intros y Hy. apply Hmax. now right.
Qed.

Lemma nth_6_last {A : Type} (l : list A) (d : A) :
  List.length l = 7%nat -> nth 6 l d = last l d.
Proof.
  intros H.
  do 7 (destruct l as [|? l]; [discriminate|]).
  destruct l; [reflexivity|discriminate].
Qed.

Section LastWeek.
Context {K : Type} (cmp : K -> K -> comparison) `{!Order cmp}.

(** With seven week labels, a gym with no row in the latest week has a
    missing [w7]. *)
Lemma wide_table_w7_missing (rows : list (K * Z * Q)) (k : K) (wlast : Z)
      (r : Wide K) :
  List.length (unique_sorted Z.compare (map (fun e => snd (fst e)) rows)) = 7%nat ->
  (exists e, In e rows /\ snd (fst e) = wlast) ->
  (forall e, In e rows -> snd (fst e) <= wlast) ->
  (forall e, In e rows -> fst (fst e) = k -> snd (fst e) <> wlast) ->
  In r (wide_table cmp rows) -> index r = k -> w7 r = NaN.
Proof.
  intros Hlen (e0 & He0 & Hw0) Hmax Hk Hr Hi.
  unfold wide_table in Hr. apply in_map_iff in Hr as (k' & <- & _).
  simpl in Hi. subst k'. simpl.
  set (columns := unique_sorted Z.compare (map (fun e => snd (fst e)) rows)) in *.
  rewrite (nth_indep _ NaN (cell cmp rows k 0)) by (rewrite length_map; lia).
  rewrite map_nth, nth_6_last by exact Hlen.
  rewrite (sorted_last columns wlast).
  - now apply cell_missing.
  - apply unique_sorted_sorted. exact Order_Z.
  - apply unique_sorted_In; [exact Order_Z|]. apply in_map_iff. eauto.
  - intros y Hy. apply (proj1 (unique_sorted_In Z.compare _ _)) in Hy.
    apply in_map_iff in Hy as (e & <- & He). now apply Hmax.
Qed.

End LastWeek.

(* ------------------------------------------------------------------ *)
(** ** The kick-off branch *)

Lemma at_kickoff_idem (kickoff : Z) (df : list Windowed) :
  at_kickoff kickoff (at_kickoff kickoff df) = at_kickoff kickoff df.
Proof. apply filter_idem. Qed.

Lemma kickoff_wide_at_kickoff (df : list Windowed) (kickoff : Z) :
  kickoff_wide (at_kickoff kickoff df) kickoff = kickoff_wide df kickoff.
Proof. now rewrite !kickoff_wide_cases, at_kickoff_idem. Qed.

Lemma kickoff_returns (df : list Windowed) (kickoff : Z) (norm : bool)
      (rows : list Long) :
  snd (prep_data_stats df kickoff norm "kick-off") = Return (Some rows) ->
  let dfw := wide_table cmp2 (kickoff_entries (at_kickoff kickoff df)) in
  n_weeks (at_kickoff kickoff df) = 7%nat /\
  rows = kickoff_long (if norm then normalise country_of_gym dfw else dfw).
Proof.
  unfold prep_data_stats. simpl. rewrite kickoff_wide_cases.
  destruct (_ && _); [|discriminate].
  destruct (duplicated _ _); [discriminate|].
  destruct (Nat.eqb _ 7) eqn:E; [|discriminate].
  apply Nat.eqb_eq in E. simpl. intros [= <-]. now split.
Qed.

Lemma kickoff_gym_in_result (df : list Windowed) (kickoff : Z) (norm : bool)
      (c g : string) (rows : list Long) :
  snd (prep_data_stats df kickoff norm "kick-off") = Return (Some rows) ->
  (exists x, In x rows /\ l_country x = c /\ l_gym x = g) <->
  (exists w, sampled_at df kickoff c g w).
Proof.
  intros H. apply kickoff_returns in H as [_ ->]. split.
  - intros (x & Hx & Hc & Hg).
    apply kickoff_long_In in Hx as (r & Hr & Hx).
    apply (wide_index_In cmp2) in Hr as (e & He & Hi).
    unfold kickoff_entries in He. apply in_map_iff in He as (r0 & <- & Hr0).
    simpl in Hi. exists (week r0), r0.
    destruct Hx as [-> | ->]; simpl in Hc, Hg; rewrite <- Hi in Hc, Hg;
      simpl in Hc, Hg; auto.
  - intros (w & r0 & Hr0 & Hc & Hg & _).
    destruct (wide_index_present cmp2 country_of_gym norm
                (kickoff_entries (at_kickoff kickoff df))
                ((country r0, gym r0), week r0, occupancy r0))
      as (r & Hr & Hi).
    { unfold kickoff_entries. apply in_map_iff. eauto. }
    exists (mkLong (fst (index r)) (snd (index r)) "w1-6" (w1_6 r)).
    split; [apply kickoff_long_In; eauto|].
    rewrite Hi. simpl. auto.
Qed.

Lemma kickoff_w7_missing (df : list Windowed) (kickoff : Z) (norm : bool)
      (c g : string) (rows : list Long) (wlast : Z) :
  snd (prep_data_stats df kickoff norm "kick-off") = Return (Some rows) ->
  latest_week df kickoff wlast ->
  (exists w, sampled_at df kickoff c g w) ->
  ~ sampled_at df kickoff c g wlast ->
  In (mkLong c g "w7" NaN) rows.
Proof.
  intros H [(rl & Hrl & Hwl) Hmax] (w & r0 & Hr0 & Hc & Hg & _) Hno.
  apply kickoff_returns in H as [Hn ->].
  set (entries := kickoff_entries (at_kickoff kickoff df)).
  destruct (wide_index_present cmp2 country_of_gym false entries
              ((country r0, gym r0), week r0, occupancy r0))
    as (r & Hr & Hi).
  { unfold entries, kickoff_entries. apply in_map_iff. eauto. }
  simpl in Hi. rewrite Hc, Hg in Hi.
  assert (w7 r = NaN) as H7.
  { apply (wide_table_w7_missing cmp2 entries (c, g) wlast r); auto.
    - unfold entries. now rewrite kickoff_entries_weeks, week_labels_length.
    - exists ((country rl, gym rl), week rl, occupancy rl). split; [|exact Hwl].
      unfold entries, kickoff_entries. apply in_map_iff. eauto.
    - intros e He. apply in_map_iff in He as (r1 & <- & Hr1). simpl. auto.
    - intros e He Hk Hw. apply in_map_iff in He as (r1 & <- & Hr1).
      simpl in Hk, Hw. injection Hk as Hc1 Hg1.
      apply Hno. exists r1. auto. }
  apply kickoff_long_In. destruct norm.
  - exists (normalise_row country_of_gym (wide_table cmp2 entries) r). split.
    + rewrite normalise_rows. now apply in_map.
    + right. simpl. now rewrite Hi, H7.
  - exists r. split; [exact Hr|]. right. now rewrite Hi, H7.
Qed.

Lemma constant_gym_table (df : list Windowed) (kickoff : Z) (c g : string) :
  constant_gym df kickoff c g ->
  wide_table cmp2 (kickoff_entries (at_kickoff kickoff df))
  = [mkWide (c, g) (Fin 50) (Fin 50) (Fin 50) (Fin 50) (Fin 50) (Fin 50)
            (Fin 50) (Fin 50)]
  /\ n_weeks (at_kickoff kickoff df) = 7%nat
  /\ duplicated cmp2 (map fst (kickoff_entries (at_kickoff kickoff df))) = false.
Proof.
  intros (Hall & Hnd & Hweeks).
  set (X := at_kickoff kickoff df) in *.
  assert (HX : forall r : Windowed, In r X ->
                 country r = c /\ gym r = g /\ occupancy r = 50%Q).
  { intros r Hr. apply Hall. now apply filter_In in Hr as [Hr _]. }
  assert (Hcols : unique_sorted Z.compare (map week X) = [1; 2; 3; 4; 5; 6; 7]).
  { apply (sorted_unique Z.compare).
    - apply unique_sorted_sorted. exact Order_Z.
    - repeat constructor.
    - intros w. rewrite unique_sorted_In, Hweeks by exact Order_Z.
      simpl. lia. }
  assert (Hidx : unique_sorted cmp2 (map (fun e => fst (fst e)) (kickoff_entries X))
                 = [(c, g)]).
  { apply (sorted_unique cmp2).
    - apply unique_sorted_sorted. exact Order_cmp2.
    - repeat constructor.
    - intros k. rewrite unique_sorted_In by exact Order_cmp2.
      unfold kickoff_entries. rewrite map_map. simpl. split.
      + intros Hk. apply in_map_iff in Hk as (r & <- & Hr).
        destruct (HX r Hr) as (-> & -> & _). now left.
      + intros [<-|[]].
        assert (In 1 (map week X)) as H1 by (apply Hweeks; lia).
        apply in_map_iff in H1 as (r & _ & Hr).
        apply in_map_iff. exists r. split; [|exact Hr].
        now destruct (HX r Hr) as (-> & -> & _). }
  assert (Hcell : forall w, 1 <= w <= 7 ->
                            cell cmp2 (kickoff_entries X) (c, g) w = Fin 50).
  { intros w Hw. apply cell_found; [exact Order_cmp2| |].
    - apply Hweeks in Hw. apply in_map_iff in Hw as (r & <- & Hr).
      exists ((country r, gym r), week r, occupancy r). split.
      + unfold kickoff_entries. apply in_map_iff. eauto.
      + simpl. now destruct (HX r Hr) as (-> & -> & _).
    - intros e He. apply in_map_iff in He as (r & <- & Hr). simpl.
      now destruct (HX r Hr) as (_ & _ & ->). }
  split; [|split].
  - unfold wide_table. rewrite kickoff_entries_weeks, Hcols, Hidx.
    cbn [map]. rewrite !Hcell by lia. reflexivity.
  - now rewrite <- week_labels_length, Hcols.
  - apply duplicated_false; [exact Order_cmp2|].
    apply (NoDup_map_inv snd). unfold kickoff_entries.
    rewrite !map_map. exact Hnd.
Qed.

(** The kick-off result for a gym of constant occupancy 50. *)
Lemma constant_gym_result (df : list Windowed) (kickoff : Z) (c g : string) :
  0 <= kickoff <= 23 ->
  constant_gym df kickoff c g ->
  prep_data_stats df kickoff false "kick-off"
  = ([], Return (Some [mkLong c g "w1-6" (Fin 50); mkLong c g "w7" (Fin 50)])).
Proof.
  intros Hk Hc. destruct (constant_gym_table _ _ _ _ Hc) as (Ht & Hn & Hd).
  unfold prep_data_stats. simpl. rewrite kickoff_wide_cases, Hd, Hn, Ht.
  assert ((0 <=? kickoff) && (kickoff <=? 23) = true) as ->.
  { apply andb_true_iff. split; apply Z.leb_le; lia. }
  reflexivity.
Qed.

(** C7, as the code has it: the kick-off result is computed from the rows
    stamped at exactly the kick-off hour and from no other; a gym is in the
    result exactly when it has such a row in some week; a gym that has such
    a row in some week but none in the latest week keeps its [w7] row, with
    a missing value; and one gym of constant occupancy 50, sampled at the
    kick-off hour once in each of the weeks 1 to 7, gives with [norm]
    unset exactly the rows ([c], [g], "w1-6", 50) and ([c], [g], "w7", 50). *)
Theorem kickoff_exact_samples (df : list Windowed) (kickoff : Z) (norm : bool)
        (c g : string) :
  prep_data_stats df kickoff norm "kick-off"
  = prep_data_stats (at_kickoff kickoff df) kickoff norm "kick-off" /\
  (forall rows,
      snd (prep_data_stats df kickoff norm "kick-off") = Return (Some rows) ->
      ((exists x, In x rows /\ l_country x = c /\ l_gym x = g) <->
       (exists w, sampled_at df kickoff c g w)) /\
      (forall wlast, latest_week df kickoff wlast ->
                     (exists w, sampled_at df kickoff c g w) ->
                     ~ sampled_at df kickoff c g wlast ->
                     In (mkLong c g "w7" NaN) rows)) /\
  (0 <= kickoff <= 23 ->
   constant_gym df kickoff c g ->
   prep_data_stats df kickoff false "kick-off"
   = ([], Return (Some [mkLong c g "w1-6" (Fin 50); mkLong c g "w7" (Fin 50)]))).
Proof.
  split; [|split].
  - unfold prep_data_stats. simpl. now rewrite kickoff_wide_at_kickoff.
  - intros rows H. split.
    + now apply (kickoff_gym_in_result df kickoff norm).
    + intros wlast. now apply (kickoff_w7_missing df kickoff norm).
  - apply constant_gym_result.
Qed.

(* ------------------------------------------------------------------ *)
(** ** The statements on the sample tables *)

(** The table of the specification: one gym of England, occupancy 50 at
    every hour of the seven Fridays, as [prep_data] windows it. *)
Lemma prep_data_constant_gym :
  prep_data (Samples.hourly "England" "gymA" (fun _ => 50%Q) Samples.fridays)
            Samples.match_day
  = Return (Samples.hourly_windowed "England" "gymA" (fun _ => 50%Q)).
Proof. vm_compute. reflexivity. Qed.

Lemma constant_gym_sample :
  constant_gym (Samples.hourly_windowed "England" "gymA" (fun _ => 50%Q)) 20
               "England" "gymA".
Proof.
  split; [|split].
  - intros r Hr.
    assert (forallb (fun r : Windowed =>
                       String.eqb (country r) "England"
                       && String.eqb (gym r) "gymA"
                       && (Qnum (occupancy r) =? 50)
                       && (Qden (occupancy r) =? 1)%positive)
                    (Samples.hourly_windowed "England" "gymA" (fun _ => 50%Q))
            = true) as H by (vm_compute; reflexivity).
    rewrite forallb_forall in H. specialize (H r Hr).
    destruct r as [[t c g [n d]] w].
    cbn [country gym occupancy row Qnum Qden] in *.
    repeat (apply andb_true_iff in H as [H ?]).
    apply String.eqb_eq in H. apply String.eqb_eq in H2.
    apply Z.eqb_eq in H1. apply Pos.eqb_eq in H0. now subst.
  - replace (map week (at_kickoff 20 _)) with Samples.seven_weeks
      by (vm_compute; reflexivity).
    repeat constructor; simpl; intuition discriminate.
  - intros w.
    replace (map week (at_kickoff 20 _)) with Samples.seven_weeks
      by (vm_compute; reflexivity).
    simpl. lia.
Qed.

Lemma kickoff_exact_samples_witness :
  prep_data_stats (Samples.hourly_windowed "England" "gymA" (fun _ => 50%Q))
                  20 false "kick-off"
  = ([], Return (Some [mkLong "England" "gymA" "w1-6" (Fin 50);
                       mkLong "England" "gymA" "w7" (Fin 50)])).
Proof.
  apply (kickoff_exact_samples _ 20 false "England" "gymA").
  - lia.
  - exact constant_gym_sample.
Defined.

(** C7 fails as stated: a gym with no sample at 20:00 in week 7 is not
    absent from the result for that week; its [w7] row is there, with a
    missing value. *)
Lemma kickoff_row_without_sample :
  ~ sampled_at Samples.missing_last 20 "England" "gymB" 7 /\
  snd (prep_data_stats Samples.missing_last 20 false "kick-off")
  = Return (Some [mkLong "England" "gymA" "w1-6" (Fin 50);
                  mkLong "England" "gymB" "w1-6" (Fin 40);
                  mkLong "England" "gymA" "w7" (Fin 50);
                  mkLong "England" "gymB" "w7" NaN]).
Proof.
  split; [|vm_compute; reflexivity].
  intros (r & Hr & Hc & Hg & Hw).
  vm_compute in Hr.
  repeat (destruct Hr as [<-|Hr]; [discriminate|]).
  destruct Hr.
Qed.

Lemma normalised_baseline_is_one_witness :
  (exists v, country_mean Samples.two_gyms 20 true "kick-off" "England" = Return v
             /\ eqv v (Fin 1)) /\
  (exists v, country_mean Samples.two_gyms 20 true "auc" "England" = Return v
             /\ eqv v (Fin 1)).
Proof.
  split; apply (normalised_baseline_is_one _ _ _ _ 50);
    solve [left; reflexivity | vm_compute; reflexivity | vm_compute; discriminate].
Defined.

(** C5 fails as stated: England has a gym, of occupancy 0 in every week,
    and the mean of its normalised [w1-6] is missing, not one, in both
    branches. *)
Lemma zero_baseline_is_not_normalised :
  let df := Samples.weekly "England" "gymA" 20 0 0 Samples.seven_weeks in
  country_mean df 20 false "kick-off" "England" = Return (Fin 0) /\
  country_mean df 20 true "kick-off" "England" = Return NaN /\
  country_mean df 20 false "auc" "England" = Return (Fin 0) /\
  country_mean df 20 true "auc" "England" = Return NaN /\
  ~ eqv NaN (Fin 1).
Proof. vm_compute. repeat split; intros []. Qed.

(** C6 fails as stated: each group of a gym sampled at 20:00 only has one
    time of day, and the call returns the value zero for it. *)
Lemma auc_single_sample_returns_zero :
  snd (prep_data_stats (Samples.weekly "England" "gymA" 20 0 50 Samples.seven_weeks)
                       20 false "auc")
  = Return (Some [mkLong "England" "gymA" "w1-6" (Fin 0);
                  mkLong "England" "gymA" "w7" (Fin 0)]).
Proof. vm_compute. reflexivity. Qed.

Lemma single_time_sample :
  single_time (Samples.weekly "England" "gymA" 20 0 50 Samples.seven_weeks)
              "England" "gymA".
Proof.
  assert (forall r : Windowed,
             In r (Samples.weekly "England" "gymA" 20 0 50 Samples.seven_weeks) ->
             time_of (datetime r) = mkTime 20 0 0 0) as H.
  { intros r Hr. vm_compute in Hr.
    repeat (destruct Hr as [<-|Hr]; [vm_compute; reflexivity|]).
    destruct Hr. }
  intros r r' Hr Hr' _ _ _ _. now rewrite (H r), (H r').
Qed.

Lemma auc_single_sample_is_zero_witness :
  exists rows,
    snd (prep_data_stats (Samples.weekly "England" "gymA" 20 0 50 Samples.seven_weeks)
                         20 false "auc") = Return (Some rows) /\
    In (mkLong "England" "gymA" "w1-6" (Fin 0)) rows /\
    In (mkLong "England" "gymA" "w7" (Fin 0)) rows /\
    forall x, In x rows -> l_country x = "England"%string ->
              l_gym x = "gymA"%string -> l_value x = Fin 0.
Proof.
  apply auc_single_sample_is_zero.
  - exact single_time_sample.
  - eexists. split; [left; reflexivity|]. split; reflexivity.
  - apply (duplicated_false cmp_index3); vm_compute; reflexivity.
  - vm_compute. reflexivity.
Defined.

(** C8 fails as stated: with [norm] set, a table of a gym of Wales is not
    rejected; the call returns its rows with missing values. *)
Lemma wales_is_not_rejected :
  snd (prep_data_stats (Samples.weekly "Wales" "gymW" 20 0 50 Samples.seven_weeks)
                       20 true "kick-off")
  = Return (Some [mkLong "Wales" "gymW" "w1-6" NaN;
                  mkLong "Wales" "gymW" "w7" NaN]).
Proof. vm_compute. reflexivity. Qed.

Lemma unknown_country_is_missing_witness :
  let df := Samples.weekly "Wales" "gymW" 20 0 50 Samples.seven_weeks in
  (forall e, snd (prep_data_stats df 20 true "kick-off") = Raise e <->
             snd (prep_data_stats df 20 false "kick-off") = Raise e) /\
  (forall rows r, snd (prep_data_stats df 20 true "kick-off")
                  = Return (Some rows) ->
                  In r rows -> l_country r = "Wales"%string -> l_value r = NaN) /\
  (forall dfw r, auc_wide df = Return dfw ->
                 In r (normalise country_of_gym_time dfw) ->
                 country_of_gym_time (index r) = "Wales"%string ->
                 w1_6 r = NaN /\ w7 r = NaN).
Proof.
  apply (unknown_country_is_missing _ 20 "kick-off" "Wales"); discriminate.
Defined.

Lemma auc_rows_sorted_witness :
  StronglySorted week_gym_le
    [mkLong "England" "gymA" "w1-6" (Fin 0);
     mkLong "England" "gymB" "w1-6" (Fin 0);
     mkLong "England" "gymA" "w7" (Fin 0);
     mkLong "England" "gymB" "w7" (Fin 0)].
Proof.
  apply (auc_rows_sorted Samples.two_gyms 20 false).
  vm_compute. reflexivity.
Defined.

(** C10 fails as stated: seven weekly samples with two Fridays skipped
    are numbered 1 to 6 and 9 by [prep_data], and both branches return a
    table for them. *)
Lemma weeks_1_to_6_and_9_are_accepted :
  match prep_data (Samples.daily "England" "gymA" 20 0 50 Samples.fridays_with_gap)
                  (mkDate 2021 7 2) with
  | Return df =>
      map week df = [1; 2; 3; 4; 5; 6; 9] /\
      snd (prep_data_stats df 20 false "kick-off")
      = Return (Some [mkLong "England" "gymA" "w1-6" (Fin 50);
                      mkLong "England" "gymA" "w7" (Fin 50)]) /\
      snd (prep_data_stats df 20 false "auc")
      = Return (Some [mkLong "England" "gymA" "w1-6" (Fin 0);
                      mkLong "England" "gymA" "w7" (Fin 0)])
  | Raise _ => False
  end.
Proof. vm_compute. repeat split. Qed.

Lemma prep_data_stats_seven_week_values_witness :
  snd (prep_data_stats (Samples.weekly "England" "gymA" 20 0 50 [1; 2; 3; 4; 5; 6])
                       20 true "kick-off") = Raise LengthMismatch \/
  snd (prep_data_stats (Samples.weekly "England" "gymA" 20 0 50 [1; 2; 3; 4; 5; 6])
                       20 true "kick-off") = Raise DuplicateEntries \/
  snd (prep_data_stats (Samples.weekly "England" "gymA" 20 0 50 [1; 2; 3; 4; 5; 6])
                       20 true "kick-off") = Raise HourOutOfRange.
Proof.
  apply (prep_data_stats_seven_week_values _ 20 true "kick-off").
  - left. reflexivity.
  - vm_compute. discriminate.
Defined.

(* ------------------------------------------------------------------ *)
(** ** [prep_data]: the rows and their weeks *)

Lemma Series_min_spec (l : list Z) (lo : Z) :
  Series.min l = Some lo -> In lo l /\ forall x, In x l -> lo <= x.
Proof.
  revert lo. induction l as [|a l IH]; simpl; intros lo; [discriminate|].
  destruct (Series.min l) as [m|] eqn:E.
  - intros [= <-]. destruct (IH m eq_refl) as [Hin Hle]. split.
    + destruct (Z.min_spec a m) as [[_ ->]|[_ ->]]; auto.
    + intros x [<-|Hx]; [lia|]. specialize (Hle x Hx). lia.
  - intros [= <-]. destruct l; [|simpl in E; destruct (Series.min l); discriminate].
    split; [now left|]. intros x [<-|[]]. lia.
Qed.

Lemma Series_max_spec (l : list Z) (hi : Z) :
  Series.max l = Some hi -> In hi l /\ forall x, In x l -> x <= hi.
Proof.
  revert hi. induction l as [|a l IH]; simpl; intros hi; [discriminate|].
  destruct (Series.max l) as [m|] eqn:E.
  - intros [= <-]. destruct (IH m eq_refl) as [Hin Hle]. split.
    + destruct (Z.max_spec a m) as [[_ ->]|[_ ->]]; auto.
    + intros x [<-|Hx]; [lia|]. specialize (Hle x Hx). lia.
  - intros [= <-]. destruct l; [|simpl in E; destruct (Series.max l); discriminate].
    split; [now left|]. intros x [<-|[]]. lia.
Qed.

Lemma Series_max_shift {A : Type} (f : A -> Z) (lo : Z) (l : list A) :
  Series.max (map (fun a => f a - lo + 1) l)
  = option_map (fun m => m - lo + 1) (Series.max (map f l)).
Proof.
  induction l as [|a l IH]; simpl; [reflexivity|].
  rewrite IH. destruct (Series.max (map f l)); simpl; [|reflexivity].
  f_equal. lia.
Qed.

Lemma Series_min_max_none (l : list Z) :
  Series.min l = None -> Series.max l = None.
Proof.
  destruct l; simpl; [reflexivity|]. destruct (Series.min l); discriminate.
Qed.

Lemma Series_min_some_max (l : list Z) (lo : Z) :
  Series.min l = Some lo -> exists hi, Series.max l = Some hi.
Proof.
  destruct l; simpl; [discriminate|]. destruct (Series.max l); eauto.
Qed.

(** [number_weeks] in terms of the ISO weeks of the rows. *)
Lemma number_weeks_cases (df : list Occupancy) :
  number_weeks df =
  match Series.min (map (fun r => isocalendar_week (datetime r)) df),
        Series.max (map (fun r => isocalendar_week (datetime r)) df) with
  | Some lo, Some hi =>
      if hi - lo =? 7 then
        Return (filter (fun r => 0 <? week r)
                       (map (fun r => mkWindowed r (isocalendar_week (datetime r) - lo))
                            df))
      else
        Return (map (fun r => mkWindowed r (isocalendar_week (datetime r) - lo + 1))
                    df)
  | _, _ => Raise NAAmbiguous
  end.
Proof.
  unfold number_weeks. rewrite !map_map. cbn [week].
  destruct (Series.min _) as [lo|] eqn:Hlo.
  - rewrite !map_map. cbn [week set_week].
    rewrite (Series_max_shift (fun r => isocalendar_week (datetime r))).
    destruct (Series.max _) as [hi|]; [simpl|reflexivity].
    replace (hi - lo + 1 =? 8) with (hi - lo =? 7).
    2:{ destruct (hi - lo =? 7) eqn:E; symmetry;
        [apply Z.eqb_eq in E; apply Z.eqb_eq|apply Z.eqb_neq in E; apply Z.eqb_neq];
        lia. }
    destruct (hi - lo =? 7); [|reflexivity].
    do 2 f_equal. apply map_ext. intros r. unfold set_week. simpl.
    f_equal. lia.
  - reflexivity.
Qed.

Lemma number_weeks_kept (df : list Occupancy) :
  number_weeks df =
  match Series.min (map iso_week df), Series.max (map iso_week df) with
  | Some lo, Some hi =>
      if hi - lo =? 7 then
        Return (filter (fun r => 0 <? week r)
                       (map (fun r => mkWindowed r (iso_week r - lo)) df))
      else Return (map (fun r => mkWindowed r (iso_week r - lo + 1)) df)
  | _, _ => Raise NAAmbiguous
  end.
Proof. apply number_weeks_cases. Qed.

(** What a returned table is, given the least and greatest ISO week of the
    rows kept. *)
Lemma prep_data_inv (df_raw : list Occupancy) (match_date : date)
      (out : list Windowed) :
  prep_data df_raw match_date = Return out ->
  exists lo hi,
    Series.min (map iso_week (kept_rows df_raw match_date)) = Some lo /\
    Series.max (map iso_week (kept_rows df_raw match_date)) = Some hi /\
    out = if hi - lo =? 7
          then filter (fun r => 0 <? week r)
                      (map (fun r => mkWindowed r (iso_week r - lo))
                           (kept_rows df_raw match_date))
          else map (fun r => mkWindowed r (iso_week r - lo + 1))
                   (kept_rows df_raw match_date).
Proof.
  unfold prep_data. fold (kept_rows df_raw match_date).
  rewrite number_weeks_kept.
  destruct (Series.min _) as [lo|]; [|discriminate].
  destruct (Series.max _) as [hi|]; [|discriminate].
  intros H. exists lo, hi. repeat split.
  destruct (hi - lo =? 7); now injection H.
Qed.

(** X1: the table [prep_data] returns holds the raw rows that pass its two
    filters, unchanged and in their order; when the ISO weeks of these
    rows span exactly eight values, the rows of the least ISO week are
    left out. *)
Theorem prep_data_rows (df_raw : list Occupancy) (match_date : date)
        (out : list Windowed) :
  prep_data df_raw match_date = Return out ->
  exists lo hi,
    Series.min (map iso_week (kept_rows df_raw match_date)) = Some lo /\
    Series.max (map iso_week (kept_rows df_raw match_date)) = Some hi /\
    map row out =
    if hi - lo =? 7
    then filter (fun r => negb (iso_week r =? lo)) (kept_rows df_raw match_date)
    else kept_rows df_raw match_date.
Proof.
  intros H. destruct (prep_data_inv _ _ _ H) as (lo & hi & Hlo & Hhi & ->).
  exists lo, hi. split; [exact Hlo|]. split; [exact Hhi|].
  destruct (hi - lo =? 7).
  - rewrite filter_map_comm, map_map. cbn [row week]. rewrite map_id.
    apply filter_ext_in. intros r Hr.
    destruct (Series_min_spec _ _ Hlo) as [_ Hle].
    specialize (Hle (iso_week r) (in_map iso_week _ _ Hr)).
    destruct (iso_week r =? lo) eqn:E; simpl.
    + apply Z.eqb_eq in E. apply Z.ltb_ge. lia.
    + apply Z.eqb_neq in E. apply Z.ltb_lt. lia.
  - rewrite map_map. cbn [row]. apply map_id.
Qed.

Lemma prep_data_rows_witness :
  exists lo hi,
    Series.min (map iso_week
                  (kept_rows (Samples.daily "England" "gymA" 20 0 50 Samples.fridays)
                             Samples.match_day)) = Some lo /\
    Series.max (map iso_week
                  (kept_rows (Samples.daily "England" "gymA" 20 0 50 Samples.fridays)
                             Samples.match_day)) = Some hi /\
    map row (Samples.weekly "England" "gymA" 20 0 50 Samples.seven_weeks) =
    if hi - lo =? 7
    then filter (fun r => negb (iso_week r =? lo))
                (kept_rows (Samples.daily "England" "gymA" 20 0 50 Samples.fridays)
                           Samples.match_day)
    else kept_rows (Samples.daily "England" "gymA" 20 0 50 Samples.fridays)
                   Samples.match_day.
Proof.
  apply prep_data_rows. vm_compute. reflexivity.
Defined.

(** X2: in a table [prep_data] returns every week number is at least 1,
    and two rows differ in their week numbers by what their ISO weeks
    differ: rows of one ISO week share their number. *)
Theorem prep_data_weeks_follow_iso (df_raw : list Occupancy) (match_date : date)
        (out : list Windowed) :
  prep_data df_raw match_date = Return out ->
  (forall r : Windowed, In r out -> 1 <= week r) /\
  (forall r r' : Windowed, In r out -> In r' out ->
                week r - week r' = iso_week r - iso_week r').
Proof.
  intros H. destruct (prep_data_inv _ _ _ H) as (lo & hi & Hlo & Hhi & ->).
  destruct (Series_min_spec _ _ Hlo) as [_ Hle].
  assert (Hshape : forall r : Windowed,
             In r (if hi - lo =? 7
                   then filter (fun r => 0 <? week r)
                               (map (fun r => mkWindowed r (iso_week r - lo))
                                    (kept_rows df_raw match_date))
                   else map (fun r => mkWindowed r (iso_week r - lo + 1))
                            (kept_rows df_raw match_date)) ->
             1 <= week r /\
             week r = iso_week r - lo + (if hi - lo =? 7 then 0 else 1)).
  { intros r Hr. destruct (hi - lo =? 7).
    - apply filter_In in Hr as [Hr Hpos]. apply Z.ltb_lt in Hpos.
      apply in_map_iff in Hr as (r0 & <- & _). simpl in *. lia.
    - apply in_map_iff in Hr as (r0 & <- & Hr0). simpl.
      specialize (Hle _ (in_map iso_week _ _ Hr0)). lia. }
  split.
  - intros r Hr. apply (Hshape r Hr).
  - intros r r' Hr Hr'.
    destruct (Hshape r Hr) as [_ ->]. destruct (Hshape r' Hr') as [_ ->]. lia.
Qed.

Lemma prep_data_weeks_follow_iso_witness :
  (forall r : Windowed,
      In r (Samples.weekly "England" "gymA" 20 0 50 Samples.seven_weeks) ->
      1 <= week r) /\
  (forall r r' : Windowed,
      In r (Samples.weekly "England" "gymA" 20 0 50 Samples.seven_weeks) ->
      In r' (Samples.weekly "England" "gymA" 20 0 50 Samples.seven_weeks) ->
      week r - week r' = iso_week r - iso_week r').
Proof.
  apply (prep_data_weeks_follow_iso
           (Samples.daily "England" "gymA" 20 0 50 Samples.fridays)
           Samples.match_day).
  vm_compute. reflexivity.
Defined.

(** X3: when the ISO weeks of the rows that pass the two filters differ by
    at most 7, every week number of the table returned is between 1 and
    7. *)
Theorem prep_data_weeks_within_seven (df_raw : list Occupancy)
        (match_date : date) (out : list Windowed) :
  prep_data df_raw match_date = Return out ->
  (forall r r', In r (kept_rows df_raw match_date) ->
                In r' (kept_rows df_raw match_date) ->
                iso_week r - iso_week r' <= 7) ->
  forall x : Windowed, In x out -> 1 <= week x <= 7.
Proof.
  intros H Hspan x Hx.
  destruct (prep_data_inv _ _ _ H) as (lo & hi & Hlo & Hhi & ->).
  destruct (Series_min_spec _ _ Hlo) as [Hlo_in Hle].
  destruct (Series_max_spec _ _ Hhi) as [Hhi_in Hge].
  apply in_map_iff in Hlo_in as (rlo & Elo & Hrlo).
  apply in_map_iff in Hhi_in as (rhi & Ehi & Hrhi).
  pose proof (Hspan rhi rlo Hrhi Hrlo) as Hd. rewrite Elo, Ehi in Hd.
  destruct (hi - lo =? 7) eqn:E.
  - apply filter_In in Hx as [Hx Hpos]. apply Z.ltb_lt in Hpos.
    apply in_map_iff in Hx as (r0 & <- & Hr0). simpl in *.
    specialize (Hge _ (in_map iso_week _ _ Hr0)). lia.
  - apply Z.eqb_neq in E.
    apply in_map_iff in Hx as (r0 & <- & Hr0). simpl.
    specialize (Hge _ (in_map iso_week _ _ Hr0)).
    specialize (Hle _ (in_map iso_week _ _ Hr0)). lia.
Qed.

(** X4: when the ISO weeks of the rows that pass the two filters span seven
    or eight values, the rows numbered 7 in the table returned are those
    of the greatest ISO week. *)
Theorem prep_data_latest_week_is_seven (df_raw : list Occupancy)
        (match_date : date) (out : list Windowed) (lo hi : Z) :
  prep_data df_raw match_date = Return out ->
  Series.min (map iso_week (kept_rows df_raw match_date)) = Some lo ->
  Series.max (map iso_week (kept_rows df_raw match_date)) = Some hi ->
  6 <= hi - lo <= 7 ->
  (exists x : Windowed, In x out /\ week x = 7) /\
  (forall x : Windowed, In x out -> (week x = 7 <-> iso_week x = hi)).
Proof.
  intros H Hlo Hhi Hspan.
  destruct (prep_data_inv _ _ _ H) as (lo' & hi' & Hlo' & Hhi' & ->).
  rewrite Hlo in Hlo'. rewrite Hhi in Hhi'.
  injection Hlo' as <-. injection Hhi' as <-.
  destruct (Series_max_spec _ _ Hhi) as [Hhi_in _].
  apply in_map_iff in Hhi_in as (rhi & Ehi & Hrhi).
  destruct (hi - lo =? 7) eqn:E.
  - apply Z.eqb_eq in E. split.
    + exists (mkWindowed rhi (iso_week rhi - lo)). split; [|simpl; lia].
      apply filter_In. split; [|apply Z.ltb_lt; simpl; lia].
      now apply (in_map (fun r => mkWindowed r (iso_week r - lo))).
    + intros x Hx. apply filter_In in Hx as [Hx _].
      apply in_map_iff in Hx as (r0 & <- & _). simpl. lia.
  - apply Z.eqb_neq in E. split.
    + exists (mkWindowed rhi (iso_week rhi - lo + 1)). split; [|simpl; lia].
      now apply (in_map (fun r => mkWindowed r (iso_week r - lo + 1))).
    + intros x Hx. apply in_map_iff in Hx as (r0 & <- & _). simpl. lia.
Qed.



Lemma eight_fridays_span :
  forall r r',
    In r (kept_rows (Samples.daily "England" "gymA" 20 0 50 Samples.eight_fridays)
                    Samples.match_day) ->
    In r' (kept_rows (Samples.daily "England" "gymA" 20 0 50 Samples.eight_fridays)
                     Samples.match_day) ->
    iso_week r - iso_week r' <= 7.
Proof.
  intros r r' Hr Hr'. vm_compute in Hr, Hr'.
  repeat (destruct Hr as [<-|Hr];
          [repeat (destruct Hr' as [<-|Hr']; [vm_compute; discriminate|]);
           destruct Hr'|]).
  destruct Hr.
Qed.

Lemma prep_data_eight_fridays :
  prep_data (Samples.daily "England" "gymA" 20 0 50 Samples.eight_fridays)
            Samples.match_day
  = Return (Samples.weekly "England" "gymA" 20 0 50 Samples.seven_weeks).
Proof. vm_compute. reflexivity. Qed.

Lemma prep_data_weeks_within_seven_witness :
  1 <= week (mkWindowed (mkOccupancy (at_time Samples.match_day 20 0)
                                     "England" "gymA" 50) 7) <= 7.
Proof.
  apply (prep_data_weeks_within_seven
           (Samples.daily "England" "gymA" 20 0 50 Samples.eight_fridays)
           Samples.match_day
           (Samples.weekly "England" "gymA" 20 0 50 Samples.seven_weeks)).
  - exact prep_data_eight_fridays.
  - exact eight_fridays_span.
  - vm_compute. repeat (try (left; reflexivity); right).
Defined.

Lemma prep_data_latest_week_is_seven_witness :
  (exists x : Windowed,
      In x (Samples.weekly "England" "gymA" 20 0 50 Samples.seven_weeks) /\
      week x = 7) /\
  (forall x : Windowed,
      In x (Samples.weekly "England" "gymA" 20 0 50 Samples.seven_weeks) ->
      (week x = 7 <-> iso_week x = 24)).
Proof.
  apply (prep_data_latest_week_is_seven
           (Samples.daily "England" "gymA" 20 0 50 Samples.eight_fridays)
           Samples.match_day _ 17 24).
  - exact prep_data_eight_fridays.
  - vm_compute. reflexivity.
  - vm_compute. reflexivity.
  - lia.
Defined.

(* ------------------------------------------------------------------ *)
(** ** The key columns of the result *)

Section SortKeys.
Context {K : Type} (cmp : K -> K -> comparison).
Context {A B : Type} (f : A -> B) (kf : B -> K).

Lemma insert_stable_map (a : A) (l : list A) :
  map f (insert_stable cmp (fun x => kf (f x)) a l)
  = insert_stable cmp kf (f a) (map f l).
Proof.
  induction l as [|h t IH]; simpl; [reflexivity|].
  destruct (cmp (kf (f a)) (kf (f h))); simpl; congruence.
Qed.

(** Sorting looks at the keys only. *)
Lemma sort_values_map (l : list A) :
  map f (sort_values cmp (fun x => kf (f x)) l) = sort_values cmp kf (map f l).
Proof.
  induction l as [|h t IH]; simpl; [reflexivity|].
  now rewrite insert_stable_map, IH.
Qed.
End SortKeys.

Section SortPerm.
Context {K : Type} (cmp : K -> K -> comparison).
Context {A : Type} (key : A -> K).

Lemma insert_stable_perm (a : A) (l : list A) :
  Permutation (a :: l) (insert_stable cmp key a l).
Proof.
  induction l as [|h t IH]; simpl; [reflexivity|].
  destruct (cmp (key a) (key h)); try reflexivity.
  rewrite perm_swap. now constructor.
Qed.

Lemma sort_values_perm (l : list A) : Permutation l (sort_values cmp key l).
Proof.
  induction l as [|h t IH]; simpl; [reflexivity|].
  rewrite <- insert_stable_perm. now constructor.
Qed.
End SortPerm.

Lemma apply_keys {K A B : Type} (f : A -> outcome B) (groups : list (K * A))
      (res : list (K * B)) :
  apply f groups = Return res -> map fst res = map fst groups.
Proof.
  revert res. induction groups as [|[k0 g0] t IH]; simpl; intros res.
  - now intros [= <-].
  - destruct (f g0); [|discriminate]. simpl.
    destruct (apply f t) as [rest|]; [|discriminate]. simpl.
    intros [= <-]. simpl. f_equal. now apply IH.
Qed.

Lemma kickoff_index (df : list Windowed) (kickoff : Z) (norm : bool) :
  let dfw := wide_table cmp2 (kickoff_entries (at_kickoff kickoff df)) in
  map index (if norm then normalise country_of_gym dfw else dfw)
  = unique_sorted cmp2
      (map (fun r : Windowed => (country r, gym r)) (at_kickoff kickoff df)).
Proof.
  simpl. rewrite normalise_index, wide_table_index.
  unfold kickoff_entries. now rewrite map_map.
Qed.

Lemma auc_index (df : list Windowed) (norm : bool) :
  let dfw := wide_table cmp_index3 (auc_entries df) in
  map index (if norm then normalise country_of_gym_time dfw else dfw)
  = unique_sorted cmp_index3
      (map (fun r : Windowed => (country r, gym r, time_of (datetime r))) df).
Proof.
  simpl. rewrite normalise_index, wide_table_index.
  unfold auc_entries. now rewrite map_map.
Qed.

(** The key columns of the kick-off result. *)
Lemma kickoff_keys (df : list Windowed) (kickoff : Z) (norm : bool)
      (rows : list Long) :
  snd (prep_data_stats df kickoff norm "kick-off") = Return (Some rows) ->
  map long_key rows
  = melted_keys (fun k => k)
      (unique_sorted cmp2
         (map (fun r : Windowed => (country r, gym r)) (at_kickoff kickoff df))).
Proof.
  intros H. apply kickoff_returns in H as [_ ->].
  rewrite <- (kickoff_index df kickoff norm).
  unfold kickoff_long, melt, melted_keys.
  rewrite !map_app, !map_map. reflexivity.
Qed.

(** The key columns of the AUC result. *)
Lemma auc_keys (df : list Windowed) (kickoff : Z) (norm : bool)
      (rows : list Long) :
  snd (prep_data_stats df kickoff norm "auc") = Return (Some rows) ->
  map long_key rows
  = sort_values cmp2 (fun k => (snd k, snd (fst k)))
      (unique_sorted cmp3
         (melted_keys (fun k : string * string * time => fst k)
            (unique_sorted cmp_index3
               (map (fun r : Windowed => (country r, gym r, time_of (datetime r)))
                    df)))).
Proof.
  unfold prep_data_stats. simpl.
  destruct (auc_wide df) as [dfw|] eqn:Hw; [simpl|discriminate].
  apply auc_wide_table in Hw. subst dfw.
  rewrite <- (auc_index df norm). simpl.
  set (dfw := if norm then _ else _).
  unfold auc_long.
  destruct (apply auc _) as [res|] eqn:Hres; [simpl|discriminate].
  intros [= <-].
  rewrite (sort_values_map cmp2 long_key (fun k => (snd k, snd (fst k)))).
  f_equal. rewrite map_map.
  rewrite (map_ext _ fst) by (intros [[[c g] w] v]; reflexivity).
  rewrite (apply_keys _ _ _ Hres). unfold groupby. rewrite map_map. simpl.
  rewrite map_id. f_equal.
  unfold melt, melted_keys. rewrite !map_app, !map_map. reflexivity.
Qed.

Lemma melted_keys_In {K : Type} (gym_of : K -> string * string) (idx : list K)
      (c g label : string) :
  In (c, g, label) (melted_keys gym_of idx) <->
  (exists k, In k idx /\ gym_of k = (c, g)) /\
  (label = "w1-6"%string \/ label = "w7"%string).
Proof.
  unfold melted_keys. rewrite in_app_iff, !in_map_iff. split.
  - intros [(k & [= <- <- <-] & Hk)|(k & [= <- <- <-] & Hk)];
      (split; [exists k; split; [exact Hk|now destruct (gym_of k)]|auto]).
  - intros [(k & Hk & E) [-> | ->]]; [left|right]; exists k; rewrite E; auto.
Qed.

Lemma result_keys_In (df : list Windowed) (kickoff : Z) (norm : bool)
      (metric : string) (rows : list Long) (c g label : string) :
  snd (prep_data_stats df kickoff norm metric) = Return (Some rows) ->
  In (c, g, label) (map long_key rows) <->
  gym_in (pivoted_rows df kickoff metric) c g /\
  (label = "w1-6"%string \/ label = "w7"%string).
Proof.
  intros H. unfold pivoted_rows, gym_in.
  destruct (String.eqb metric "kick-off") eqn:Ek.
  - apply String.eqb_eq in Ek. subst metric.
    rewrite (kickoff_keys _ _ _ _ H), melted_keys_In.
    apply and_iff_compat_r. split.
    + intros (k & Hk & ->).
      apply (proj1 (unique_sorted_In cmp2 _ _)) in Hk.
      apply in_map_iff in Hk as (r & [= <- <-] & Hr). eauto.
    + intros (r & Hr & <- & <-). exists (country r, gym r). split; [|reflexivity].
      apply unique_sorted_In; [exact Order_cmp2|].
      now apply (in_map (fun r : Windowed => (country r, gym r))).
  - destruct (String.eqb metric "auc") eqn:Ea.
    + apply String.eqb_eq in Ea. subst metric.
      rewrite (auc_keys _ _ _ _ H), sort_values_In.
      rewrite unique_sorted_In by exact Order_cmp3.
      rewrite melted_keys_In. apply and_iff_compat_r. split.
      * intros (k & Hk & Hg).
        apply (proj1 (unique_sorted_In cmp_index3 _ _)) in Hk.
        apply in_map_iff in Hk as (r & <- & Hr). simpl in Hg.
        injection Hg as <- <-. eauto.
      * intros (r & Hr & <- & <-).
        exists (country r, gym r, time_of (datetime r)). split; [|reflexivity].
        apply unique_sorted_In; [exact Order_cmp_index3|].
        now apply (in_map (fun r : Windowed =>
                             (country r, gym r, time_of (datetime r)))).
    + unfold prep_data_stats in H. rewrite Ek, Ea in H. discriminate.
Qed.

(** X6: in both branches every row of the result is labelled "w1-6" or
    "w7", and a gym has rows in the result exactly when it has a row among
    those the branch pivots, in which case it has both labels. *)
Theorem result_labels (df : list Windowed) (kickoff : Z) (norm : bool)
        (metric : string) (rows : list Long) :
  snd (prep_data_stats df kickoff norm metric) = Return (Some rows) ->
  (forall x, In x rows -> l_week x = "w1-6"%string \/ l_week x = "w7"%string) /\
  (forall c g label,
      In (c, g, label) (map long_key rows) <->
      gym_in (pivoted_rows df kickoff metric) c g /\
      (label = "w1-6"%string \/ label = "w7"%string)).
Proof.
  intros H. split.
  - intros x Hx.
    apply (result_keys_In df kickoff norm metric rows
                          (l_country x) (l_gym x) (l_week x) H).
    now apply (in_map long_key).
  - intros c g label. exact (result_keys_In df kickoff norm metric rows c g label H).
Qed.

Lemma result_labels_witness :
  (forall x,
      In x [mkLong "England" "gymA" "w1-6" (Fin 0);
            mkLong "England" "gymB" "w1-6" (Fin 0);
            mkLong "England" "gymA" "w7" (Fin 0);
            mkLong "England" "gymB" "w7" (Fin 0)] ->
      l_week x = "w1-6"%string \/ l_week x = "w7"%string) /\
  (forall c g label,
      In (c, g, label)
         (map long_key [mkLong "England" "gymA" "w1-6" (Fin 0);
                        mkLong "England" "gymB" "w1-6" (Fin 0);
                        mkLong "England" "gymA" "w7" (Fin 0);
                        mkLong "England" "gymB" "w7" (Fin 0)]) <->
      gym_in (pivoted_rows Samples.two_gyms 20 "auc") c g /\
      (label = "w1-6"%string \/ label = "w7"%string)).
Proof.
  apply (result_labels Samples.two_gyms 20 false "auc").
  vm_compute. reflexivity.
Defined.

(** X7: the kick-off result lists the gyms sampled at the kick-off hour in
    ascending order of (country, gym), once with the label "w1-6" and then
    once more, in the same order, with the label "w7": two rows for each
    gym. *)
Theorem kickoff_rows_order (df : list Windowed) (kickoff : Z) (norm : bool)
        (rows : list Long) :
  snd (prep_data_stats df kickoff norm "kick-off") = Return (Some rows) ->
  exists gyms,
    StronglySorted (strictly_below cmp2) gyms /\
    (forall c g, In (c, g) gyms <-> gym_in (at_kickoff kickoff df) c g) /\
    map long_key rows
    = map (fun k => (fst k, snd k, "w1-6"%string)) gyms
      ++ map (fun k => (fst k, snd k, "w7"%string)) gyms /\
    List.length rows = (2 * List.length gyms)%nat.
Proof.
  intros H.
  exists (unique_sorted cmp2
            (map (fun r : Windowed => (country r, gym r)) (at_kickoff kickoff df))).
  split; [apply unique_sorted_sorted; exact Order_cmp2|]. split; [|split].
  - intros c g. rewrite unique_sorted_In by exact Order_cmp2.
    rewrite in_map_iff. unfold gym_in. split.
    + intros (r & [= <- <-] & Hr). eauto.
    + intros (r & Hr & <- & <-). eauto.
  - exact (kickoff_keys _ _ _ _ H).
  - rewrite <- (length_map long_key), (kickoff_keys _ _ _ _ H).
    unfold melted_keys. rewrite length_app, !length_map. lia.
Qed.

Lemma kickoff_rows_order_witness :
  exists gyms,
    StronglySorted (strictly_below cmp2) gyms /\
    (forall c g, In (c, g) gyms <-> gym_in (at_kickoff 20 Samples.missing_last) c g) /\
    map long_key [mkLong "England" "gymA" "w1-6" (Fin 50);
                  mkLong "England" "gymB" "w1-6" (Fin 40);
                  mkLong "England" "gymA" "w7" (Fin 50);
                  mkLong "England" "gymB" "w7" NaN]
    = map (fun k => (fst k, snd k, "w1-6"%string)) gyms
      ++ map (fun k => (fst k, snd k, "w7"%string)) gyms /\
    List.length [mkLong "England" "gymA" "w1-6" (Fin 50);
                 mkLong "England" "gymB" "w1-6" (Fin 40);
                 mkLong "England" "gymA" "w7" (Fin 50);
                 mkLong "England" "gymB" "w7" NaN]
    = (2 * List.length gyms)%nat.
Proof.
  apply (kickoff_rows_order Samples.missing_last 20 false).
  vm_compute. reflexivity.
Defined.

(** X8: the AUC result has one row for each (country, gym, week label):
    no two of its rows share the three. *)
Theorem auc_rows_distinct (df : list Windowed) (kickoff : Z) (norm : bool)
        (rows : list Long) :
  snd (prep_data_stats df kickoff norm "auc") = Return (Some rows) ->
  NoDup (map long_key rows).
Proof.
  intros H. rewrite (auc_keys _ _ _ _ H).
  eapply Permutation_NoDup; [apply sort_values_perm|].
  apply unique_sorted_NoDup. exact Order_cmp3.
Qed.

Lemma auc_rows_distinct_witness :
  NoDup (map long_key [mkLong "England" "gymA" "w1-6" (Fin 0);
                       mkLong "England" "gymB" "w1-6" (Fin 0);
                       mkLong "England" "gymA" "w7" (Fin 0);
                       mkLong "England" "gymB" "w7" (Fin 0)]).
Proof.
  apply (auc_rows_distinct Samples.two_gyms 20 false).
  vm_compute. reflexivity.
Defined.

Lemma result_keys_norm (df : list Windowed) (kickoff : Z) (metric : string)
      (norm norm' : bool) (rows rows' : list Long) :
  snd (prep_data_stats df kickoff norm metric) = Return (Some rows) ->
  snd (prep_data_stats df kickoff norm' metric) = Return (Some rows') ->
  map long_key rows = map long_key rows'.
Proof.
  intros H H'.
  destruct (String.eqb metric "kick-off") eqn:Ek.
  - apply String.eqb_eq in Ek. subst metric.
    now rewrite (kickoff_keys _ _ _ _ H), (kickoff_keys _ _ _ _ H').
  - destruct (String.eqb metric "auc") eqn:Ea.
    + apply String.eqb_eq in Ea. subst metric.
      now rewrite (auc_keys _ _ _ _ H), (auc_keys _ _ _ _ H').
    + unfold prep_data_stats in H. rewrite Ek, Ea in H. discriminate.
Qed.

(** X9: normalisation changes values only: when the call returns with
    [norm] set it returns with [norm] unset too, with the same (country,
    gym, week label) columns in the same order. *)
Theorem norm_keeps_keys (df : list Windowed) (kickoff : Z) (metric : string)
        (rows : list Long) :
  snd (prep_data_stats df kickoff true metric) = Return (Some rows) ->
  exists rows',
    snd (prep_data_stats df kickoff false metric) = Return (Some rows') /\
    map long_key rows = map long_key rows'.
Proof.
  intros H.
  destruct (snd (prep_data_stats df kickoff false metric)) as [[rows'|]|e] eqn:Hf.
  - exists rows'. split; [reflexivity|].
    exact (result_keys_norm _ _ _ _ _ _ _ H Hf).
  - exfalso. unfold prep_data_stats in H, Hf.
    destruct (String.eqb metric "kick-off").
    + simpl in Hf. destruct (kickoff_wide df kickoff); discriminate.
    + destruct (String.eqb metric "auc"); [|discriminate].
      simpl in Hf. destruct (auc_wide df) as [dfw|]; [simpl in Hf|discriminate].
      destruct (auc_long dfw); discriminate.
  - exfalso. apply prep_data_stats_raises in Hf.
    apply (prep_data_stats_raises df kickoff true) in Hf.
    rewrite H in Hf. discriminate.
Qed.

Lemma norm_keeps_keys_witness :
  exists rows',
    snd (prep_data_stats Samples.two_gyms 20 false "kick-off")
    = Return (Some rows') /\
    map long_key [mkLong "England" "gymA" "w1-6" (Fin (4 # 5));
                  mkLong "England" "gymB" "w1-6" (Fin (6 # 5));
                  mkLong "England" "gymA" "w7" (Fin (4 # 5));
                  mkLong "England" "gymB" "w7" (Fin (6 # 5))]
    = map long_key rows'.
Proof.
  apply (norm_keeps_keys Samples.two_gyms 20 "kick-off").
  vm_compute. reflexivity.
Defined.

(* ------------------------------------------------------------------ *)
(** ** Which call returns and which raises *)

Lemma not_NoDup_duplicated {K : Type} (cmp : K -> K -> comparison)
      `{!Order cmp} (l : list (K * Z)) :
  ~ NoDup l -> duplicated cmp l = true.
Proof.
  intros H. destruct (duplicated cmp l) eqn:E; [reflexivity|].
  destruct H. now apply (duplicated_false cmp).
Qed.


Lemma auc_entries_keys (df : list Windowed) :
  map fst (auc_entries df)
  = map (fun r : Windowed => (country r, gym r, time_of (datetime r), week r)) df.
Proof. unfold auc_entries. now rewrite map_map. Qed.


(** X11: the AUC branch never looks at the kick-off hour; it raises when
    two rows share country, gym, time of day and week; without such rows
    it raises when the table does not carry seven distinct weeks; and in
    the remaining case it returns a table. *)
Theorem auc_outcome (df : list Windowed) (kickoff : Z) (norm : bool) :
  (~ NoDup (map (fun r : Windowed =>
                   (country r, gym r, time_of (datetime r), week r)) df) ->
   snd (prep_data_stats df kickoff norm "auc") = Raise DuplicateEntries) /\
  (NoDup (map (fun r : Windowed =>
                 (country r, gym r, time_of (datetime r), week r)) df) ->
   n_weeks df <> 7%nat ->
   snd (prep_data_stats df kickoff norm "auc") = Raise LengthMismatch) /\
  (NoDup (map (fun r : Windowed =>
                 (country r, gym r, time_of (datetime r), week r)) df) ->
   n_weeks df = 7%nat ->
   exists rows, snd (prep_data_stats df kickoff norm "auc") = Return (Some rows)).
Proof.
  unfold prep_data_stats. simpl. rewrite auc_wide_cases, auc_entries_keys.
  repeat split.
  - intros Hd. now rewrite (not_NoDup_duplicated cmp_index3 _ Hd).
  - intros Hd Hn. apply (duplicated_false cmp_index3) in Hd. rewrite Hd.
    apply Nat.eqb_neq in Hn. now rewrite Hn.
  - intros Hd Hn. apply (duplicated_false cmp_index3) in Hd. rewrite Hd, Hn.
    simpl.
    destruct (auc_long_returns
                (if norm
                 then normalise country_of_gym_time
                        (wide_table cmp_index3 (auc_entries df))
                 else wide_table cmp_index3 (auc_entries df)))
      as (rows & ->).
    simpl. eauto.
Qed.


Lemma auc_outcome_witness :
  snd (prep_data_stats (Samples.weekly "England" "gymA" 20 0 50 [1; 2; 3])
                       20 true "auc")
  = Raise LengthMismatch.
Proof.
  apply (auc_outcome (Samples.weekly "England" "gymA" 20 0 50 [1; 2; 3]) 20 true).
  - apply (duplicated_false cmp_index3). vm_compute. reflexivity.
  - vm_compute. discriminate.
Defined.

(* ------------------------------------------------------------------ *)
(** ** The values of the kick-off result *)

Lemma NoDup_map_eq {A B : Type} (f : A -> B) (l : list A) (a b : A) :
  NoDup (map f l) -> In a l -> In b l -> f a = f b -> a = b.
Proof.
  induction l as [|h t IH]; simpl; intros Hnd Ha Hb E; [destruct Ha|].
  inversion Hnd as [|? ? Hnotin Hnd']; subst.
  destruct Ha as [->|Ha], Hb as [->|Hb]; auto.
  - destruct Hnotin. rewrite E. now apply in_map.
  - destruct Hnotin. rewrite <- E. now apply in_map.
Qed.

Section CellValue.
Context {K : Type} (cmp : K -> K -> comparison) `{!Order cmp}.

(** Without a repeated (index, week) pair, the cell of a row holds its
    occupancy. *)
Lemma cell_unique (rows : list (K * Z * Q)) (e : K * Z * Q) :
  NoDup (map fst rows) -> In e rows ->
  cell cmp rows (fst (fst e)) (snd (fst e)) = Fin (snd e).
Proof.
  intros Hnd He. unfold cell.
  destruct (find _ rows) as [e'|] eqn:E.
  - apply find_some in E as [Hin Hp].
    apply andb_true_iff in Hp as [Hk Hw].
    apply (eqk_true cmp) in Hk. apply Z.eqb_eq in Hw.
    assert (e' = e) as ->; [|reflexivity].
    apply (NoDup_map_eq fst rows); auto.
    destruct e as [[k w] v], e' as [[k' w'] v']. simpl in *. congruence.
  - apply (find_none _ _ E) in He.
    rewrite Z.eqb_refl, andb_true_r in He.
    assert (eqk cmp (fst (fst e)) (fst (fst e)) = true) by now apply eqk_true.
    congruence.
Qed.

(** With seven week labels, [w7] is the cell of the latest week. *)
Lemma wide_table_w7_cell (rows : list (K * Z * Q)) (wlast : Z) (r : Wide K) :
  List.length (unique_sorted Z.compare (map (fun e => snd (fst e)) rows)) = 7%nat ->
  (exists e, In e rows /\ snd (fst e) = wlast) ->
  (forall e, In e rows -> snd (fst e) <= wlast) ->
  In r (wide_table cmp rows) -> w7 r = cell cmp rows (index r) wlast.
Proof.
  intros Hlen (e0 & He0 & Hw0) Hmax Hr.
  unfold wide_table in Hr. apply in_map_iff in Hr as (k & <- & _). simpl.
  set (columns := unique_sorted Z.compare (map (fun e => snd (fst e)) rows)) in *.
  rewrite (nth_indep _ NaN (cell cmp rows k 0)) by (rewrite length_map; lia).
  rewrite map_nth, nth_6_last by exact Hlen.
  rewrite (sorted_last columns wlast); [reflexivity| | |].
  - apply unique_sorted_sorted. exact Order_Z.
  - apply unique_sorted_In; [exact Order_Z|]. apply in_map_iff. eauto.
  - intros y Hy. apply (proj1 (unique_sorted_In Z.compare _ _)) in Hy.
    apply in_map_iff in Hy as (e & <- & He). now apply Hmax.
Qed.
End CellValue.

Lemma kickoff_returns_nodup (df : list Windowed) (kickoff : Z) (norm : bool)
      (rows : list Long) :
  snd (prep_data_stats df kickoff norm "kick-off") = Return (Some rows) ->
  NoDup (map fst (kickoff_entries (at_kickoff kickoff df))).
Proof.
  unfold prep_data_stats. simpl. rewrite kickoff_wide_cases.
  destruct (_ && _); [|discriminate].
  destruct (duplicated _ _) eqn:E; [discriminate|]. intros _.
  now apply (duplicated_false cmp2).
Qed.

(** X12: with [norm] unset, the "w7" row of a gym sampled at the kick-off
    hour in the latest week carries the occupancy of that sample. *)
Theorem kickoff_w7_value (df : list Windowed) (kickoff : Z) (rows : list Long)
        (wlast : Z) (r : Windowed) :
  snd (prep_data_stats df kickoff false "kick-off") = Return (Some rows) ->
  latest_week df kickoff wlast ->
  In r (at_kickoff kickoff df) ->
  week r = wlast ->
  In (mkLong (country r) (gym r) "w7" (Fin (occupancy r))) rows.
Proof.
  intros H [(rl & Hrl & Hwl) Hmax] Hr Hw.
  pose proof (kickoff_returns_nodup _ _ _ _ H) as Hnd.
  apply kickoff_returns in H as [Hn ->].
  set (entries := kickoff_entries (at_kickoff kickoff df)) in *.
  set (e := ((country r, gym r), week r, occupancy r)).
  assert (He : In e entries).
  { unfold entries, kickoff_entries. apply in_map_iff.
    exists r. split; [reflexivity|exact Hr]. }
  destruct (wide_index_present cmp2 country_of_gym false entries e He)
    as (wr & Hwr & Hi).
  simpl in Hi, Hwr.
  apply kickoff_long_In. exists wr. split; [exact Hwr|]. right.
  rewrite Hi. simpl. f_equal.
  rewrite (wide_table_w7_cell cmp2 entries wlast wr); auto.
  - rewrite Hi, <- Hw. symmetry. exact (cell_unique cmp2 entries e Hnd He).
  - unfold entries. now rewrite kickoff_entries_weeks, week_labels_length.
  - exists ((country rl, gym rl), week rl, occupancy rl). split; [|exact Hwl].
    unfold entries, kickoff_entries. apply in_map_iff. eauto.
  - intros e' He'. apply in_map_iff in He' as (r1 & <- & Hr1). simpl. auto.
Qed.

Lemma kickoff_w7_value_witness :
  In (mkLong "England" "gymB" "w7" (Fin 60))
     [mkLong "England" "gymA" "w1-6" (Fin 40);
      mkLong "England" "gymB" "w1-6" (Fin 60);
      mkLong "England" "gymA" "w7" (Fin 40);
      mkLong "England" "gymB" "w7" (Fin 60)].
Proof.
  apply (kickoff_w7_value Samples.two_gyms 20 _ 7
           (mkWindowed (mkOccupancy (at_time Samples.match_day 20 0)
                                    "England" "gymB" 60) 7)).
  - vm_compute. reflexivity.
  - split.
    + eexists. split; [vm_compute; right; right; right; right; right; right;
                       left; reflexivity|reflexivity].
    + intros r Hr. vm_compute in Hr.
      repeat (destruct Hr as [<-|Hr]; [vm_compute; discriminate|]).
      destruct Hr.
  - vm_compute. right; right; right; right; right; right; left. reflexivity.
  - reflexivity.
Defined.

(* ------------------------------------------------------------------ *)
(** ** The time of day *)

Lemma time_of_ranges (t : Timestamp) :
  0 <= hour (time_of t) <= 23 /\ 0 <= minute (time_of t) <= 59 /\
  0 <= second (time_of t) <= 59 /\ 0 <= microsecond (time_of t) <= 999999.
Proof.
  unfold time_of. cbn [hour minute second microsecond].
  assert (H : 0 <= t mod ns_per_day < ns_per_day)
    by (apply Z.mod_pos_bound; reflexivity).
  unfold ns_per_day, ns_per_second in *.
  set (ns := t mod (86400 * 1000000000)) in *.
  assert (Hs : 0 <= ns / 1000000000 < 86400).
  { split; [apply Z.div_pos; lia|apply Z.div_lt_upper_bound; lia]. }
  set (s := ns / 1000000000) in *.
  repeat split.
  - apply Z.div_pos; lia.
  - assert (s / 3600 < 24) by (apply Z.div_lt_upper_bound; lia). lia.
  - apply Z.div_pos; [|lia]. apply Z.mod_pos_bound. lia.
  - assert (s mod 3600 / 60 < 60).
    { apply Z.div_lt_upper_bound; [lia|].
      pose proof (Z.mod_pos_bound s 3600). lia. }
    lia.
  - apply Z.mod_pos_bound. lia.
  - pose proof (Z.mod_pos_bound s 60). lia.
  - apply Z.div_pos; [|lia]. apply Z.mod_pos_bound. lia.
  - assert (ns mod 1000000000 / 1000 < 1000000).
    { apply Z.div_lt_upper_bound; [lia|].
      pose proof (Z.mod_pos_bound ns 1000000000). lia. }
    lia.
Qed.

(** X13: the time of day that the curves are drawn and integrated over,
    hour + minute / 60, is for every timestamp a number from 0 up to, and
    not including, 24. *)
Theorem hours_within_day (t : Timestamp) :
  exists q, hours (time_of t) = Fin q /\ (0 <= q)%Q /\ (q < 24)%Q.
Proof.
  destruct (time_of_ranges t) as (Hh & Hm & _).
  unfold hours, of_Z, div, add.
  assert (Qzero (inject_Z 60) = false) as -> by reflexivity.
  eexists. split; [reflexivity|].
  set (h := hour (time_of t)) in *. set (m := minute (time_of t)) in *.
  assert (E : Qred (inject_Z h + Qred (inject_Z m / inject_Z 60))
              == (60 * h + m) # 60).
  { rewrite !Qred_correct. unfold Qeq, Qplus, Qdiv, Qmult, Qinv, inject_Z.
    cbn [Qnum Qden]. lia. }
  rewrite E. unfold Qle, Qlt. cbn [Qnum Qden]. lia.
Qed.

(* ------------------------------------------------------------------ *)
(** ** Integration of a constant curve *)

Lemma div_Fin (a b : Q) : ~ b == 0 -> div (Fin a) (Fin b) = Fin (Qred (a / b)).
Proof. intros H. unfold div. now rewrite (Qzero_false b H). Qed.

Lemma segment_constant (c x0 x1 x2 : Q) :
  (x0 < x1)%Q -> (x1 < x2)%Q ->
  exists v, segment (Fin x0, Fin c) (Fin x1, Fin c) (Fin x2, Fin c) = Fin v /\
            v == c * (x2 - x0).
Proof.
  intros H01 H12. unfold segment, of_Z. cbn [fst snd sub opp add mul].
  set (h0 := Qred (x1 + Qred (- x0))). set (h1 := Qred (x2 + Qred (- x1))).
  assert (E0 : h0 == x1 - x0) by (unfold h0; rewrite !Qred_correct; ring).
  assert (E1 : h1 == x2 - x1) by (unfold h1; rewrite !Qred_correct; ring).
  assert (P0 : (0 < h0)%Q) by (rewrite E0; lra).
  assert (P1 : (0 < h1)%Q) by (rewrite E1; lra).
  rewrite (div_Fin h0 h1) by lra.
  assert (Hq : ~ Qred (h0 / h1) == 0).
  { rewrite Qred_correct. intros E.
    assert (h0 == (h0 / h1) * h1) as E' by (field; lra).
    rewrite E in E'. lra. }
  rewrite (div_Fin (inject_Z 1) _ Hq).
  assert (Hp : ~ Qred (h0 * h1) == 0).
  { rewrite Qred_correct. intros E. apply Qmult_integral in E. lra. }
  rewrite (div_Fin _ _ Hp).
  rewrite (div_Fin _ (inject_Z 6)) by (unfold Qeq; simpl; lia).
  cbn [sub opp add mul].
  eexists. split; [reflexivity|].
  rewrite !Qred_correct.
  assert (h0 + h1 == x2 - x0) as Es by (rewrite E0, E1; ring).
  transitivity (c * (h0 + h1))%Q; [|rewrite Es; reflexivity].
  change (inject_Z 6) with (6 # 1). change (inject_Z 2) with (2 # 1).
  change (inject_Z 1) with (1 # 1).
  field. repeat split; lra.
Qed.

Lemma list_ind2 {A : Type} (P : list A -> Prop) :
  P [] -> (forall a, P [a]) -> (forall a b l, P l -> P (a :: b :: l)) ->
  forall l, P l.
Proof.
  intros H0 H1 H2 l.
  assert (P l /\ forall a, P (a :: l)) as [H _]; [|exact H].
  induction l as [|b l [IH IH']]; split; auto.
Qed.

Lemma segments_constant (c : Q) (rest : list Q) :
  forall x0 a,
    Nat.even (List.length rest) = true ->
    StronglySorted Qlt (x0 :: rest) ->
    exists s, fold_left add (segments (constant_samples c (x0 :: rest))) (Fin a)
              = Fin s /\
              s == a + c * (last (x0 :: rest) 0%Q - x0).
Proof.
  induction rest as [| x1 | x1 x2 l IH] using list_ind2; intros x0 a Hev Hs.
  - exists a. split; [reflexivity|]. simpl. ring.
  - discriminate.
  - inversion Hs as [|? ? Hs1 Hf0]; subst.
    inversion Hs1 as [|? ? Hs2 Hf1]; subst.
    inversion Hf0 as [|? ? H01 Hf0']; subst.
    inversion Hf0' as [|? ? H02 _]; subst.
    inversion Hf1 as [|? ? H12 _]; subst.
    destruct (segment_constant c x0 x1 x2 H01 H12) as (v & Hv & Ev).
    change (segments (constant_samples c (x0 :: x1 :: x2 :: l)))
      with (segment (Fin x0, Fin c) (Fin x1, Fin c) (Fin x2, Fin c)
            :: segments (constant_samples c (x2 :: l))).
    cbn [fold_left]. rewrite Hv. cbn [add].
    destruct (IH x2 (Qred (a + v)) Hev Hs2) as (s & Hfold & Es).
    exists s. split; [exact Hfold|].
    rewrite Es, Qred_correct, Ev.
    change (last (x0 :: x1 :: x2 :: l) 0%Q) with (last (x2 :: l) 0%Q). ring.
Qed.

(** Simpson's rule on an odd number of samples of a constant. *)
Lemma basic_simpson_constant (c x0 : Q) (rest : list Q) :
  Nat.even (List.length rest) = true ->
  StronglySorted Qlt (x0 :: rest) ->
  exists s, basic_simpson (constant_samples c (x0 :: rest)) = Fin s /\
            s == c * (last (x0 :: rest) 0%Q - x0).
Proof.
  intros Hev Hs. unfold basic_simpson, sum.
  destruct (segments_constant c rest x0 0%Q Hev Hs) as (s & Hf & Es).
  exists s. split; [exact Hf|]. rewrite Es. ring.
Qed.

Lemma StronglySorted_app_l {A : Type} (R : A -> A -> Prop) (l l' : list A) :
  StronglySorted R (l ++ l') -> StronglySorted R l.
Proof.
  induction l as [|a l IH]; simpl; intros H; [constructor|].
  inversion H as [|? ? Hs Hf]; subst. constructor; [auto|].
  apply Forall_app in Hf. tauto.
Qed.

Lemma StronglySorted_app_last {A : Type} (R : A -> A -> Prop) (l : list A)
      (z : A) :
  StronglySorted R (l ++ [z]) -> forall y, In y l -> R y z.
Proof.
  induction l as [|a l IH]; simpl; intros H y Hy; [destruct Hy|].
  inversion H as [|? ? Hs Hf]; subst. destruct Hy as [<-|Hy]; [|auto].
  rewrite Forall_forall in Hf. apply Hf. apply in_or_app. right. now left.
Qed.

(** [simps] on the samples of a constant at ascending times: the constant
    times the span of the times. *)
Lemma simps_constant (c : Q) (xs : list Q) :
  xs <> [] -> StronglySorted Qlt xs ->
  exists v, simps (constant_samples c xs) = Return (Fin v) /\
            v == c * (last xs 0%Q - hd 0%Q xs).
Proof.
  intros Hne Hs. destruct xs as [|x0 rest]; [contradiction|]. clear Hne.
  unfold simps. unfold constant_samples at 1. rewrite length_map.
  cbn [List.length hd].
  destruct (Nat.even (S (List.length rest))) eqn:Hev.
  - (* an even number of samples *)
    destruct rest as [|x1 rest']; [discriminate|].
    assert (Hev' : Nat.even (List.length rest') = true) by exact Hev.
    destruct (rev (x0 :: x1 :: rest')) as [|xl [|xp r]] eqn:Hrev.
    { apply (f_equal (@List.length _)) in Hrev. rewrite length_rev in Hrev.
      discriminate. }
    { apply (f_equal (@List.length _)) in Hrev. rewrite length_rev in Hrev.
      discriminate. }
    assert (Hxs : x0 :: x1 :: rest' = (rev r ++ [xp]) ++ [xl]).
    { rewrite <- (rev_involutive (x0 :: x1 :: rest')), Hrev. reflexivity. }
    assert (Hlast : last (x0 :: x1 :: rest') 0%Q = xl)
      by (rewrite Hxs; apply last_last).
    assert (Hrl : removelast (x0 :: x1 :: rest') = rev r ++ [xp])
      by (rewrite Hxs; apply removelast_last).
    assert (Hrl' : removelast (x0 :: x1 :: rest') = x0 :: removelast (x1 :: rest'))
      by reflexivity.
    assert (Hpl : (xp < xl)%Q).
    { rewrite Hxs in Hs. apply (StronglySorted_app_last _ _ _ Hs).
      apply in_or_app. right. now left. }
    assert (H01 : (x0 < x1)%Q).
    { inversion Hs as [|? ? _ Hf]; subst. now inversion Hf. }
    assert (Hs1 : StronglySorted Qlt (x1 :: rest')) by now inversion Hs.
    assert (Hsf : StronglySorted Qlt (x0 :: removelast (x1 :: rest'))).
    { rewrite <- Hrl', Hrl. rewrite Hxs in Hs.
      exact (StronglySorted_app_l _ _ _ Hs). }
    assert (Hlf : Nat.even (List.length (removelast (x1 :: rest'))) = true).
    { assert (List.length (x0 :: removelast (x1 :: rest'))
              = S (List.length rest')) as E.
      { rewrite <- Hrl', Hrl.
        apply (f_equal (@List.length _)) in Hxs.
        rewrite !length_app in *. simpl in *. lia. }
      cbn [List.length] in E. apply Nat.succ_inj in E. now rewrite E. }
    destruct (basic_simpson_constant c x0 _ Hlf Hsf) as (s1 & Hs1' & Es1).
    destruct (basic_simpson_constant c x1 _ Hev' Hs1) as (s2 & Hs2' & Es2).
    assert (Hxp : last (x0 :: removelast (x1 :: rest')) 0%Q = xp)
      by (rewrite <- Hrl', Hrl; apply last_last).
    assert (Hxl : last (x1 :: rest') 0%Q = xl) by exact Hlast.
    unfold constant_samples. cbn [map].
    change ((Fin x0, Fin c) :: (Fin x1, Fin c)
            :: map (fun x => (Fin x, Fin c)) rest')
      with (map (fun x => (Fin x, Fin c)) (x0 :: x1 :: rest')).
    rewrite <- map_rev, Hrev. cbn [map].
    change ((Fin x0, Fin c) :: (Fin x1, Fin c)
            :: map (fun x => (Fin x, Fin c)) rest')
      with (constant_samples c (x0 :: x1 :: rest')).
    replace (removelast (constant_samples c (x0 :: x1 :: rest')))
      with (constant_samples c (x0 :: removelast (x1 :: rest'))).
    2:{ rewrite <- Hrl'. rewrite Hxs at 2. unfold constant_samples.
        rewrite Hrl, !map_app. symmetry. apply removelast_last. }
    change (tl (constant_samples c (x0 :: x1 :: rest')))
      with (constant_samples c (x1 :: rest')).
    rewrite Hs1', Hs2'.
    unfold trapezoid, of_Z. cbn [fst snd sub opp add mul].
    rewrite !div_Fin by (unfold Qeq; simpl; lia).
    cbn [add]. eexists. split; [reflexivity|].
    rewrite !Qred_correct, Es1, Es2, Hxp, Hxl, Hlast.
    change (inject_Z 2) with (2 # 1). field.
  - (* an odd number of samples *)
    assert (Hev' : Nat.even (List.length rest) = true).
    { rewrite Nat.even_succ in Hev. rewrite <- Nat.negb_odd, Hev. reflexivity. }
    destruct (basic_simpson_constant c x0 rest Hev' Hs) as (s & Hb & Es).
    exists s. split; [now rewrite Hb|exact Es].
Qed.

Lemma constant_group_samples (group : list Curve) (c : Q) :
  forall xs,
    map c_time group = map Fin xs ->
    (forall r, In r group -> c_occupancy r = Fin c) ->
    map (fun r => (c_time r, c_occupancy r)) group = constant_samples c xs.
Proof.
  induction group as [|r group IH]; intros [|x xs]; simpl; try discriminate.
  - reflexivity.
  - intros [= Hx Hxs] Hc. rewrite Hx, (Hc r (or_introl eq_refl)).
    unfold constant_samples in *. simpl. f_equal. apply IH; auto.
Qed.

(** X14: the area under a curve of constant occupancy [c], sampled at
    ascending times of day, is [c] times the span from the first to the
    last sample time, for any number of samples. *)
Theorem auc_constant_curve (group : list Curve) (c : Q) (xs : list Q) :
  xs <> [] ->
  StronglySorted Qlt xs ->
  map c_time group = map Fin xs ->
  (forall r, In r group -> c_occupancy r = Fin c) ->
  exists v, auc group = Return (Fin v) /\ v == c * (last xs 0%Q - hd 0%Q xs).
Proof.
  intros Hne Hs Hx Hc. unfold auc.
  rewrite (constant_group_samples group c xs Hx Hc).
  now apply simps_constant.
Qed.

Lemma auc_constant_curve_witness :
  exists v,
    auc [mkCurve "England" "gymA" (Fin 18) "w7" (Fin 50);
         mkCurve "England" "gymA" (Fin 19) "w7" (Fin 50);
         mkCurve "England" "gymA" (Fin (39 # 2)) "w7" (Fin 50);
         mkCurve "England" "gymA" (Fin 21) "w7" (Fin 50)]
    = Return (Fin v) /\
    v == 50 * (last [18; 19; 39 # 2; 21]%Q 0%Q - hd 0%Q [18; 19; 39 # 2; 21]%Q).
Proof.
  apply auc_constant_curve.
  - discriminate.
  - repeat constructor.
  - reflexivity.
  - intros r Hr. simpl in Hr.
    repeat (destruct Hr as [<-|Hr]; [reflexivity|]). destruct Hr.
Defined.

(** X15: a group of two samples is integrated by the trapezoid rule: half
    the sum of the two occupancies times the difference of the two times
    of day. *)
Theorem auc_two_samples (r0 r1 : Curve) (x0 x1 y0 y1 : Q) :
  c_time r0 = Fin x0 -> c_time r1 = Fin x1 ->
  c_occupancy r0 = Fin y0 -> c_occupancy r1 = Fin y1 ->
  exists v, auc [r0; r1] = Return (Fin v) /\
            v == (x1 - x0) * (y0 + y1) / 2.
Proof.
  intros Hx0 Hx1 Hy0 Hy1. unfold auc, simps. cbn [map List.length Nat.even rev app].
  rewrite Hx0, Hx1, Hy0, Hy1.
  unfold basic_simpson, sum, trapezoid, of_Z.
  cbn [removelast tl segments fold_left fst snd sub opp add mul].
  rewrite !div_Fin by (unfold Qeq; simpl; lia).
  cbn [add]. eexists. split; [reflexivity|].
  rewrite !Qred_correct. change (inject_Z 2) with (2 # 1). field.
Qed.

Lemma auc_two_samples_witness :
  exists v,
    auc [mkCurve "England" "gymA" (Fin 20) "w7" (Fin 40);
         mkCurve "England" "gymA" (Fin (41 # 2)) "w7" (Fin 60)]
    = Return (Fin v) /\
    v == ((41 # 2) - 20) * (40 + 60) / 2.
Proof.
  apply auc_two_samples; reflexivity.
Defined.

(** *** Missing values under the integral *)

Lemma add_NaN_r (x : number) : add x NaN = NaN.
Proof. destruct x; reflexivity. Qed.

Lemma mul_NaN_r (x : number) : mul x NaN = NaN.
Proof. destruct x; reflexivity. Qed.

Lemma fold_add_NaN (l : list number) : fold_left add l NaN = NaN.
Proof. induction l as [|x l IH]; simpl; auto. Qed.

Lemma sum_NaN (l : list number) :
  forall acc, In NaN l -> fold_left add l acc = NaN.
Proof.
  induction l as [|x l IH]; intros acc; simpl; [tauto|].
  intros [->|H]; [|now apply IH].
  rewrite add_NaN_r. apply fold_add_NaN.
Qed.

Lemma segment_NaN (p0 p1 p2 : number * number) :
  snd p0 = NaN \/ snd p1 = NaN \/ snd p2 = NaN -> segment p0 p1 p2 = NaN.
Proof.
  unfold segment. intros [H|[H|H]]; rewrite H.
  - cbn [mul add]. apply mul_NaN_r.
  - cbn [mul]. rewrite add_NaN_r. cbn [add]. apply mul_NaN_r.
  - cbn [mul]. rewrite add_NaN_r. apply mul_NaN_r.
Qed.

Lemma trapezoid_NaN (p q : number * number) :
  snd p = NaN \/ snd q = NaN -> trapezoid p q = NaN.
Proof.
  unfold trapezoid. intros [H|H]; rewrite H.
  - rewrite add_NaN_r. apply mul_NaN_r.
  - cbn [add]. apply mul_NaN_r.
Qed.

Lemma segments_NaN (pts : list (number * number)) :
  forall p0 p,
    Nat.even (List.length pts) = true -> pts <> [] ->
    In p (p0 :: pts) -> snd p = NaN -> In NaN (segments (p0 :: pts)).
Proof.
  induction pts as [| a | a b l IH] using list_ind2; intros p0 p Hev Hne Hin Hp.
  - contradiction.
  - discriminate.
  - change (segments (p0 :: a :: b :: l))
      with (segment p0 a b :: segments (b :: l)).
    destruct Hin as [<-|[<-|[<-|Hin]]].
    + left. apply segment_NaN. auto.
    + left. apply segment_NaN. auto.
    + left. apply segment_NaN. auto.
    + right. apply (IH b p); [exact Hev| |now right|exact Hp].
      intros ->. destruct Hin.
Qed.

Lemma basic_simpson_NaN (p0 : number * number) (pts : list (number * number))
      (p : number * number) :
  Nat.even (List.length pts) = true -> pts <> [] ->
  In p (p0 :: pts) -> snd p = NaN -> basic_simpson (p0 :: pts) = NaN.
Proof.
  intros Hev Hne Hin Hp. unfold basic_simpson, sum.
  apply sum_NaN. now apply (segments_NaN pts p0 p).
Qed.

Lemma simps_NaN (pts : list (number * number)) (p : number * number) :
  (2 <= List.length pts)%nat -> In p pts -> snd p = NaN ->
  simps pts = Return NaN.
Proof.
  intros Hlen Hin Hp. unfold simps.
  destruct (Nat.even (List.length pts)) eqn:Hev.
  - destruct pts as [|p0 [|p1 rest]]; [simpl in Hlen; lia|simpl in Hlen; lia|].
    destruct (rev (p0 :: p1 :: rest)) as [|q1 [|q2 r]] eqn:Hrev.
    { apply (f_equal (@List.length _)) in Hrev. rewrite length_rev in Hrev.
      discriminate. }
    { apply (f_equal (@List.length _)) in Hrev. rewrite length_rev in Hrev.
      discriminate. }
    cbv zeta. f_equal.
    assert (Hcase : (snd p0 = NaN \/ snd p1 = NaN)
                    \/ (rest <> [] /\ In p (p1 :: rest))).
    { destruct Hin as [<-|[<-|Hin]]; [left; auto|left; auto|].
      right. split; [intros ->; destruct Hin|now right]. }
    destruct Hcase as [H01|[Hne Hin']].
    + rewrite (trapezoid_NaN p0 p1 H01), add_NaN_r. cbn [div].
      apply add_NaN_r.
    + change (tl (p0 :: p1 :: rest)) with (p1 :: rest).
      rewrite (basic_simpson_NaN p1 rest p Hev Hne Hin' Hp), add_NaN_r.
      reflexivity.
  - f_equal. destruct pts as [|p0 rest]; [discriminate|].
    assert (Hev' : Nat.even (List.length rest) = true).
    { cbn [List.length] in Hev. rewrite Nat.even_succ in Hev.
      rewrite <- Nat.negb_odd, Hev. reflexivity. }
    apply (basic_simpson_NaN p0 rest p Hev'); auto.
    intros ->. simpl in Hlen. lia.
Qed.

(** X16: a missing occupancy is not skipped by the integration: a group of
    two or more samples, one of which has no occupancy, has a missing
    area. *)
Theorem auc_missing_sample (group : list Curve) (r : Curve) :
  (2 <= List.length group)%nat ->
  In r group ->
  c_occupancy r = NaN ->
  auc group = Return NaN.
Proof.
  intros Hlen Hin Hr. unfold auc.
  apply (simps_NaN _ (c_time r, c_occupancy r)).
  - now rewrite length_map.
  - apply (in_map (fun r => (c_time r, c_occupancy r))). exact Hin.
  - exact Hr.
Qed.

Lemma auc_missing_sample_witness :
  auc [mkCurve "England" "gymA" (Fin 18) "w7" (Fin 50);
       mkCurve "England" "gymA" (Fin 19) "w7" NaN;
       mkCurve "England" "gymA" (Fin 20) "w7" (Fin 40);
       mkCurve "England" "gymA" (Fin 21) "w7" (Fin 30)]
  = Return NaN.
Proof.
  apply (auc_missing_sample _ (mkCurve "England" "gymA" (Fin 19) "w7" NaN)).
  - simpl. lia.
  - right. left. reflexivity.
  - reflexivity.
Defined.

(* ------------------------------------------------------------------ *)
(** ** The days of the rows [prep_data] returns *)

(** X17: every row [prep_data] returns is stamped on the match day or a
    whole number of weeks before it; the row of the midnight that follows
    the match day, which the first filter lets through, is not returned. *)
Theorem prep_data_rows_dates (df_raw : list Occupancy) (match_date : date)
        (out : list Windowed) :
  prep_data df_raw match_date = Return out ->
  forall r : Windowed, In r out ->
    exists k, 0 <= k /\
              ordinal_of (datetime r) = toordinal match_date - 7 * k.
Proof.
  unfold prep_data. intros Hout r Hr.
  apply (number_weeks_rows _ _ Hout) in Hr.
  unfold same_weekday in Hr. apply filter_In in Hr as [Hr Hw].
  apply Z.eqb_eq in Hw.
  unfold until_match_day in Hr. apply filter_In in Hr as [_ Hle].
  apply Z.leb_le in Hle.
  unfold dayofweek, weekday, weekday_of_ord in Hw.
  unfold to_timedelta_days, Timestamp_of_date in Hle.
  unfold ordinal_of in *.
  set (m := toordinal match_date) in *.
  set (t := datetime r) in *.
  unfold ns_per_day, ns_per_second, epoch_ordinal in *.
  exists ((m - (t / (86400 * 1000000000) + 719163)) / 7).
  Z.div_mod_to_equations. lia.
Qed.

Lemma prep_data_rows_dates_witness :
  let r0 := mkOccupancy (at_time (mkDate 2021 6 4) 20 0) "England" "gymA" 40 in
  let r1 := mkOccupancy (at_time Samples.match_day 20 0) "England" "gymA" 50 in
  prep_data [r0; r1] Samples.match_day = Return [mkWindowed r0 1; mkWindowed r1 3] /\
  exists k, 0 <= k /\
            ordinal_of (datetime r0) = toordinal Samples.match_day - 7 * k.
Proof.
  cbv zeta. split; [vm_compute; reflexivity|].
  apply (prep_data_rows_dates
           [mkOccupancy (at_time (mkDate 2021 6 4) 20 0) "England" "gymA" 40;
            mkOccupancy (at_time Samples.match_day 20 0) "England" "gymA" 50]
           Samples.match_day
           [mkWindowed (mkOccupancy (at_time (mkDate 2021 6 4) 20 0)
                                    "England" "gymA" 40) 1;
            mkWindowed (mkOccupancy (at_time Samples.match_day 20 0)
                                    "England" "gymA" 50) 3])
    with (r := mkWindowed (mkOccupancy (at_time (mkDate 2021 6 4) 20 0)
                                       "England" "gymA" 40) 1).
  - vm_compute. reflexivity.
  - left. reflexivity.
Defined.

(* ------------------------------------------------------------------ *)
(** ** The baseline of the kick-off result *)

Lemma Qsum_perm (qs qs' : list Q) :
  Permutation qs qs' -> Qsum qs == Qsum qs'.
Proof.
  induction 1 as [|x l l' _ IH|x y l|l l' l'' _ IH1 _ IH2].
  - reflexivity.
  - change (x + Qsum l == x + Qsum l'). now rewrite IH.
  - change (y + (x + Qsum l) == x + (y + Qsum l)). ring.
  - now rewrite IH1.
Qed.

(** The mean of numbers, in lowest terms. *)
Lemma mean_Fin_red (qs : list Q) :
  qs <> [] ->
  mean (map Fin qs)
  = Fin (Qred (Qsum qs / inject_Z (Z.of_nat (List.length qs)))).
Proof.
  intros Hne. unfold mean. rewrite filter_notnan_Fin.
  destruct (map Fin qs) as [|x xs] eqn:E;
    [destruct qs; [contradiction|discriminate]|].
  rewrite <- E. unfold sum.
  destruct (fold_add_Fin qs 0) as (s & Hs & Es).
  rewrite Hs, length_map. unfold of_Z, div.
  rewrite (Qzero_false (inject_Z _)).
  - f_equal. apply Qred_complete. rewrite Es. now rewrite Qplus_0_l.
  - destruct qs; [contradiction|]. unfold Qeq. simpl. lia.
Qed.

(** The mean does not depend on the order of the values. *)
Lemma mean_perm (qs qs' : list Q) :
  Permutation qs qs' -> mean (map Fin qs) = mean (map Fin qs').
Proof.
  intros HP. destruct qs as [|q qs].
  - apply Permutation_nil in HP. now subst.
  - assert (Hne' : qs' <> []).
    { intros ->. apply Permutation_sym, Permutation_nil in HP. discriminate. }
    rewrite !mean_Fin_red by (auto; discriminate).
    f_equal. apply Qred_complete.
    now rewrite (Qsum_perm _ _ HP), (Permutation_length HP).
Qed.

Lemma filter_or_perm {A : Type} (a b : A -> bool) (l : list A) :
  (forall x, In x l -> a x && b x = false) ->
  Permutation (filter (fun x => a x || b x) l) (filter a l ++ filter b l).
Proof.
  induction l as [|x l IH]; intros H; simpl; [constructor|].
  assert (IH' := IH (fun y Hy => H y (or_intror Hy))).
  pose proof (H x (or_introl eq_refl)) as Hx.
  destruct (a x), (b x); simpl in *; try discriminate.
  - now constructor.
  - now apply Permutation_cons_app.
  - exact IH'.
Qed.

Lemma map_removelast {A B : Type} (f : A -> B) (l : list A) :
  removelast (map f l) = map f (removelast l).
Proof.
  induction l as [|a [|b l] IH]; [reflexivity|reflexivity|].
  change (f a :: removelast (map f (b :: l)) = f a :: map f (removelast (b :: l))).
  now rewrite IH.
Qed.

Section CellMeans.
Context {K : Type} (cmp : K -> K -> comparison) `{!Order cmp}.

(** The rows of a pivoted table behind the cell of an index key and a
    week, and behind the cells of some weeks. *)
Lemma cell_rows (rows : list (K * Z * Q)) (k : K) (w : Z) :
  NoDup (map fst rows) ->
  filter (fun x => negb (isnan x)) [cell cmp rows k w]
  = map (fun e => Fin (snd e))
        (filter (fun e => eqk cmp k (fst (fst e)) && (w =? snd (fst e))) rows).
Proof.
  intros Hnd.
  destruct (filter _ rows) as [|e [|e' t]] eqn:Ef.
  - rewrite cell_missing; [reflexivity|assumption|].
    intros e He Hk Hw.
    assert (In e (filter (fun e => eqk cmp k (fst (fst e)) && (w =? snd (fst e)))
                         rows)) as Hin.
    { apply filter_In. split; [exact He|].
      rewrite <- Hk, Hw, Z.eqb_refl, andb_true_r. now apply eqk_true. }
    rewrite Ef in Hin. destruct Hin.
  - assert (In e (filter (fun e => eqk cmp k (fst (fst e)) && (w =? snd (fst e)))
                         rows)) as Hin by (rewrite Ef; now left).
    apply filter_In in Hin as [He Hp].
    apply andb_true_iff in Hp as [Hk Hw].
    apply (eqk_true cmp) in Hk. apply Z.eqb_eq in Hw. subst k w.
    rewrite (cell_unique cmp rows e Hnd He). reflexivity.
  - exfalso.
    pose proof (filter_at_most_one fst
                  (fun e => eqk cmp k (fst (fst e)) && (w =? snd (fst e)))
                  rows Hnd) as Hle.
    rewrite Ef in Hle. simpl in Hle.
    assert (S (S (List.length t)) <= 1)%nat; [|lia]. apply Hle.
    intros x y _ _ Hx Hy.
    apply andb_true_iff in Hx as [Hkx Hwx], Hy as [Hky Hwy].
    apply (eqk_true cmp) in Hkx, Hky. apply Z.eqb_eq in Hwx, Hwy.
    destruct x as [[kx wx] vx], y as [[ky wy] vy]. simpl in *. congruence.
Qed.

Lemma cells_rows (rows : list (K * Z * Q)) (k : K) (ws : list Z) :
  NoDup (map fst rows) ->
  filter (fun x => negb (isnan x)) (map (cell cmp rows k) ws)
  = map (fun e => Fin (snd e))
        (flat_map (fun w => filter (fun e => eqk cmp k (fst (fst e))
                                             && (w =? snd (fst e))) rows) ws).
Proof.
  intros Hnd. induction ws as [|w ws IH]; [reflexivity|].
  change (map (cell cmp rows k) (w :: ws))
    with ([cell cmp rows k w] ++ map (cell cmp rows k) ws).
  rewrite filter_app, IH, (cell_rows rows k w Hnd).
  cbn [flat_map]. now rewrite map_app.
Qed.

Lemma cells_perm (rows : list (K * Z * Q)) (k : K) (ws : list Z) :
  NoDup ws ->
  Permutation
    (flat_map (fun w => filter (fun e => eqk cmp k (fst (fst e))
                                         && (w =? snd (fst e))) rows) ws)
    (filter (fun e => eqk cmp k (fst (fst e))
                      && existsb (Z.eqb (snd (fst e))) ws) rows).
Proof.
  induction 1 as [|w ws Hnotin Hnd IH].
  - simpl. rewrite filter_none; [constructor|].
    intros e _. apply andb_false_r.
  - cbn [flat_map].
    rewrite (filter_ext
               (fun e => eqk cmp k (fst (fst e))
                         && existsb (Z.eqb (snd (fst e))) (w :: ws))
               (fun e => (eqk cmp k (fst (fst e)) && (w =? snd (fst e)))
                         || (eqk cmp k (fst (fst e))
                             && existsb (Z.eqb (snd (fst e))) ws))).
    2:{ intros e. cbn [existsb]. rewrite (Z.eqb_sym (snd (fst e)) w).
        now rewrite andb_orb_distrib_r. }
    etransitivity; [|symmetry; apply filter_or_perm].
    + now apply Permutation_app_head.
    + intros e _.
      destruct (w =? snd (fst e)) eqn:Ew; [|now rewrite andb_false_r].
      apply Z.eqb_eq in Ew.
      destruct (existsb (Z.eqb (snd (fst e))) ws) eqn:Ex;
        [|now rewrite !andb_false_r].
      apply existsb_exists in Ex as (w' & Hw' & Ew').
      apply Z.eqb_eq in Ew'. destruct Hnotin. congruence.
Qed.

(** The mean of the cells of an index key over distinct weeks is the mean
    of the occupancies of its rows in those weeks. *)
Lemma cells_mean (rows : list (K * Z * Q)) (k : K) (ws : list Z) :
  NoDup (map fst rows) -> NoDup ws ->
  mean (map (cell cmp rows k) ws)
  = mean (map (fun e => Fin (snd e))
              (filter (fun e => eqk cmp k (fst (fst e))
                                && existsb (Z.eqb (snd (fst e))) ws) rows)).
Proof.
  intros Hnd Hws.
  rewrite <- mean_filter, (cells_rows rows k ws Hnd).
  rewrite <- !(map_map snd Fin).
  apply mean_perm, Permutation_map, cells_perm. exact Hws.
Qed.

End CellMeans.

Lemma eqk_cmp2 (c g c' g' : string) :
  eqk cmp2 (c, g) (c', g') = String.eqb c' c && String.eqb g' g.
Proof.
  destruct (eqk cmp2 (c, g) (c', g')) eqn:E.
  - apply (eqk_true cmp2) in E. injection E as <- <-.
    now rewrite !String.eqb_refl.
  - destruct (String.eqb c' c) eqn:Ec; [|reflexivity].
    destruct (String.eqb g' g) eqn:Eg; [|reflexivity].
    apply String.eqb_eq in Ec, Eg. subst.
    assert (eqk cmp2 (c, g) (c, g) = true) by now apply (eqk_true cmp2).
    congruence.
Qed.

(** The week labels but the last one: distinct, and those other than the
    greatest. *)
Lemma removelast_weeks (cols : list Z) (wlast : Z) :
  StronglySorted (strictly_below Z.compare) cols ->
  In wlast cols -> (forall y, In y cols -> y <= wlast) ->
  NoDup (removelast cols) /\
  forall w, In w cols ->
            existsb (Z.eqb w) (removelast cols) = negb (w =? wlast).
Proof.
  intros Hs Hin Hmax.
  pose proof (sorted_last cols wlast 0 Hs Hin Hmax) as Hlast.
  assert (Hne : cols <> []) by (intros ->; destruct Hin).
  pose proof (app_removelast_last 0 Hne) as Hcols. rewrite Hlast in Hcols.
  pose proof (sorted_NoDup Z.compare cols Hs) as Hnd.
  rewrite Hcols in Hnd. apply NoDup_remove in Hnd as [Hnd Hnotin].
  rewrite app_nil_r in Hnd, Hnotin.
  split; [exact Hnd|].
  intros w Hw. rewrite Hcols in Hw. apply in_app_or in Hw as [Hw|[<-|[]]].
  - assert (w <> wlast) as Hneq by congruence.
    apply Z.eqb_neq in Hneq. rewrite Hneq. simpl.
    apply existsb_exists. exists w. split; [exact Hw|apply Z.eqb_refl].
  - rewrite Z.eqb_refl. simpl.
    destruct (existsb _ _) eqn:Ex; [|reflexivity].
    apply existsb_exists in Ex as (w' & Hw' & Ew').
    apply Z.eqb_eq in Ew'. subst. contradiction.
Qed.

(** X18: with [norm] unset, the "w1-6" row of a gym carries the mean of
    the occupancies of its samples stamped at the kick-off hour in the
    weeks other than the latest, whatever their number; it is missing when
    the gym has no such sample. *)
Theorem kickoff_w1_6_value (df : list Windowed) (kickoff : Z) (rows : list Long)
        (wlast : Z) (c g : string) :
  snd (prep_data_stats df kickoff false "kick-off") = Return (Some rows) ->
  latest_week df kickoff wlast ->
  gym_in (at_kickoff kickoff df) c g ->
  In (mkLong c g "w1-6"
             (mean (map (fun r : Windowed => Fin (occupancy r))
                        (baseline_samples df kickoff c g wlast))))
     rows.
Proof.
  intros H [(rl & Hrl & Hwl) Hmax] (r0 & Hr0 & Hc0 & Hg0).
  pose proof (kickoff_returns_nodup _ _ _ _ H) as Hnd.
  apply kickoff_returns in H as [Hn ->].
  set (entries := kickoff_entries (at_kickoff kickoff df)) in *.
  set (cols := unique_sorted Z.compare (map (fun e => snd (fst e)) entries)).
  assert (Hcols : forall r : Windowed, In r (at_kickoff kickoff df) ->
                                       In (week r) cols).
  { intros r Hr. apply unique_sorted_In; [exact Order_Z|].
    unfold entries. rewrite kickoff_entries_weeks. now apply in_map. }
  destruct (removelast_weeks cols wlast) as [Hnd' Hex].
  { apply unique_sorted_sorted. exact Order_Z. }
  { rewrite <- Hwl. now apply Hcols. }
  { intros y Hy. apply (proj1 (unique_sorted_In Z.compare _ _)) in Hy.
    unfold entries in Hy. rewrite kickoff_entries_weeks in Hy.
    apply in_map_iff in Hy as (r & <- & Hr). now apply Hmax. }
  apply kickoff_long_In.
  exists (with_w1_6 ((c, g), map (cell cmp2 entries (c, g)) cols)).
  split.
  - unfold wide_table. fold cols.
    apply (in_map (fun k => with_w1_6 (k, map (cell cmp2 entries k) cols))).
    apply unique_sorted_In; [exact Order_cmp2|].
    apply in_map_iff. exists ((country r0, gym r0), week r0, occupancy r0).
    split; [simpl; congruence|].
    unfold entries, kickoff_entries.
    apply (in_map (fun r : Windowed => ((country r, gym r), week r, occupancy r))).
    exact Hr0.
  - left. cbn [with_w1_6 index w1_6 fst snd]. f_equal.
    rewrite map_removelast, (cells_mean cmp2 entries (c, g) _ Hnd Hnd').
    unfold entries, kickoff_entries. rewrite filter_map_comm, map_map.
    cbn [fst snd]. unfold baseline_samples. do 2 f_equal.
    apply filter_ext_in. intros r Hr.
    now rewrite eqk_cmp2, (Hex (week r) (Hcols r Hr)).
Qed.

Lemma kickoff_w1_6_value_witness :
  mean (map (fun r : Windowed => Fin (occupancy r))
            (baseline_samples Samples.two_baseline_weeks 20 "England" "gymB" 7))
  = Fin 45 /\
  In (mkLong "England" "gymB" "w1-6"
             (mean (map (fun r : Windowed => Fin (occupancy r))
                        (baseline_samples Samples.two_baseline_weeks 20
                                          "England" "gymB" 7))))
     [mkLong "England" "gymA" "w1-6" (Fin 50);
      mkLong "England" "gymB" "w1-6" (Fin 45);
      mkLong "England" "gymA" "w7" (Fin 50);
      mkLong "England" "gymB" "w7" NaN].
Proof.
  split; [vm_compute; reflexivity|].
  apply (kickoff_w1_6_value Samples.two_baseline_weeks 20).
  - vm_compute. reflexivity.
  - split.
    + eexists. split; [vm_compute; right; right; right; right; right; right;
                       left; reflexivity|reflexivity].
    + intros r Hr. vm_compute in Hr.
      repeat (destruct Hr as [<-|Hr]; [vm_compute; discriminate|]).
      destruct Hr.
  - eexists. split; [vm_compute; right; right; right; right; right; right;
                     right; left; reflexivity|split; reflexivity].
Defined.

(* ------------------------------------------------------------------ *)
(** ** The values of the AUC result *)

Lemma time_eqb_eq (a b : time) : time_eqb a b = true <-> a = b.
Proof.
  unfold time_eqb. rewrite !andb_true_iff, !Z.eqb_eq.
  destruct a, b; simpl. split.
  - intros [[[-> ->] ->] ->]. reflexivity.
  - intros [= -> -> -> ->]. auto.
Qed.

Lemma eqk_cmp_index3 (c g c' g' : string) (t t' : time) :
  eqk cmp_index3 (c, g, t) (c', g', t')
  = String.eqb c' c && String.eqb g' g && time_eqb t' t.
Proof.
  apply Bool.eq_iff_eq_true.
  rewrite (eqk_true cmp_index3), !andb_true_iff, !String.eqb_eq, time_eqb_eq.
  split.
  - intros [= -> -> ->]. auto.
  - intros [[-> ->] ->]. reflexivity.
Qed.

Lemma eqk_cmp3 (c g l c' g' l' : string) :
  eqk cmp3 (c, g, l) (c', g', l')
  = eqk cmp2 (c, g) (c', g') && String.eqb l' l.
Proof.
  apply Bool.eq_iff_eq_true.
  rewrite (eqk_true cmp3), andb_true_iff, (eqk_true cmp2), String.eqb_eq.
  split.
  - intros [= -> -> ->]. auto.
  - intros [[= -> ->] ->]. reflexivity.
Qed.

Lemma find_map {A B : Type} (f : A -> B) (p : B -> bool) (l : list A) :
  find p (map f l) = option_map f (find (fun a => p (f a)) l).
Proof.
  induction l as [|a l IH]; simpl; [reflexivity|].
  destruct (p (f a)); [reflexivity|exact IH].
Qed.

Lemma find_filter {A : Type} (p q : A -> bool) (l : list A) :
  find p (filter q l) = find (fun a => q a && p a) l.
Proof.
  induction l as [|a l IH]; simpl; [reflexivity|].
  destruct (q a); simpl; [destruct (p a); [reflexivity|exact IH]|exact IH].
Qed.

Lemma find_pointwise {A : Type} (p q : A -> bool) (l : list A) :
  (forall a, p a = q a) -> find p l = find q l.
Proof.
  intros H. induction l as [|a l IH]; simpl; [reflexivity|].
  rewrite H. destruct (q a); [reflexivity|exact IH].
Qed.

Lemma filter_filter_and {A : Type} (p q : A -> bool) (l : list A) :
  filter p (filter q l) = filter (fun a => q a && p a) l.
Proof.
  induction l as [|a l IH]; simpl; [reflexivity|].
  destruct (q a); simpl; [destruct (p a); now rewrite IH|exact IH].
Qed.

Lemma sorted_filter {A : Type} (R : A -> A -> Prop) (p : A -> bool)
      (l : list A) :
  StronglySorted R l -> StronglySorted R (filter p l).
Proof.
  induction 1 as [|a l Hs IH Hf]; simpl; [constructor|].
  destruct (p a); [|exact IH]. constructor; [exact IH|].
  rewrite Forall_forall in *. intros x Hx. apply filter_In in Hx as [Hx _]. auto.
Qed.

Lemma sorted_map {A B : Type} (R : A -> A -> Prop) (R' : B -> B -> Prop)
      (f : A -> B) (l : list A) :
  (forall a b, R a b -> R' (f a) (f b)) ->
  StronglySorted R l -> StronglySorted R' (map f l).
Proof.
  intros Hf. induction 1 as [|a l Hs IH Ha]; simpl; constructor; [exact IH|].
  rewrite Forall_forall in *. intros y Hy.
  apply in_map_iff in Hy as (x & <- & Hx). auto.
Qed.

(** The index keys of a gym in the pivoted AUC table: its times of day. *)
Lemma gym_index_keys (df : list Windowed) (c g : string) :
  filter (fun k : string * string * time => eqk cmp2 (c, g) (fst k))
         (unique_sorted cmp_index3
            (map (fun e => fst (fst e)) (auc_entries df)))
  = map (fun t => (c, g, t)) (gym_times df c g).
Proof.
  apply (sorted_unique cmp_index3).
  - apply sorted_filter, unique_sorted_sorted. exact Order_cmp_index3.
  - apply (sorted_map (strictly_below cmp_time)).
    + intros a b Hab. unfold strictly_below, cmp_index3, cmp2 in *. simpl.
      now rewrite !(cmp_refl (cmp:=String.compare)).
    + apply unique_sorted_sorted. exact Order_cmp_time.
  - intros [[c' g'] t]. rewrite filter_In, in_map_iff.
    rewrite unique_sorted_In by exact Order_cmp_index3.
    unfold auc_entries, gym_times. rewrite map_map, in_map_iff. simpl.
    rewrite (eqk_true cmp2). split.
    + intros [(r & [= <- <- <-] & Hr) [= -> ->]].
      exists (time_of (datetime r)). split; [reflexivity|].
      apply unique_sorted_In; [exact Order_cmp_time|].
      apply (in_map (fun r : Windowed => time_of (datetime r))).
      apply filter_In. split; [exact Hr|]. now rewrite !String.eqb_refl.
    + intros (t' & [= <- <- <-] & Ht).
      apply (proj1 (unique_sorted_In cmp_time _ _)) in Ht.
      apply in_map_iff in Ht as (r & <- & Hr).
      apply filter_In in Hr as [Hr Hcg].
      apply andb_true_iff in Hcg as [Hc Hg].
      apply String.eqb_eq in Hc, Hg. subst.
      split; [exists r; auto|reflexivity].
Qed.

(** The cell of a gym, a time of day and a week in the pivoted table. *)
Lemma auc_cell_value (df : list Windowed) (c g : string) (t : time) (w : Z) :
  cell cmp_index3 (auc_entries df) (c, g, t) w = latest_value df c g w t.
Proof.
  unfold cell, latest_value, samples_at, auc_entries.
  rewrite find_map, find_filter. cbn [fst snd].
  rewrite (find_pointwise _
             (fun a : Windowed =>
                String.eqb (country a) c && String.eqb (gym a) g
                && time_eqb (time_of (datetime a)) t && (week a =? w))).
  - destruct (find _ df); reflexivity.
  - intros a. now rewrite eqk_cmp_index3, (Z.eqb_sym w).
Qed.

(** The mean of the cells of a gym and a time of day over the weeks other
    than the greatest. *)
Lemma auc_cells_mean (df : list Windowed) (c g : string) (t : time)
      (wlast : Z) :
  NoDup (map fst (auc_entries df)) ->
  greatest_week df wlast ->
  mean (removelast
          (map (cell cmp_index3 (auc_entries df) (c, g, t))
               (unique_sorted Z.compare
                  (map (fun e => snd (fst e)) (auc_entries df)))))
  = baseline_value df c g wlast t.
Proof.
  intros Hnd [(rl & Hrl & Hwl) Hmax].
  set (cols := unique_sorted Z.compare
                 (map (fun e => snd (fst e)) (auc_entries df))).
  assert (Hcols : forall r : Windowed, In r df -> In (week r) cols).
  { intros r Hr. apply unique_sorted_In; [exact Order_Z|].
    rewrite auc_entries_weeks. now apply in_map. }
  destruct (removelast_weeks cols wlast) as [Hnd' Hex].
  { apply unique_sorted_sorted. exact Order_Z. }
  { rewrite <- Hwl. now apply Hcols. }
  { intros y Hy. apply (proj1 (unique_sorted_In Z.compare _ _)) in Hy.
    rewrite auc_entries_weeks in Hy.
    apply in_map_iff in Hy as (r & <- & Hr). now apply Hmax. }
  rewrite map_removelast,
    (cells_mean cmp_index3 (auc_entries df) (c, g, t) _ Hnd Hnd').
  unfold baseline_value, samples_at, auc_entries.
  rewrite filter_map_comm, map_map, filter_filter_and. cbn [fst snd].
  do 2 f_equal. apply filter_ext_in. intros r Hr.
  now rewrite eqk_cmp_index3, (Hex (week r) (Hcols r Hr)).
Qed.

(** The group of a gym and a week label among the rows of the melted AUC
    table. *)
Lemma melted_group (dfw : list (Wide (string * string * time)))
      (c g label lab : string)
      (val : Wide (string * string * time) -> number) :
  filter (fun x => eqk cmp3 (c, g, label) (c_country x, c_gym x, c_week x))
         (map (fun r => mkCurve (fst (fst (index r))) (snd (fst (index r)))
                                (hours (snd (index r))) lab (val r)) dfw)
  = if String.eqb lab label
    then map (fun r => mkCurve c g (hours (snd (index r))) lab (val r))
             (filter (fun r => eqk cmp2 (c, g) (fst (index r))) dfw)
    else [].
Proof.
  rewrite filter_map_comm. cbn [c_country c_gym c_week].
  destruct (String.eqb lab label) eqn:El.
  - rewrite (filter_ext _ (fun r => eqk cmp2 (c, g) (fst (index r)))).
    2:{ intros r. rewrite eqk_cmp3, El, andb_true_r.
        now destruct (fst (index r)). }
    apply map_ext_in. intros r Hr. apply filter_In in Hr as [_ Hr].
    apply (eqk_true cmp2) in Hr. now rewrite <- Hr.
  - rewrite filter_none; [reflexivity|].
    intros r _. now rewrite eqk_cmp3, El, andb_false_r.
Qed.

Lemma apply_value {K A B : Type} (f : A -> outcome B) (groups : list (K * A))
      (res : list (K * B)) :
  apply f groups = Return res ->
  forall k g, In (k, g) groups -> exists v, f g = Return v /\ In (k, v) res.
Proof.
  revert res. induction groups as [|[k0 g0] t IH]; simpl; intros res.
  - intros _ k g [].
  - destruct (f g0) as [v0|] eqn:Hf; [|discriminate]. simpl.
    destruct (apply f t) as [rest|]; [|discriminate]. simpl.
    intros [= <-] k g [[= <- <-]|Hin].
    + exists v0. split; [exact Hf|now left].
    + destruct (IH _ eq_refl _ _ Hin) as (v & Hv & Hin').
      exists v. split; [exact Hv|now right].
Qed.

Lemma auc_returns (df : list Windowed) (kickoff : Z) (rows : list Long) :
  snd (prep_data_stats df kickoff false "auc") = Return (Some rows) ->
  NoDup (map fst (auc_entries df)) /\
  n_weeks df = 7%nat /\
  auc_long (wide_table cmp_index3 (auc_entries df)) = Return rows.
Proof.
  unfold prep_data_stats. simpl. rewrite auc_wide_cases.
  destruct (duplicated _ _) eqn:E; [discriminate|].
  destruct (Nat.eqb _ 7) eqn:En; [|discriminate]. simpl.
  destruct (auc_long _) as [rows'|]; [|discriminate]. simpl.
  intros [= <-]. split; [|split; [now apply Nat.eqb_eq|reflexivity]].
  now apply (duplicated_false cmp_index3).
Qed.

(** With seven week labels, the seventh cell is that of the greatest
    week. *)
Lemma auc_w7_cell (df : list Windowed) (c g : string) (t : time) (wlast : Z) :
  n_weeks df = 7%nat ->
  greatest_week df wlast ->
  nth 6 (map (cell cmp_index3 (auc_entries df) (c, g, t))
             (unique_sorted Z.compare
                (map (fun e => snd (fst e)) (auc_entries df)))) NaN
  = latest_value df c g wlast t.
Proof.
  intros Hn [(rl & Hrl & Hwl) Hmax].
  rewrite auc_entries_weeks.
  set (cols := unique_sorted Z.compare (map week df)).
  assert (Hlen : List.length cols = 7%nat)
    by (unfold cols; now rewrite week_labels_length).
  rewrite (nth_indep _ NaN (cell cmp_index3 (auc_entries df) (c, g, t) 0))
    by (rewrite length_map; lia).
  rewrite map_nth, nth_6_last by exact Hlen.
  rewrite (sorted_last cols wlast); [apply auc_cell_value| | |].
  - apply unique_sorted_sorted. exact Order_Z.
  - apply unique_sorted_In; [exact Order_Z|]. rewrite <- Hwl. now apply in_map.
  - intros y Hy. apply (proj1 (unique_sorted_In Z.compare _ _)) in Hy.
    apply in_map_iff in Hy as (r & <- & Hr). now apply Hmax.
Qed.

(** X19: with [norm] unset, the two rows of a gym in the AUC result carry
    the areas under two curves over the times of day at which the gym has
    a row, in ascending order: for "w7" the occupancy of its row of the
    greatest week at that time, missing without one; for "w1-6" the mean
    of the occupancies of its rows of the other weeks at that time. *)
Theorem auc_rows_values (df : list Windowed) (kickoff : Z) (rows : list Long)
        (wlast : Z) (c g : string) :
  snd (prep_data_stats df kickoff false "auc") = Return (Some rows) ->
  greatest_week df wlast ->
  gym_in df c g ->
  exists v1 v7,
    auc (day_curve df c g "w1-6" (baseline_value df c g wlast)) = Return v1 /\
    auc (day_curve df c g "w7" (latest_value df c g wlast)) = Return v7 /\
    In (mkLong c g "w1-6" v1) rows /\
    In (mkLong c g "w7" v7) rows.
Proof.
  intros H Hgw (r0 & Hr0 & Hc0 & Hg0).
  apply auc_returns in H as (Hnd & Hn & Hlong).
  unfold auc_long in Hlong.
  destruct (apply auc _) as [res|] eqn:Hres; [simpl in Hlong|discriminate].
  injection Hlong as <-.
  set (dfw := wide_table cmp_index3 (auc_entries df)) in *.
  set (cols := unique_sorted Z.compare
                 (map (fun e => snd (fst e)) (auc_entries df))).
  assert (Hgym : filter (fun r => eqk cmp2 (c, g) (fst (index r))) dfw
                 = map (fun t => with_w1_6
                                   ((c, g, t),
                                    map (cell cmp_index3 (auc_entries df) (c, g, t))
                                        cols))
                       (gym_times df c g)).
  { unfold dfw, wide_table. rewrite filter_map_comm. cbn [with_w1_6 index fst].
    now rewrite gym_index_keys, map_map. }
  destruct (wide_index_present cmp_index3 country_of_gym_time false
              (auc_entries df)
              ((country r0, gym r0, time_of (datetime r0)), week r0, occupancy r0))
    as (wr & Hwr & Hi).
  { unfold auc_entries. apply in_map_iff. eauto. }
  fold dfw in Hwr. simpl in Hi. rewrite Hc0, Hg0 in Hi.
  assert (Hrow : forall label v,
             In (mkMelted (index wr) label v) (melt dfw) ->
             exists grp x,
               In (c, g, label, grp)
                  (groupby cmp3 (fun r => (c_country r, c_gym r, c_week r))
                     (map (fun r => let k := m_index r in
                                    mkCurve (fst (fst k)) (snd (fst k))
                                            (hours (snd k)) (m_week r)
                                            (m_occupancy r))
                          (melt dfw))) /\
               auc grp = Return x /\
               In (mkLong c g label x)
                  (sort_values cmp2 (fun r => (l_week r, l_gym r))
                     (map (fun g0 => let k := fst g0 in
                                     mkLong (fst (fst k)) (snd (fst k))
                                            (snd k) (snd g0)) res))).
  { intros label v Hm.
    match type of Hres with
    | apply auc (groupby cmp3 ?key ?l) = _ =>
        destruct (groupby_present cmp3 key
                    (mkCurve c g (hours (time_of (datetime r0))) label v) l)
          as (grp & Hgrp)
    end.
    { apply in_map_iff. exists (mkMelted (index wr) label v).
      split; [|exact Hm]. now rewrite Hi. }
    destruct (apply_value _ _ _ Hres _ _ Hgrp) as (x & Hx & Hin).
    exists grp, x. split; [exact Hgrp|]. split; [exact Hx|].
    apply sort_values_In. apply in_map_iff.
    exists ((c, g, label), x). split; [reflexivity|exact Hin]. }
  destruct (Hrow "w1-6"%string (w1_6 wr)) as (grp1 & v1 & Hg1 & Hv1 & Hin1).
  { unfold melt. apply in_or_app. left. apply in_map_iff. eauto. }
  destruct (Hrow "w7"%string (w7 wr)) as (grp7 & v7 & Hg7 & Hv7 & Hin7).
  { unfold melt. apply in_or_app. right. apply in_map_iff. eauto. }
  exists v1, v7. split; [|split; [|split; assumption]].
  - rewrite <- Hv1. f_equal.
    apply (groupby_In cmp3) in Hg1 as [-> _].
    unfold melt. rewrite map_app, filter_app, !map_map. cbn [m_index m_week m_occupancy].
    rewrite !melted_group. cbn [String.eqb Ascii.eqb Bool.eqb]. rewrite app_nil_r.
    rewrite Hgym, map_map. unfold day_curve. apply map_ext. intros t.
    cbn [with_w1_6 index w1_6 fst snd]. f_equal.
    symmetry. now apply auc_cells_mean.
  - rewrite <- Hv7. f_equal.
    apply (groupby_In cmp3) in Hg7 as [-> _].
    unfold melt. rewrite map_app, filter_app, !map_map. cbn [m_index m_week m_occupancy].
    rewrite !melted_group. cbn [String.eqb Ascii.eqb Bool.eqb].
    rewrite Hgym, map_map. unfold day_curve. apply map_ext. intros t.
    cbn [with_w1_6 index w7 fst snd]. f_equal.
    symmetry. now apply auc_w7_cell.
Qed.

Lemma auc_rows_values_witness :
  let df := Samples.three_hours in
  let rows := [mkLong "England" "gymA" "w1-6" (Fin 100);
               mkLong "England" "gymA" "w7" (Fin 100)] in
  snd (prep_data_stats df 20 false "auc") = Return (Some rows) /\
  exists v1 v7,
    auc (day_curve df "England" "gymA" "w1-6"
                   (baseline_value df "England" "gymA" 7)) = Return v1 /\
    auc (day_curve df "England" "gymA" "w7"
                   (latest_value df "England" "gymA" 7)) = Return v7 /\
    In (mkLong "England" "gymA" "w1-6" v1) rows /\
    In (mkLong "England" "gymA" "w7" v7) rows.
Proof.
  cbv zeta. split; [vm_compute; reflexivity|].
  apply (auc_rows_values Samples.three_hours 20).
  - vm_compute. reflexivity.
  - split.
    + eexists. split; [vm_compute; right; right; right; right; right; right;
                       left; reflexivity|reflexivity].
    + intros r Hr. revert r Hr. apply Forall_forall. vm_compute.
      repeat (constructor; [discriminate|]). constructor.
  - eexists. split; [left; reflexivity|split; reflexivity].
Defined.

(* ------------------------------------------------------------------ *)
(** ** The name of the match day in [plot_match] *)

(** X20: the lookup of the name of the match day in [plot_match] never
    fails: every date has a day of the week from 0 to 6, and [dow_map] has
    a name for each of them. *)
Theorem dow_defined (match_date : date) :
  0 <= weekday match_date <= 6 /\
  exists name, dow match_date = Some name /\
               In (weekday match_date, name) dow_map.
Proof.
  unfold dow, weekday, weekday_of_ord.
  set (n := toordinal match_date).
  pose proof (Z.mod_pos_bound (n + 6) 7 eq_refl) as Hb.
  split; [lia|].
  set (w := (n + 6) mod 7) in *.
  assert (Hw : w = 0 \/ w = 1 \/ w = 2 \/ w = 3 \/ w = 4 \/ w = 5 \/ w = 6)
    by lia.
  destruct Hw as [->|[->|[->|[->|[->|[->| ->]]]]]];
    (eexists; split; [reflexivity|simpl; tauto]).
Qed.

(* ------------------------------------------------------------------ *)
(** ** Normalised values of the kick-off result *)

Lemma kickoff_result_baseline (dfw : list (Wide (string * string))) (c : string) :
  baseline country_of_gym dfw c = result_baseline (kickoff_long dfw) c.
Proof.
  unfold baseline, result_baseline, kickoff_long, melt.
  rewrite !map_app, !map_map, filter_app, !filter_map_comm.
  cbn [m_index m_week m_occupancy l_country l_week].
  rewrite (filter_none (fun a : Wide (string * string) =>
                          String.eqb (fst (index a)) c
                          && String.eqb "w7" "w1-6")).
  2:{ intros a _. apply andb_false_r. }
  rewrite app_nil_r, map_map. cbn [l_value]. f_equal. f_equal.
  apply filter_ext. intros a. unfold country_of_gym.
  now rewrite andb_true_r.
Qed.

(** X21: in the kick-off branch normalisation divides every value of the
    table returned without it by the mean of the "w1-6" values of the
    row's country in that table, when the country is England or Scotland,
    and by a missing value otherwise; rows and keys are unchanged. *)
Theorem kickoff_norm_values (df : list Windowed) (kickoff : Z)
        (rows : list Long) :
  snd (prep_data_stats df kickoff true "kick-off") = Return (Some rows) ->
  exists rows',
    snd (prep_data_stats df kickoff false "kick-off") = Return (Some rows') /\
    rows = map (fun x => mkLong (l_country x) (l_gym x) (l_week x)
                                (div (l_value x)
                                     (result_divisor rows' (l_country x))))
               rows'.
Proof.
  intros H.
  assert (Hf : snd (prep_data_stats df kickoff false "kick-off")
               = Return (Some (kickoff_long
                                 (wide_table cmp2
                                    (kickoff_entries (at_kickoff kickoff df)))))).
  { revert H. unfold prep_data_stats. simpl.
    destruct (kickoff_wide df kickoff) as [dfw|] eqn:Hw; [|discriminate].
    apply kickoff_wide_table in Hw. now subst dfw. }
  apply kickoff_returns in H as [_ ->].
  set (dfw := wide_table cmp2 (kickoff_entries (at_kickoff kickoff df))) in *.
  exists (kickoff_long dfw). split; [exact Hf|].
  assert (Hd : forall c, mapped_baseline country_of_gym dfw c
                         = result_divisor (kickoff_long dfw) c).
  { intros c. unfold mapped_baseline, result_divisor.
    now rewrite !kickoff_result_baseline. }
  rewrite normalise_rows. unfold kickoff_long at 1 3, melt.
  rewrite !map_app, !map_map. cbn [m_index m_week m_occupancy].
  cbn [l_country l_gym l_week l_value normalise_row index w1_6 w7].
  f_equal; apply map_ext; intros r; now rewrite <- Hd.
Qed.

Lemma kickoff_norm_values_witness :
  let rows' := [mkLong "England" "gymA" "w1-6" (Fin 40);
                mkLong "England" "gymB" "w1-6" (Fin 60);
                mkLong "England" "gymA" "w7" (Fin 40);
                mkLong "England" "gymB" "w7" (Fin 60)] in
  let rows := [mkLong "England" "gymA" "w1-6" (Fin (4 # 5));
               mkLong "England" "gymB" "w1-6" (Fin (6 # 5));
               mkLong "England" "gymA" "w7" (Fin (4 # 5));
               mkLong "England" "gymB" "w7" (Fin (6 # 5))] in
  snd (prep_data_stats Samples.two_gyms 20 false "kick-off")
  = Return (Some rows') /\
  exists rows'',
    snd (prep_data_stats Samples.two_gyms 20 false "kick-off")
    = Return (Some rows'') /\
    rows = map (fun x => mkLong (l_country x) (l_gym x) (l_week x)
                                (div (l_value x)
                                     (result_divisor rows'' (l_country x))))
               rows''.
Proof.
  cbv zeta. split; [vm_compute; reflexivity|].
  apply (kickoff_norm_values Samples.two_gyms 20).
  vm_compute. reflexivity.
Defined.
